(** * Financial portfolio tracker: data-access layer and pages

    A shallow embedding of [backend.py] (class [FinancialPortfolioTracker])
    and of the page functions of [frontend.py], together with the parts of
    their environment that their behaviour depends on: Python's
    [decimal.Decimal] arithmetic under the default context, binary64
    floats, and the PostgreSQL statements the class issues.

    Layout: numeric types, the relational store and the statements, the
    interpreter monad (state, exceptions), the methods of the class, the
    pages, and then the properties. *)

From Stdlib Require Import ZArith QArith Qpower Qabs Qround Lia.
From stdpp Require Import base list strings gmap sorting.

Local Open Scope Z_scope.

(* ================================================================== *)
(** ** [decimal.Decimal] under the default context *)
(* ================================================================== *)

(** A finite decimal number [coef * 10 ^ dexp].  NaN and the infinities
    are left out (no arithmetic here produces them from finite operands)
    and so is the sign of zero.  The exponent limits Emin/Emax of the
    default context (-999999 / 999999) are not represented: a NUMERIC
    column holds at most 131072 digits before and 16383 digits after the
    decimal point, which keeps every result below far away from them. *)
Record Decimal : Type := mkDec { coef : Z; dexp : Z }.

(** The number denoted by a decimal. *)
Definition dval (d : Decimal) : Q := (inject_Z (coef d) * (10 # 1) ^ dexp d)%Q.

(** [getcontext().prec] *)
Definition prec : Z := 28.

Fixpoint digits_aux (fuel : nat) (n : Z) : Z :=
  match fuel with
  | O => 1
  | S f => if n <? 10 then 1 else 1 + digits_aux f (n / 10)
  end.

(** Number of decimal digits of a non-negative coefficient, [len(str(n))]. *)
Definition ndigits (n : Z) : Z := digits_aux (Z.to_nat (Z.log2 n)) n.

(** [n / p] rounded to the nearest integer, ties to even (ROUND_HALF_EVEN,
    also the rounding of binary64); [0 <= n], [0 < p]. *)
Definition round_half_even (n p : Z) : Z :=
  let q := n / p in
  let r := n mod p in
  if 2 * r <? p then q
  else if p <? 2 * r then q + 1
  else if Z.even q then q else q + 1.

(** [Decimal._fix]: round a result to [prec] significant digits.  The
    boolean is the [Inexact] signal: non-zero digits were discarded. *)
Definition dfix (d : Decimal) : Decimal * bool :=
  let n := Z.abs (coef d) in
  let k := ndigits n - prec in
  if k <=? 0 then (d, false)
  else
    let q := round_half_even n (10 ^ k) in
    let inexact := negb (n mod 10 ^ k =? 0) in
    if q =? 10 ^ prec
    then (mkDec (Z.sgn (coef d) * (q / 10)) (dexp d + k + 1), inexact)
    else (mkDec (Z.sgn (coef d) * q) (dexp d + k), inexact).

(** Results of decimal operations before rounding. *)
Definition dmul_exact (a b : Decimal) : Decimal :=
  mkDec (coef a * coef b) (dexp a + dexp b).

Definition dadd_exact (a b : Decimal) : Decimal :=
  let m := Z.min (dexp a) (dexp b) in
  mkDec (coef a * 10 ^ (dexp a - m) + coef b * 10 ^ (dexp b - m)) m.

Definition dneg (a : Decimal) : Decimal := mkDec (- coef a) (dexp a).

(** A computation on decimals: its value and whether it raised [Inexact]. *)
Definition Dec (A : Type) : Type := A * bool.

#[global] Instance dec_ret : MRet Dec := λ A a, (a, false).
#[global] Instance dec_bind : MBind Dec := λ A B k c,
  let '(a, i) := c in let '(b, j) := k a in (b, i || j).

(** [a * b], [a + b], [a - b] on [Decimal] objects. *)
Definition dmul (a b : Decimal) : Dec Decimal := dfix (dmul_exact a b).
Definition dadd (a b : Decimal) : Dec Decimal := dfix (dadd_exact a b).
Definition dsub (a b : Decimal) : Dec Decimal := dfix (dadd_exact a (dneg b)).

(** Numeric comparison of decimals, as NUMERIC's and [Decimal]'s [<=]. *)
Definition dleb (a b : Decimal) : bool :=
  let m := Z.min (dexp a) (dexp b) in
  coef a * 10 ^ (dexp a - m) <=? coef b * 10 ^ (dexp b - m).

(* ================================================================== *)
(** ** binary64 floats *)
(* ================================================================== *)

(** A Python [float]: [m * 2 ^ e] with [|m| < 2 ^ 53] and
    [-1074 <= e <= 971], an infinity, or NaN.  The sign of zero is not
    represented. *)
Inductive float64 : Type :=
  | F64 (m e : Z)
  | F64_inf (negative : bool)
  | F64_nan.

Definition fval (f : float64) : Q :=
  match f with
  | F64 m e => (inject_Z m * (2 # 1) ^ e)%Q
  | _ => 0%Q
  end.

(** Floor of the binary logarithm of [n / d], for [0 < n], [0 < d]. *)
Definition ilog2_ratio (n d : Z) : Z :=
  let l := Z.log2 n - Z.log2 d in
  if n * 2 ^ Z.max 0 (- l) <? d * 2 ^ Z.max 0 l then l - 1 else l.

(** Round a rational to the nearest binary64, ties to even. *)
Definition b64_round (q : Q) : float64 :=
  let n := Z.abs (Qnum q) in
  let d := Z.pos (Qden q) in
  if n =? 0 then F64 0 0
  else
    let e := Z.max (ilog2_ratio n d - 52) (-1074) in
    let m := round_half_even (n * 2 ^ Z.max 0 (- e)) (d * 2 ^ Z.max 0 e) in
    let '(m, e) := if m =? 2 ^ 53 then (2 ^ 52, e + 1) else (m, e) in
    if 971 <? e then F64_inf (Qnum q <? 0)
    else if m =? 0 then F64 0 0
    else F64 (Z.sgn (Qnum q) * m) e.

(** [float(d)] for a [Decimal] (correctly rounded). *)
Definition float_of_decimal (d : Decimal) : float64 := b64_round (dval d).

(** [float(n)] for an [int]. *)
Definition float_of_int (n : Z) : float64 := b64_round (inject_Z n).

(** IEEE division, as numpy's [float64] performs it. *)
Definition f64_div (a b : float64) : float64 :=
  match a, b with
  | F64_nan, _ | _, F64_nan => F64_nan
  | F64_inf _, F64_inf _ => F64_nan
  | F64_inf s, F64 m _ => F64_inf (xorb s (m <? 0))
  | F64 _ _, F64_inf _ => F64 0 0
  | F64 m1 e1, F64 m2 e2 =>
      if m2 =? 0 then (if m1 =? 0 then F64_nan else F64_inf (m1 <? 0))
      else b64_round (fval a / fval b)
  end.

(** IEEE addition. *)
Definition f64_add (a b : float64) : float64 :=
  match a, b with
  | F64_nan, _ | _, F64_nan => F64_nan
  | F64_inf s, F64_inf t => if eqb s t then F64_inf s else F64_nan
  | F64_inf s, _ | _, F64_inf s => F64_inf s
  | F64 _ _, F64 _ _ => b64_round (fval a + fval b)
  end.

(** The Python values that occur in the dictionaries the class returns. *)
Inductive pyval : Type :=
  | PyInt (n : Z)
  | PyDec (d : Decimal)
  | PyFloat (f : float64).

(* ================================================================== *)
(** ** The relational store *)
(* ================================================================== *)

Record date : Type := mkDate { year : Z; month : Z; day : Z }.

Definition date_leb (a b : date) : bool :=
  (year a <? year b)
  || ((year a =? year b)
      && ((month a <? month b) || ((month a =? month b) && (day a <=? day b)))).

(** A row of [assets]. *)
Record asset : Type := mkAsset {
  ticker : string;
  purchase_date : date;
  shares : Decimal;
  cost_basis : Decimal;
  asset_class : string
}.

(** A row of [transactions]. *)
Record transaction : Type := mkTransaction {
  t_ticker : string;
  transaction_date : date;
  transaction_type : string;
  amount : Decimal;
  notes : option string
}.

Record database : Type := mkDb {
  assets : list asset;
  transactions : list transaction
}.

(** Referential action of a foreign key. *)
Inductive ref_action : Type := NoAction | Cascade.

(** Modelled from the spec: the relational schema and the server, which
    this code base does not create.  The spec gives
    [assets(ticker PRIMARY KEY/UNIQUE, purchase_date, shares, cost_basis,
    asset_class)] and [transactions(ticker REFERENCES assets,
    transaction_date, transaction_type, amount, notes)] with cascading
    delete on the asset reference; [shares], [cost_basis] and [amount] are
    decimal (NUMERIC) columns.  What it leaves open is a parameter:
    - [fk_on_update]: the action of the foreign key when a referenced
      ticker is changed (PostgreSQL's default is NO ACTION);
    - [collate_leb]: the collation that ORDER BY uses on [ticker]. *)
Record server : Type := mkServer {
  fk_on_update : ref_action;
  collate_leb : string -> string -> bool
}.

(** Errors of class [psycopg2.Error]. *)
Inductive pg_error : Type :=
  | UniqueViolation
  | ForeignKeyViolation
  | OperationalError
  | InterfaceError.

Definition tickers (db : database) : list string := ticker <$> assets db.

Definition has_ticker (t : string) (db : database) : bool :=
  bool_decide (t ∈ tickers db).

Definition referenced (t : string) (db : database) : bool :=
  bool_decide (t ∈ (t_ticker <$> transactions db)).

Definition retarget (old new : string) (x : transaction) : transaction :=
  if decide (t_ticker x = old)
  then mkTransaction new (transaction_date x) (transaction_type x) (amount x) (notes x)
  else x.

(** The data-modifying statements the class issues. *)
Inductive statement : Type :=
  | InsertAsset (r : asset)
      (* INSERT INTO assets (...) VALUES (...) ON CONFLICT (ticker) DO NOTHING *)
  | UpdateAsset (r : asset) (original_ticker : string)
      (* UPDATE assets SET ticker = .., .. WHERE ticker = original_ticker *)
  | DeleteAsset (t : string)
      (* DELETE FROM assets WHERE ticker = t *)
  | InsertTransaction (x : transaction).
      (* INSERT INTO transactions (...) VALUES (...) *)

(** PostgreSQL's effect of one statement on the tables under this schema,
    or the error the statement is rejected with.  A statement is atomic:
    a rejected one changes nothing.
    - INSERT .. ON CONFLICT (ticker) DO NOTHING skips the row when its
      ticker is taken.
    - UPDATE rewrites the row whose ticker is [original_ticker]; matching no
      row is not an error.  A changed ticker must not be that of another
      row, and when transactions refer to the old ticker the foreign key
      either rejects the change or carries the transactions along.
    - DELETE removes the row and, through the cascading foreign key, the
      transactions that refer to it; matching no row is not an error.
    - A new transaction must refer to an existing asset.
    Tables keep their rows in order of insertion, an updated row stays in
    place; SQL leaves the order of an unordered SELECT open, and nothing
    below depends on it. *)
Definition run_statement (srv : server) (q : statement) (db : database)
  : pg_error + database :=
  match q with
  | InsertAsset r =>
      if has_ticker (ticker r) db then inr db
      else inr (mkDb (assets db ++ [r]) (transactions db))
  | UpdateAsset r t =>
      if has_ticker t db then
        let assets' := (λ a, if decide (ticker a = t) then r else a) <$> assets db in
        if decide (ticker r = t) then inr (mkDb assets' (transactions db))
        else if has_ticker (ticker r) db then inl UniqueViolation
        else if referenced t db then
          match fk_on_update srv with
          | NoAction => inl ForeignKeyViolation
          | Cascade => inr (mkDb assets' (retarget t (ticker r) <$> transactions db))
          end
        else inr (mkDb assets' (transactions db))
      else inr db
  | DeleteAsset t =>
      if has_ticker t db then
        inr (mkDb (filter (λ a, ticker a ≠ t) (assets db))
                  (filter (λ x, t_ticker x ≠ t) (transactions db)))
      else inr db
  | InsertTransaction x =>
      if has_ticker (t_ticker x) db
      then inr (mkDb (assets db) (transactions db ++ [x]))
      else inl ForeignKeyViolation
  end.

Definition ticker_le (srv : server) (a b : asset) : Prop :=
  collate_leb srv (ticker a) (ticker b) = true.

Definition date_ge (a b : transaction) : Prop :=
  date_leb (transaction_date b) (transaction_date a) = true.

#[global] Instance ticker_le_dec srv : RelDecision (ticker_le srv).
Proof. intros a b. unfold ticker_le. apply _. Defined.

#[global] Instance date_ge_dec : RelDecision date_ge.
Proof. intros a b. unfold date_ge. apply _. Defined.

(** [SELECT * FROM assets ORDER BY ticker] *)
Definition select_assets (srv : server) (db : database) : list asset :=
  merge_sort (ticker_le srv) (assets db).

(** [SELECT * FROM transactions ORDER BY transaction_date DESC] *)
Definition select_transactions (db : database) : list transaction :=
  merge_sort date_ge (transactions db).

(** A row of [SELECT ticker, shares, cost_basis, asset_class FROM assets],
    which becomes a row of the data frame. *)
Record df_row : Type := mkDfRow {
  df_ticker : string;
  df_shares : Decimal;
  df_cost_basis : Decimal;
  df_asset_class : string
}.

Definition select_asset_columns (db : database) : list df_row :=
  (λ a, mkDfRow (ticker a) (shares a) (cost_basis a) (asset_class a)) <$> assets db.

(** NUMERIC addition is exact. *)
Definition numeric_add (a b : Decimal) : Decimal := dadd_exact a b.

(** Aggregates over a column; NULL ([None]) over no rows. *)
Definition sql_fold (f : Decimal -> Decimal -> Decimal) (l : list Decimal)
  : option Decimal :=
  match l with
  | [] => None
  | x :: xs => Some (fold_left f xs x)
  end.

Definition sql_sum : list Decimal -> option Decimal := sql_fold numeric_add.
Definition sql_min : list Decimal -> option Decimal :=
  sql_fold (λ acc x, if dleb acc x then acc else x).
Definition sql_max : list Decimal -> option Decimal :=
  sql_fold (λ acc x, if dleb x acc then acc else x).

(** NUMERIC division of a sum by a row count, which AVG returns
    (PostgreSQL, [numeric.c]).  A NUMERIC is a string of digits in base
    10000; [nbase_weight] is the power of 10000 of the leading digit of
    [n * 10 ^ e] ([0 < n]) and [nbase_first] is that digit. *)
Definition nbase_weight (n e : Z) : Z := (ndigits n - 1 + e) / 4.

Definition nbase_first (n e : Z) : Z :=
  let k := e - 4 * nbase_weight n e in
  if 0 <=? k then n * 10 ^ k else n / 10 ^ (- k).

(** [select_div_scale]: the number of decimals of a quotient.  It gives
    at least 16 significant digits, judged from the leading digits of the
    operands, and no fewer decimals than the dividend has; at most 1000. *)
Definition select_div_scale (x : Decimal) (n : Z) : Z :=
  let a := Z.abs (coef x) in
  let weight1 := if a =? 0 then 0 else nbase_weight a (dexp x) in
  let firstdigit1 := if a =? 0 then 0 else nbase_first a (dexp x) in
  let weight2 := nbase_weight n 0 in
  let firstdigit2 := nbase_first n 0 in
  let qweight := weight1 - weight2 - (if firstdigit1 <=? firstdigit2 then 1 else 0) in
  Z.min 1000 (Z.max 0 (Z.max (- dexp x) (16 - 4 * qweight))).

(** The nearest integer, halves away from zero ([round_var]). *)
Definition round_half_away (q : Q) : Z :=
  Z.sgn (Qnum q) * ((2 * Z.abs (Qnum q) + Z.pos (Qden q)) / (2 * Z.pos (Qden q))).

(** [numeric_div] by a count [0 < n]: the quotient rounded to
    [select_div_scale] decimals. *)
Definition numeric_div (x : Decimal) (n : Z) : Decimal :=
  let rscale := select_div_scale x n in
  mkDec (round_half_away (dval x * inject_Z (10 ^ rscale) / inject_Z n)) (- rscale).

Definition sql_avg (l : list Decimal) : option Decimal :=
  (λ s, numeric_div s (Z.of_nat (length l))) <$> sql_sum l.

(** Transition of the grouped SUM: add [x] to the group of [c]. *)
Fixpoint group_add (c : string) (x : Decimal) (acc : list (string * Decimal))
  : list (string * Decimal) :=
  match acc with
  | [] => [(c, x)]
  | (c', s) :: rest =>
      if decide (c' = c) then (c', numeric_add s x) :: rest
      else (c', s) :: group_add c x rest
  end.

(** [SELECT asset_class, SUM(cost_basis) FROM assets GROUP BY asset_class];
    the groups come in order of first appearance. *)
Definition select_allocation (db : database) : list (string * Decimal) :=
  fold_left (λ acc a, group_add (asset_class a) (cost_basis a) acc) (assets db) [].

(** The row of
    [SELECT COUNT( * ), SUM(cost_basis), AVG(cost_basis), MIN(shares),
    MAX(shares) FROM assets]. *)
Record insights_row : Type := mkInsightsRow {
  r_count : option Z;
  r_sum : option Decimal;
  r_avg : option Decimal;
  r_min : option Decimal;
  r_max : option Decimal
}.

(** The query as the server [srv] evaluates it; none of its aggregates
    depends on the parameters of the server. *)
Definition select_insights (srv : server) (db : database) : option insights_row :=
  let costs := cost_basis <$> assets db in
  let held := shares <$> assets db in
  Some (mkInsightsRow (Some (Z.of_nat (length (assets db))))
                      (sql_sum costs) (sql_avg costs)
                      (sql_min held) (sql_max held)).

(* ================================================================== *)
(** ** The interpreter: state and exceptions *)
(* ================================================================== *)

(** A line written by [print]. *)
Inductive log_line : Type :=
  | LogInfo (msg : string)
  | LogError (context : string) (e : pg_error).

(** What the methods read and change: the store behind the connection
    ([committed] is durable, [pending] is what the connection's open
    transaction sees), the clock, the [Inexact] flag of the decimal
    context and the console. *)
Record world : Type := mkWorld {
  committed : database;
  pending : database;
  today : date;
  inexact : bool;
  stdout : list log_line
}.

(** Exceptions: those of class [psycopg2.Error], which the methods catch,
    and the others, which they would let through. *)
Inductive exn : Type :=
  | Psycopg2Error (e : pg_error)
  | PyException (msg : string).

Inductive outcome (A : Type) : Type :=
  | Returned (a : A)
  | Raised (e : exn).
Arguments Returned {A} a.
Arguments Raised {A} e.

Definition Py (A : Type) : Type := world -> outcome A * world.

#[global] Instance py_ret : MRet Py := λ A a w, (Returned a, w).
#[global] Instance py_bind : MBind Py := λ A B k c w,
  match c w with
  | (Returned a, w') => k a w'
  | (Raised e, w') => (Raised e, w')
  end.

(** [try: body except psycopg2.Error as e: handler] *)
Definition try_except {A} (body : Py A) (handler : pg_error -> Py A) : Py A :=
  λ w, match body w with
       | (Raised (Psycopg2Error e), w') => handler e w'
       | r => r
       end.

(** What happens to a call for reasons outside the tables.
    - [Rejected]: the server rejects the statement (statement timeout,
      lock not granted, transaction block already aborted by an earlier
      failed statement); the session stays usable, so that [commit] and
      [rollback] go through.
    - [ConnectionLost]: the connection is gone (server shut down, network
      failure, connection closed).  The statement fails with an error of
      class [psycopg2.Error] ([OperationalError], or [InterfaceError] when
      the connection was closed before; the handlers catch either), the
      server discards the open transaction, and [commit] and [rollback]
      on the dead connection raise [InterfaceError].  A connection that
      goes between the statement and its [commit] ends a method in the
      same way: [commit] fails, and so does the handler's [rollback].
    A boolean stands for the two cases in which the session survives. *)
Inductive failure : Type :=
  | NoFailure
  | Rejected
  | ConnectionLost.

Definition failure_of_bool (b : bool) : failure :=
  if b then Rejected else NoFailure.
Coercion failure_of_bool : bool >-> failure.

(** The world once the connection is gone: uncommitted changes are lost. *)
Definition disconnected (w : world) : world :=
  mkWorld (committed w) (committed w) (today w) (inexact w) (stdout w).

(** [self.cursor.execute(...)] on a data-modifying statement. *)
Definition cursor_execute (srv : server) (fault : failure) (q : statement) : Py unit :=
  λ w, match fault with
       | ConnectionLost => (Raised (Psycopg2Error OperationalError), disconnected w)
       | Rejected => (Raised (Psycopg2Error OperationalError), w)
       | NoFailure =>
           match run_statement srv q (pending w) with
           | inl e => (Raised (Psycopg2Error e), w)
           | inr db =>
               (Returned (), mkWorld (committed w) db (today w) (inexact w) (stdout w))
           end
       end.

(** [self.cursor.execute(...)] on a SELECT, followed by the fetch. *)
Definition cursor_query {A} (fault : failure) (select : database -> A) : Py A :=
  λ w, match fault with
       | ConnectionLost => (Raised (Psycopg2Error OperationalError), disconnected w)
       | Rejected => (Raised (Psycopg2Error OperationalError), w)
       | NoFailure => (Returned (select (pending w)), w)
       end.

(** [self.conn.commit()] and [self.conn.rollback()]: both raise on a
    connection that is gone. *)
Definition conn_commit (fault : failure) : Py unit :=
  λ w, match fault with
       | ConnectionLost => (Raised (Psycopg2Error InterfaceError), w)
       | _ => (Returned (),
               mkWorld (pending w) (pending w) (today w) (inexact w) (stdout w))
       end.

Definition conn_rollback (fault : failure) : Py unit :=
  λ w, match fault with
       | ConnectionLost => (Raised (Psycopg2Error InterfaceError), w)
       | _ => (Returned (),
               mkWorld (committed w) (committed w) (today w) (inexact w) (stdout w))
       end.

Definition print (l : log_line) : Py unit :=
  λ w, (Returned (), mkWorld (committed w) (pending w) (today w) (inexact w) (stdout w ++ [l])).

(** [datetime.now().date()] *)
Definition now_date : Py date := λ w, (Returned (today w), w).

(** Run decimal arithmetic; [Inexact] is sticky in the context. *)
Definition decimal_op {A} (c : Dec A) : Py A :=
  λ w, (Returned c.1,
        mkWorld (committed w) (pending w) (today w) (inexact w || c.2) (stdout w)).

(** A dict literal or comprehension: keys are inserted in order. *)
Definition py_dict (l : list (string * pyval)) : gmap string pyval :=
  fold_left (λ m kv, <[kv.1 := kv.2]> m) l ∅.

(* ================================================================== *)
(** ** pandas on columns of [Decimal] objects *)
(* ================================================================== *)

(** [series.apply(f)] *)
Fixpoint series_apply (f : Decimal -> Dec Decimal) (s : list Decimal)
  : Dec (list Decimal) :=
  match s with
  | [] => mret []
  | x :: s' => y ← f x; r ← series_apply f s'; mret (y :: r)
  end.

(** [s op t], element by element *)
Fixpoint series_binop (op : Decimal -> Decimal -> Dec Decimal) (s t : list Decimal)
  : Dec (list Decimal) :=
  match s, t with
  | x :: s', y :: t' => z ← op x y; r ← series_binop op s' t'; mret (z :: r)
  | _, _ => mret []
  end.

(** Left-to-right reduction with [+]. *)
Fixpoint decimal_sum (acc : Decimal) (s : list Decimal) : Dec Decimal :=
  match s with
  | [] => mret acc
  | x :: s' => acc' ← dadd acc x; decimal_sum acc' s'
  end.

(** [series.sum()] on a column of objects: a reduction with [+] that
    starts from the first element; [0] for an empty column. *)
Definition series_sum (s : list Decimal) : Dec pyval :=
  match s with
  | [] => mret (PyInt 0)
  | x :: s' => t ← decimal_sum x s'; mret (PyDec t)
  end.

Definition float_of_pyval (v : pyval) : float64 :=
  match v with
  | PyInt n => float_of_int n
  | PyDec d => float_of_decimal d
  | PyFloat f => f
  end.

(** [series.mean()]: the sum is converted to a float and divided by the
    count. *)
Definition series_mean (s : list Decimal) : Dec pyval :=
  t ← series_sum s;
  mret (PyFloat (f64_div (float_of_pyval t) (float_of_int (Z.of_nat (length s))))).

(* ================================================================== *)
(** ** [class FinancialPortfolioTracker] *)
(* ================================================================== *)

Definition create_asset (srv : server) (fault : failure)
    (ticker : string) (purchase_date : date) (shares cost_basis : Decimal)
    (asset_class : string) : Py bool :=
  try_except
    (cursor_execute srv fault
       (InsertAsset (mkAsset ticker purchase_date shares cost_basis asset_class));;
     conn_commit fault;;
     print (LogInfo ("Asset '" +:+ ticker +:+ "' created successfully."));;
     mret true)
    (λ e,
     conn_rollback fault;;
     print (LogError "Error creating asset" e);;
     mret false).

Definition read_all_assets (srv : server) (fault : failure) : Py (list asset) :=
  try_except
    (rows ← cursor_query fault (select_assets srv);
     mret rows)
    (λ e,
     print (LogError "Error reading assets" e);;
     mret []).

Definition update_asset (srv : server) (fault : failure)
    (original_ticker new_ticker : string) (purchase_date : date)
    (shares cost_basis : Decimal) (asset_class : string) : Py bool :=
  try_except
    (cursor_execute srv fault
       (UpdateAsset (mkAsset new_ticker purchase_date shares cost_basis asset_class)
                    original_ticker);;
     conn_commit fault;;
     print (LogInfo ("Asset '" +:+ original_ticker +:+ "' updated successfully."));;
     mret true)
    (λ e,
     conn_rollback fault;;
     print (LogError "Error updating asset" e);;
     mret false).

Definition delete_asset (srv : server) (fault : failure) (ticker : string) : Py bool :=
  try_except
    (cursor_execute srv fault (DeleteAsset ticker);;
     conn_commit fault;;
     print (LogInfo ("Asset '" +:+ ticker +:+ "' deleted successfully."));;
     mret true)
    (λ e,
     conn_rollback fault;;
     print (LogError "Error deleting asset" e);;
     mret false).

Definition add_transaction (srv : server) (fault : failure)
    (ticker transaction_type : string) (amount : Decimal) (notes : option string)
  : Py bool :=
  try_except
    (d ← now_date;
     cursor_execute srv fault
       (InsertTransaction (mkTransaction ticker d transaction_type amount notes));;
     conn_commit fault;;
     print (LogInfo ("Transaction for '" +:+ ticker +:+ "' added successfully."));;
     mret true)
    (λ e,
     conn_rollback fault;;
     print (LogError "Error adding transaction" e);;
     mret false).

Definition get_all_transactions (fault : failure) : Py (list transaction) :=
  try_except
    (rows ← cursor_query fault select_transactions;
     mret rows)
    (λ e,
     print (LogError "Error retrieving transactions" e);;
     mret []).

(** [Decimal('1.10')] *)
Definition d1_10 : Decimal := mkDec 110 (-2).

(** The in-memory part of [get_portfolio_summary], on a non-empty frame. *)
Definition portfolio_totals (assets_df : list df_row) : Dec (gmap string pyval) :=
  let cost := df_cost_basis <$> assets_df in
  (* assets_df['current_price'] = assets_df['cost_basis'].apply(lambda x: x * Decimal('1.10')) *)
  current_price ← series_apply (λ x, dmul x d1_10) cost;
  (* assets_df['current_value'] = assets_df['shares'] * assets_df['current_price'] *)
  current_value ← series_binop dmul (df_shares <$> assets_df) current_price;
  (* assets_df['gain_loss'] = assets_df['current_value'] - assets_df['cost_basis'] *)
  gain_loss ← series_binop dsub current_value cost;
  total_cost_basis ← series_sum cost;
  total_market_value ← series_sum current_value;
  total_gain_loss ← series_sum gain_loss;
  avg_cost_basis ← series_mean cost;
  mret (py_dict [("total_assets_count", PyInt (Z.of_nat (length assets_df)));
                 ("total_cost_basis", total_cost_basis);
                 ("total_market_value", total_market_value);
                 ("total_gain_loss", total_gain_loss);
                 ("avg_cost_basis", avg_cost_basis)]).

(** The all-zero dictionary of [get_portfolio_summary]. *)
Definition zero_summary : gmap string pyval :=
  py_dict [("total_assets_count", PyInt 0);
           ("total_cost_basis", PyInt 0);
           ("total_market_value", PyInt 0);
           ("total_gain_loss", PyInt 0);
           ("avg_cost_basis", PyInt 0)].

Definition get_portfolio_summary (fault : failure) : Py (gmap string pyval) :=
  try_except
    (rows ← cursor_query fault select_asset_columns;
     let assets_df := rows in
     match assets_df with
     | [] => mret zero_summary
     | _ => decimal_op (portfolio_totals assets_df)
     end)
    (λ e,
     print (LogError "Error getting portfolio summary" e);;
     mret ∅).

Definition get_asset_allocation (fault : failure) : Py (gmap string pyval) :=
  try_except
    (allocation ← cursor_query fault select_allocation;
     mret (py_dict ((λ row, (row.1, PyFloat (float_of_decimal row.2))) <$> allocation)))
    (λ e,
     print (LogError "Error getting asset allocation" e);;
     mret ∅).

Definition float_or_zero (x : option Decimal) : pyval :=
  match x with
  | Some d => PyFloat (float_of_decimal d)
  | None => PyFloat (F64 0 0)
  end.

(** The all-zero dictionary of [get_insights]. *)
Definition zero_insights : gmap string pyval :=
  py_dict [("total_assets", PyInt 0);
           ("total_cost_basis", PyFloat (F64 0 0));
           ("avg_cost_basis", PyFloat (F64 0 0));
           ("min_shares", PyFloat (F64 0 0));
           ("max_shares", PyFloat (F64 0 0))].

Definition get_insights (srv : server) (fault : failure) : Py (gmap string pyval) :=
  try_except
    (result ← cursor_query fault (select_insights srv);
     match result with
     | Some (mkInsightsRow (Some n) total avg lo hi) =>
         (* if result and result[0] is not None *)
         mret (py_dict [("total_assets", PyInt n);
                        ("total_cost_basis", float_or_zero total);
                        ("avg_cost_basis", float_or_zero avg);
                        ("min_shares", float_or_zero lo);
                        ("max_shares", float_or_zero hi)])
     | _ => mret zero_insights
     end)
    (λ e,
     print (LogError "Error getting business insights" e);;
     mret ∅).

(* ================================================================== *)
(** ** The pages ([frontend.py]) *)
(* ================================================================== *)

(** What the scripts need from their runtime besides the tracker:
    Python's [str.upper], and the NUMERIC value that a column receives for
    a [float] parameter (psycopg2 sends [repr(x)], the column converts
    it). *)
Record runtime : Type := mkRuntime {
  str_upper : string -> string;
  numeric_of_float : float64 -> Decimal
}.

(** A value in a message or a metric.  Python's formatting is not carried
    out: the format is kept with its argument. *)
Inductive shown : Type :=
  | Money (v : pyval)        (* f"${v:,.2f}" *)
  | Plain (v : pyval)        (* f"{v}" *)
  | Value (v : pyval)        (* v, handed over as it is *)
  | NotAvailable.            (* 'N/A' *)

(** The elements a script puts on the page, in the order in which it
    creates them.  Containers (columns, forms, the sidebar) and the
    attributes that only concern presentation (widget keys, number
    formats, widths) are not represented. *)
Inductive element : Type :=
  | Header (text : string)
  | Subheader (text : string)
  | Markdown (text : string)
  | Info (text : string)
  | Success (text : string)
  | Warning (text : string)
  | ErrorBox (text : string)
  | Metric (label : string) (v : shown)
  | AssetsFrame (rows : list asset)
  | TransactionsFrame (rows : list transaction)
  | PieChart (title : string) (data : gmap string pyval)
  | TextInput (label value : string)
  | TextArea (label : string)
  | NumberInput (label : string) (min_value value : option float64)
  | DateInput (label : string) (value : date)
  | Selectbox (label : string) (options : list string) (index : nat)
  | SubmitButton (label : string).

(** How a script ends: it runs to its end, or [st.experimental_rerun()]
    stops it and asks for a new run. *)
Inductive page_end : Type := Finished | Rerun.

(** [raise]: here for the exceptions that indexing raises. *)
Definition py_raise {A} (e : exn) : Py A := λ w, (Raised e, w).




(** Truth value of a [float] and of a [str]. *)
Definition float_truthy (f : float64) : bool :=
  match f with
  | F64 m _ => negb (m =? 0)
  | _ => true
  end.

Definition str_truthy (s : string) : bool :=
  match s with
  | EmptyString => false
  | _ => true
  end.

(** The options of the asset-class select boxes. *)
Definition asset_classes : list string :=
  ["Equities"; "Fixed Income"; "Crypto"; "Real Estate"; "Other"]%string.

(** [xs.index(x)], or the [ValueError] *)
Fixpoint list_index (x : string) (xs : list string) : option nat :=
  match xs with
  | [] => None
  | y :: ys => if decide (y = x) then Some O else S <$> list_index x ys
  end.


(** What the user entered on the "Manage Assets" page. *)
Record manage_inputs : Type := mkManageInputs {
  add_ticker : string;
  add_shares : float64;
  add_date : date;
  add_class : string;
  add_cost : float64;
  add_submitted : bool;
  select_asset : string;
  update_ticker : string;
  update_shares : float64;
  update_date : date;
  update_class : string;
  update_cost : float64;
  update_btn : bool;
  delete_btn : bool
}.

(** [with st.form("add_asset_form", clear_on_submit=True)] *)
Definition add_asset_form (rt : runtime) (srv : server) (f_create : failure)
    (inp : manage_inputs) : Py (list element) :=
  let ticker := str_upper rt (add_ticker inp) in
  let shares := add_shares inp in
  now ← now_date;
  let purchase_date := add_date inp in
  let asset_class := add_class inp in
  let cost_basis := add_cost inp in
  let widgets :=
    [TextInput "Ticker Symbol" "";
     NumberInput "Number of Shares" (Some (b64_round (1 # 100))) None;
     DateInput "Purchase Date" now;
     Selectbox "Asset Class" asset_classes 0;
     NumberInput "Total Cost Basis" (Some (b64_round (1 # 100))) None;
     SubmitButton "Add Asset"] in
  let submitted := add_submitted inp in
  if submitted then
    if str_truthy ticker && float_truthy shares && float_truthy cost_basis then
      ok ← create_asset srv f_create ticker purchase_date
             (numeric_of_float rt shares) (numeric_of_float rt cost_basis) asset_class;
      if (ok : bool) return Py (list element)
      then mret (widgets ++ [Success ("Asset '" +:+ ticker +:+ "' added successfully!")])
      else mret (widgets ++ [ErrorBox "Failed to add asset. Ticker might already exist."])
    else mret (widgets ++ [Warning "Please fill in all fields."])
  else mret widgets.

(** [with st.form("update_delete_form")] *)
Definition update_delete_form (rt : runtime) (srv : server) (f_update f_delete : failure)
    (inp : manage_inputs) (assets_df : list asset) : Py (list element * page_end) :=
  let selected_ticker := select_asset inp in
  (* selected_row = assets_df[assets_df['ticker'] == selected_ticker].iloc[0] *)
  match filter (λ a, ticker a = selected_ticker) assets_df with
  | [] => py_raise (PyException "IndexError")
  | selected_row :: _ =>
      let new_ticker := str_upper rt (update_ticker inp) in
      let new_shares := update_shares inp in
      let new_date := update_date inp in
      match list_index (asset_class selected_row) asset_classes with
      | None => py_raise (PyException "ValueError")
      | Some index =>
          let new_class := update_class inp in
          let new_cost := update_cost inp in
          let widgets :=
            [Selectbox "Select Asset to Update/Delete" (ticker <$> assets_df) 0;
             TextInput "New Ticker Symbol" (ticker selected_row);
             NumberInput "New Shares" None (Some (float_of_decimal (shares selected_row)));
             DateInput "New Purchase Date" (purchase_date selected_row);
             Selectbox "New Asset Class" asset_classes index;
             NumberInput "New Total Cost Basis" None
               (Some (float_of_decimal (cost_basis selected_row)));
             SubmitButton "Update Asset";
             SubmitButton "Delete Asset"] in
          updated ←
            (if update_btn inp return Py (list element * page_end) then
               ok ← update_asset srv f_update selected_ticker new_ticker new_date
                      (numeric_of_float rt new_shares) (numeric_of_float rt new_cost)
                      new_class;
               if (ok : bool) return Py (list element * page_end)
               then mret ([Success ("Asset '" +:+ selected_ticker +:+ "' updated successfully!")],
                          Rerun)
               else mret ([ErrorBox "Failed to update asset."], Finished)
             else mret ([], Finished));
          match updated.2 with
          | Rerun => mret (widgets ++ updated.1, Rerun)
          | Finished =>
              if delete_btn inp then
                ok ← delete_asset srv f_delete selected_ticker;
                if (ok : bool) return Py (list element * page_end)
                then mret (widgets ++ updated.1 ++
                             [Success ("Asset '" +:+ selected_ticker
                                       +:+ "' deleted successfully!")], Rerun)
                else mret (widgets ++ updated.1 ++ [ErrorBox "Failed to delete asset."],
                           Finished)
              else mret (widgets ++ updated.1, Finished)
          end
      end
  end.

Definition display_manage_assets (rt : runtime) (srv : server)
    (f_create f_read f_update f_delete : failure) (inp : manage_inputs)
  : Py (list element * page_end) :=
  add ← add_asset_form rt srv f_create inp;
  assets_df ← read_all_assets srv f_read;
  let top := [Header "‚ûï Manage Assets"; Subheader "Add New Asset"] ++ add
             ++ [Markdown "---"; Subheader "View, Update, or Delete Existing Assets"] in
  match assets_df with
  | [] =>
      mret (top ++ [Info "No assets in the portfolio. Use the form above to add one."],
            Finished)
  | _ =>
      form ← update_delete_form rt srv f_update f_delete inp assets_df;
      mret (top ++ [AssetsFrame assets_df; Markdown "---"] ++ form.1, form.2)
  end.

(** What the user entered on the "Transactions" page. *)
Record transaction_inputs : Type := mkTransactionInputs {
  trans_ticker : string;
  trans_amount : float64;
  trans_type : string;
  trans_notes : string;
  trans_submitted : bool
}.

(** [with st.form("add_transaction_form", clear_on_submit=True)] *)
Definition add_transaction_form (rt : runtime) (srv : server) (f_add : failure)
    (inp : transaction_inputs) (assets_df : list asset) : Py (list element) :=
  let selected_ticker := trans_ticker inp in
  let amount := trans_amount inp in
  let notes := trans_notes inp in
  let widgets :=
    [Selectbox "Select Asset" (ticker <$> assets_df) 0;
     NumberInput "Amount" None None;
     Selectbox "Transaction Type" ["Buy"; "Sell"; "Dividend"]%string 0;
     TextArea "Notes (Optional)";
     SubmitButton "Log Transaction"] in
  if trans_submitted inp then
    if str_truthy selected_ticker && float_truthy amount then
      ok ← add_transaction srv f_add selected_ticker (trans_type inp)
             (numeric_of_float rt amount) (Some notes);
      if (ok : bool) return Py (list element)
      then mret (widgets ++ [Success "Transaction logged successfully!"])
      else mret (widgets ++ [ErrorBox "Failed to log transaction."])
    else mret (widgets ++ [Warning "Please select an asset and enter an amount."])
  else mret widgets.

Definition display_transactions (rt : runtime) (srv : server)
    (f_read f_add f_history : failure) (inp : transaction_inputs) : Py (list element) :=
  assets_df ← read_all_assets srv f_read;
  form ← match assets_df with
         | [] => mret [Info "Add an asset first to log a transaction."]
         | _ => add_transaction_form rt srv f_add inp assets_df
         end;
  transactions_df ← get_all_transactions f_history;
  mret ([Header "üìù Transactions"; Subheader "Log a New Transaction"] ++ form
        ++ [Markdown "---"; Subheader "Transaction History"]
        ++ match transactions_df with
           | [] => [Info "No transactions to display."]
           | _ => [TransactionsFrame transactions_df]
           end).


(* ================================================================== *)
(** ** Sequences of calls *)
(* ================================================================== *)

(** A call of one of the methods of the class, with its arguments. *)
Inductive method_call : Type :=
  | CallCreateAsset (ticker : string) (purchase_date : date)
      (shares cost_basis : Decimal) (asset_class : string)
  | CallReadAllAssets
  | CallUpdateAsset (original_ticker new_ticker : string) (purchase_date : date)
      (shares cost_basis : Decimal) (asset_class : string)
  | CallDeleteAsset (ticker : string)
  | CallAddTransaction (ticker transaction_type : string) (amount : Decimal)
      (notes : option string)
  | CallGetAllTransactions
  | CallGetPortfolioSummary
  | CallGetAssetAllocation
  | CallGetInsights.

(** The world after a call whose result the caller looks at and drops. *)
Definition run_call (srv : server) (fault : failure) (c : method_call) (w : world) : world :=
  match c with
  | CallCreateAsset t d s c a => (create_asset srv fault t d s c a w).2
  | CallReadAllAssets => (read_all_assets srv fault w).2
  | CallUpdateAsset t t' d s c a => (update_asset srv fault t t' d s c a w).2
  | CallDeleteAsset t => (delete_asset srv fault t w).2
  | CallAddTransaction t ty amt nt => (add_transaction srv fault t ty amt nt w).2
  | CallGetAllTransactions => (get_all_transactions fault w).2
  | CallGetPortfolioSummary => (get_portfolio_summary fault w).2
  | CallGetAssetAllocation => (get_asset_allocation fault w).2
  | CallGetInsights => (get_insights srv fault w).2
  end.

(** A session: calls one after the other, each with its own failure.
    (A connection that is lost stays lost; the sessions here include those
    in which it comes back.) *)
Definition run_calls (srv : server) (cs : list (failure * method_call)) (w : world)
  : world :=
  fold_left (λ w fc, run_call srv fc.1 fc.2 w) cs w.

(* ================================================================== *)
(** ** Vocabulary of the properties *)
(* ================================================================== *)

(** Sum of a list of rationals. *)
Definition Qsum (l : list Q) : Q := foldr Qplus 0%Q l.
Arguments Qsum : simpl never.

(** Total cost basis of the assets table. *)
Definition total_cost (db : database) : Q :=
  Qsum ((λ a, dval (cost_basis a)) <$> assets db).

(** Value of the holdings at the stand-in price: the sum of
    [shares * cost_basis * 1.10]. *)
Definition marked_up_value (db : database) : Q :=
  Qsum ((λ a, dval (shares a) * dval (cost_basis a) * (11 # 10))%Q <$> assets db).

(** Cost basis held in one asset class. *)
Definition class_cost (c : string) (db : database) : Q :=
  Qsum ((λ a, dval (cost_basis a)) <$> filter (λ a, asset_class a = c) (assets db)).

(** Sum of the grouped sums, and the sum kept for one class. *)
Definition group_total (acc : list (string * Decimal)) : Q := Qsum (dval <$> acc.*2).

Definition group_of (c : string) (acc : list (string * Decimal)) : Q :=
  Qsum (dval <$> (filter (λ p, p.1 = c) acc).*2).

(** A field of the dictionary a call returned, if it returned one. *)
Definition returned_field (k : string) (r : outcome (gmap string pyval) * world)
  : option pyval :=
  match r.1 with
  | Returned m => m !! k
  | Raised _ => None
  end.

(** The outcome of a statement: rejected by a fault or decided by the
    tables. *)
Definition statement_outcome (srv : server) (fault : failure) (q : statement)
    (db : database) : pg_error + database :=
  match fault with
  | NoFailure => run_statement srv q db
  | _ => inl OperationalError
  end.


(** The constraints of the schema: [ticker] is a key of [assets], and
    every transaction refers to an asset. *)
Definition db_wf (db : database) : Prop :=
  NoDup (tickers db) ∧ ∀ t, t ∈ t_ticker <$> transactions db -> t ∈ tickers db.

Definition rename_key (old new k : string) : string :=
  if decide (k = old) then new else k.

(** Sample data. *)
Definition world_of (db : database) : world :=
  mkWorld db db (mkDate 2024 3 1) false [].

Definition srv_cascade : server := mkServer Cascade String.leb.
Definition srv_no_action : server := mkServer NoAction String.leb.

Definition aapl : asset :=
  mkAsset "AAPL" (mkDate 2024 1 1) (mkDec 10 0) (mkDec 150000 (-2)) "Equities".

Definition aapl_buy : transaction :=
  mkTransaction "AAPL" (mkDate 2024 2 1) "Buy" (mkDec 150000 (-2)) None.

(** One holding of 1.0000000000000007 shares bought for 100000000000.07. *)
Definition wide : database :=
  mkDb [mkAsset "BIG" (mkDate 2024 1 1)
          (mkDec 10000000000000007 (-16)) (mkDec 10000000000007 (-2)) "Equities"] [].

(** Two holdings, bought for 0.10 and 0.20, in two classes. *)
Definition dimes : database :=
  mkDb [mkAsset "VTI" (mkDate 2024 1 1) (mkDec 1 0) (mkDec 10 (-2)) "Equities";
        mkAsset "BTC" (mkDate 2024 1 1) (mkDec 1 0) (mkDec 20 (-2)) "Crypto"] [].

(** The constraints of the schema, as a test. *)
Definition db_wfb (db : database) : bool :=
  bool_decide (NoDup (tickers db))
  && forallb (λ t, has_ticker t db) (t_ticker <$> transactions db).

(** Whether a printed line reports an error. *)
Definition is_error_line (l : log_line) : bool :=
  match l with
  | LogError _ _ => true
  | LogInfo _ => false
  end.

(** A second sample holding. *)
Definition msft : asset :=
  mkAsset "MSFT" (mkDate 2024 5 1) (mkDec 2 0) (mkDec 80000 (-2)) "Equities".



Definition is_alert (e : element) : bool :=
  match e with
  | Warning _ | ErrorBox _ => true
  | _ => false
  end.

Definition is_widget (e : element) : bool :=
  match e with
  | TextInput _ _ | TextArea _ | NumberInput _ _ _ | DateInput _ _
  | Selectbox _ _ _ | SubmitButton _ => true
  | _ => false
  end.

(** A sample runtime: upper-casing of ASCII letters, and a column that
    keeps four decimals of the float's value. *)
Definition ascii_upper (c : Ascii.ascii) : Ascii.ascii :=
  let n := Ascii.nat_of_ascii c in
  if ((97 <=? n) && (n <=? 122))%nat then Ascii.ascii_of_nat (n - 32) else c.

Fixpoint string_upper (s : string) : string :=
  match s with
  | EmptyString => EmptyString
  | String c s => String (ascii_upper c) (string_upper s)
  end.

Definition numeric4 (f : float64) : Decimal :=
  let q := fval f in
  let n := Z.abs (Qnum q) * 10 ^ 4 in
  let d := Z.pos (Qden q) in
  mkDec (Z.sgn (Qnum q) * ((2 * n + d) / (2 * d))) (-4).

Definition rt_sample : runtime := mkRuntime string_upper numeric4.


(* ================================================================== *)
(** * Properties *)
(* ================================================================== *)

(** ** Values of decimals *)

Section decimal_values.

Lemma pow10_add (a b : Z) : ((10 # 1) ^ (a + b) == (10 # 1) ^ a * (10 # 1) ^ b)%Q.
Proof. apply Qpower_plus. discriminate. Qed.

Lemma inject_pow10 (k : Z) : 0 <= k -> (inject_Z (10 ^ k) == (10 # 1) ^ k)%Q.
Proof. intros Hk. apply (Zpower_Qpower 10 k Hk). Qed.

(** Moving powers of ten between coefficient and exponent keeps the value. *)
Lemma dval_shift (c e k : Z) :
  0 <= k -> (dval (mkDec (c * 10 ^ k) e) == dval (mkDec c (e + k)))%Q.
Proof.
  intros Hk. unfold dval; simpl.
  rewrite inject_Z_mult, inject_pow10, pow10_add by assumption. ring.
Qed.

Lemma dval_mul_exact (a b : Decimal) :
  (dval (dmul_exact a b) == dval a * dval b)%Q.
Proof.
  unfold dval, dmul_exact; simpl.
  rewrite inject_Z_mult, pow10_add. ring.
Qed.

Lemma dval_align (c e m : Z) :
  m <= e ->
  (inject_Z (c * 10 ^ (e - m)) * (10 # 1) ^ m == inject_Z c * (10 # 1) ^ e)%Q.
Proof.
  intros Hm. replace e with ((e - m) + m) at 2 by lia.
  rewrite inject_Z_mult, inject_pow10, pow10_add by lia. ring.
Qed.

Lemma dval_add_exact (a b : Decimal) :
  (dval (dadd_exact a b) == dval a + dval b)%Q.
Proof.
  unfold dval, dadd_exact; simpl.
  rewrite inject_Z_plus, Qmult_plus_distr_l.
  rewrite !dval_align by lia. reflexivity.
Qed.

Lemma dval_neg (a : Decimal) : (dval (dneg a) == - dval a)%Q.
Proof. unfold dval, dneg; simpl. rewrite inject_Z_opp. ring. Qed.

(** Rounding that does not signal [Inexact] keeps the value: only zeros
    were dropped from the coefficient. *)
Lemma dfix_exact (d d' : Decimal) :
  dfix d = (d', false) -> (dval d' == dval d)%Q.
Proof.
  unfold dfix.
  set (n := Z.abs (coef d)). set (k := ndigits n - prec).
  destruct (Z.leb_spec k 0) as [Hk|Hk].
  { intros [= <-]. reflexivity. }
  assert (Hp : 0 < 10 ^ k) by (apply Z.pow_pos_nonneg; lia).
  destruct (Z.eqb_spec (n mod 10 ^ k) 0) as [Hr|Hr]; simpl;
    [|destruct (_ =? _); intros [= _ ?]; discriminate].
  assert (Hq : round_half_even n (10 ^ k) = n / 10 ^ k).
  { unfold round_half_even. rewrite Hr.
    destruct (Z.ltb_spec (2 * 0) (10 ^ k)); [reflexivity | lia]. }
  assert (Hn : n = n / 10 ^ k * 10 ^ k).
  { rewrite (Z.div_mod n (10 ^ k)) at 1 by lia. rewrite Hr. lia. }
  assert (Hc : coef d = Z.sgn (coef d) * (n / 10 ^ k) * 10 ^ k).
  { rewrite <- Z.mul_assoc, <- Hn. unfold n. destruct (coef d); simpl; lia. }
  rewrite Hq.
  destruct (Z.eqb_spec (n / 10 ^ k) (10 ^ prec)) as [Ht|Ht]; intros [= <-].
  - destruct d as [c e]; simpl in *.
    rewrite Hc at 2. rewrite dval_shift, Ht by lia.
    replace (Z.sgn c * 10 ^ prec) with (Z.sgn c * (10 ^ prec / 10) * 10 ^ 1)
      by (change (10 ^ prec / 10) with (10 ^ 27);
          change (10 ^ prec) with (10 ^ 27 * 10 ^ 1); lia).
    rewrite dval_shift by lia. reflexivity.
  - destruct d as [c e]; simpl in *.
    rewrite Hc at 2. rewrite dval_shift by lia. reflexivity.
Qed.

Lemma digits_aux_spec (fuel : nat) (n : Z) :
  0 < n -> Z.log2 n <= Z.of_nat fuel ->
  1 <= digits_aux fuel n ∧ 10 ^ (digits_aux fuel n - 1) <= n < 10 ^ digits_aux fuel n.
Proof.
  revert n. induction fuel as [|f IH]; intros n Hn Hlog.
  - assert (n = 1).
    { destruct (Z.eq_dec n 1) as [|Hne]; [done|].
      assert (0 < Z.log2 n) by (apply Z.log2_pos; lia). lia. }
    subst. simpl. lia.
  - cbn [digits_aux]. destruct (Z.ltb_spec n 10) as [Hlt|Hge]; [simpl; lia|].
    assert (Hdiv : 0 < n / 10) by (apply Z.div_str_pos; lia).
    assert (Hlog' : Z.log2 (n / 10) <= Z.of_nat f).
    { assert (Z.log2 (n / 10) <= Z.log2 (n / 2)).
      { apply Z.log2_le_mono. apply Z.div_le_compat_l; lia. }
      assert (Z.log2 (n / 2) = Z.max 0 (Z.log2 n - 1)).
      { rewrite <- (Z.log2_shiftr n 1) by lia. by rewrite Z.shiftr_div_pow2. }
      assert (0 < Z.log2 n) by (apply Z.log2_pos; lia). lia. }
    destruct (IH (n / 10) Hdiv Hlog') as (Hd & Hlo & Hhi).
    set (d := digits_aux f (n / 10)) in *.
    replace (1 + d - 1) with (Z.succ (d - 1)) by lia.
    replace (1 + d) with (Z.succ d) by lia.
    rewrite !Z.pow_succ_r by lia.
    pose proof (Z.div_mod n 10 ltac:(lia)).
    pose proof (Z.mod_pos_bound n 10 ltac:(lia)).
    lia.
Qed.

(** The fuel of [ndigits] suffices: it counts the decimal digits. *)
Lemma ndigits_spec (n : Z) :
  0 < n -> 10 ^ (ndigits n - 1) <= n < 10 ^ ndigits n.
Proof.
  intros Hn. apply digits_aux_spec; [done|].
  rewrite Z2Nat.id; [lia | apply Z.log2_nonneg].
Qed.

Lemma round_half_even_bounds (n p : Z) :
  0 <= n -> 0 < p -> n / p <= round_half_even n p <= n / p + 1.
Proof.
  intros Hn Hp. unfold round_half_even.
  repeat destruct (_ <? _); try destruct (Z.even _); lia.
Qed.

(** The result of an operation has at most [prec] digits. *)
Lemma dfix_precision (d : Decimal) : Z.abs (coef (dfix d).1) < 10 ^ prec.
Proof.
  unfold dfix.
  set (n := Z.abs (coef d)). set (k := ndigits n - prec).
  destruct (Z.eq_dec n 0) as [Hz|Hz].
  { assert (Hk : (k <=? 0) = true) by (unfold k; rewrite Hz; reflexivity).
    rewrite Hk. simpl. fold n. rewrite Hz. reflexivity. }
  assert (Hn : 0 < n) by (unfold n in *; lia).
  pose proof (ndigits_spec n Hn) as [Hlo Hhi].
  destruct (Z.leb_spec k 0) as [Hk|Hk].
  { simpl. fold n. eapply Z.lt_le_trans; [exact Hhi|].
    apply Z.pow_le_mono_r; lia. }
  assert (Hp : 0 < 10 ^ k) by (apply Z.pow_pos_nonneg; lia).
  pose proof (round_half_even_bounds n (10 ^ k) ltac:(lia) Hp) as [Hq1 Hq2].
  assert (Hdiv : n / 10 ^ k < 10 ^ prec).
  { apply Z.div_lt_upper_bound; [done|].
    rewrite <- Z.pow_add_r by (unfold prec; lia).
    replace (k + prec) with (ndigits n) by (unfold k; lia). done. }
  assert (0 <= n / 10 ^ k) by (apply Z.div_pos; lia).
  destruct (Z.eqb_spec (round_half_even n (10 ^ k)) (10 ^ prec)) as [He|He]; simpl.
  - rewrite He. change (10 ^ prec / 10) with (10 ^ 27).
    change (10 ^ prec) with (10 ^ 28).
    destruct (coef d); simpl; lia.
  - rewrite Z.abs_mul.
    assert (Z.abs (Z.sgn (coef d)) <= 1) by (destruct (coef d); simpl; lia).
    rewrite (Z.abs_eq (round_half_even _ _)) by lia.
    nia.
Qed.

(** [Decimal('1500.00') * Decimal('1.10')] is [Decimal('1650.0000')]. *)
Example dmul_cost_markup :
  dmul (mkDec 150000 (-2)) d1_10 = (mkDec 16500000 (-4), false).
Proof. reflexivity. Qed.

(** [Decimal('1.0000000000000007') * Decimal('110000000000.0770')] is
    [Decimal('110000000000.0770770000000001')], with [Inexact] raised. *)
Example dmul_rounds :
  dmul (mkDec 10000000000000007 (-16)) (mkDec 1100000000000770 (-4))
  = (mkDec 1100000000000770770000000001 (-16), true).
Proof. reflexivity. Qed.

(** [Decimal('1E+28') + Decimal('5')] is [Decimal('1.000000000000000000000000000E+28')]:
    a tie goes to the even neighbour. *)
Example dadd_tie_to_even :
  dadd (mkDec 1 28) (mkDec 5 0) = (mkDec 1000000000000000000000000000 1, true).
Proof. reflexivity. Qed.

(** [Decimal('16500.0000') - Decimal('1500.00')] is [Decimal('15000.0000')]. *)
Example dsub_gain :
  dsub (mkDec 165000000 (-4)) (mkDec 150000 (-2)) = (mkDec 150000000 (-4), false).
Proof. reflexivity. Qed.

(** [float('0.1')] is [0x1.999999999999ap-4], [float('0.3')] is
    [0x1.3333333333333p-2] and [0.1 + 0.2] is [0x1.3333333333334p-2]. *)
Example float_tenth : float_of_decimal (mkDec 10 (-2)) = F64 7205759403792794 (-56).
Proof. vm_compute. reflexivity. Qed.

Example float_three_tenths :
  float_of_decimal (mkDec 30 (-2)) = F64 5404319552844595 (-54).
Proof. vm_compute. reflexivity. Qed.

Example float_sum_tenths :
  f64_add (float_of_decimal (mkDec 10 (-2))) (float_of_decimal (mkDec 20 (-2)))
  = F64 5404319552844596 (-54).
Proof. vm_compute. reflexivity. Qed.

(** [float('1e400')] is [inf]; [float('5e-324')] is the smallest
    subnormal; [1.0 / 3.0] is [0x1.5555555555555p-2]. *)
Example float_overflow : float_of_decimal (mkDec 1 400) = F64_inf false.
Proof. vm_compute. reflexivity. Qed.

Example float_subnormal : float_of_decimal (mkDec 5 (-324)) = F64 1 (-1074).
Proof. vm_compute. reflexivity. Qed.

Example float_third :
  f64_div (float_of_int 1) (float_of_int 3) = F64 6004799503160661 (-54).
Proof. vm_compute. reflexivity. Qed.

Lemma Qsum_nil : Qsum [] = 0%Q.
Proof. reflexivity. Qed.

Lemma Qsum_cons (x : Q) (l : list Q) : Qsum (x :: l) = (x + Qsum l)%Q.
Proof. reflexivity. Qed.

End decimal_values.

(** ** Decimal arithmetic that raises no [Inexact] *)

Section exact_arithmetic.

Lemma dec_bind_exact {A B} (c : Dec A) (k : A -> Dec B) (b : B) :
  (c ≫= k) = (b, false) -> ∃ a, c = (a, false) ∧ k a = (b, false).
Proof.
  destruct c as [a i]. unfold mbind, dec_bind.
  destruct (k a) as [b' j] eqn:Hk. intros [= -> Hij].
  apply orb_false_elim in Hij as [-> ->]. eauto.
Qed.

Lemma dmul_exact_value (a b c : Decimal) :
  dmul a b = (c, false) -> (dval c == dval a * dval b)%Q.
Proof. intros H%dfix_exact. by rewrite H, dval_mul_exact. Qed.

Lemma dadd_exact_value (a b c : Decimal) :
  dadd a b = (c, false) -> (dval c == dval a + dval b)%Q.
Proof. intros H%dfix_exact. by rewrite H, dval_add_exact. Qed.

Lemma dsub_exact_value (a b c : Decimal) :
  dsub a b = (c, false) -> (dval c == dval a - dval b)%Q.
Proof.
  intros H%dfix_exact. rewrite H, dval_add_exact, dval_neg. reflexivity.
Qed.

Lemma decimal_sum_exact (s : list Decimal) (acc t : Decimal) :
  decimal_sum acc s = (t, false) -> (dval t == dval acc + Qsum (dval <$> s))%Q.
Proof.
  revert acc. induction s as [|x s IH]; intros acc; csimpl.
  - intros [= <-]. rewrite Qsum_nil. ring.
  - intros (acc' & Ha%dadd_exact_value & Hs%IH)%dec_bind_exact.
    rewrite Qsum_cons, Hs, Ha. ring.
Qed.

Lemma series_sum_exact (s : list Decimal) (v : pyval) :
  (0 < length s)%nat -> series_sum s = (v, false) ->
  ∃ t, v = PyDec t ∧ (dval t == Qsum (dval <$> s))%Q.
Proof.
  destruct s as [|x s]; [simpl; lia|]. intros _. csimpl.
  intros (t & Ht%decimal_sum_exact & [= <-])%dec_bind_exact.
  exists t. split; [done|]. by rewrite Qsum_cons, Ht.
Qed.

(** The three derived columns of the frame. *)
Lemma columns_exact (l : list df_row) (price value gain : list Decimal) :
  series_apply (λ x, dmul x d1_10) (df_cost_basis <$> l) = (price, false) ->
  series_binop dmul (df_shares <$> l) price = (value, false) ->
  series_binop dsub value (df_cost_basis <$> l) = (gain, false) ->
  length value = length l ∧ length gain = length l ∧
  (Qsum (dval <$> value) ==
     Qsum ((λ r, dval (df_shares r) * dval (df_cost_basis r) * (11 # 10)) <$> l))%Q ∧
  (Qsum (dval <$> gain) ==
     Qsum (dval <$> value) - Qsum (dval <$> (df_cost_basis <$> l)))%Q.
Proof.
  revert price value gain. induction l as [|r l IH]; intros price value gain; csimpl.
  - intros [= <-]. simpl. intros [= <-]. simpl. intros [= <-]. simpl.
    rewrite !Qsum_nil. repeat split; ring.
  - intros (p & Hp%dmul_exact_value &
            (price' & Hprice & [= <-])%dec_bind_exact)%dec_bind_exact.
    csimpl.
    intros (v & Hv%dmul_exact_value &
            (value' & Hvalue & [= <-])%dec_bind_exact)%dec_bind_exact.
    csimpl.
    intros (g & Hg%dsub_exact_value &
            (gain' & Hgain & [= <-])%dec_bind_exact)%dec_bind_exact.
    destruct (IH _ _ _ Hprice Hvalue Hgain) as (Hlv & Hlg & Hsv & Hsg).
    csimpl. rewrite Hlv, Hlg, !Qsum_cons. repeat split; try done.
    + rewrite Hsv, Hv, Hp.
      assert (Hk : (dval d1_10 == 11 # 10)%Q) by reflexivity.
      rewrite Hk. ring.
    + rewrite Hsg, Hg. ring.
Qed.

(** In-memory totals of a non-empty frame. *)
Lemma portfolio_totals_exact (l : list df_row) (m : gmap string pyval) :
  l ≠ [] -> portfolio_totals l = (m, false) ->
  ∃ tc tmv tgl,
    m !! "total_cost_basis"%string = Some (PyDec tc) ∧
    m !! "total_market_value"%string = Some (PyDec tmv) ∧
    m !! "total_gain_loss"%string = Some (PyDec tgl) ∧
    (dval tc == Qsum (dval <$> (df_cost_basis <$> l)))%Q ∧
    (dval tmv ==
       Qsum ((λ r, dval (df_shares r) * dval (df_cost_basis r) * (11 # 10)) <$> l))%Q ∧
    (dval tgl == dval tmv - dval tc)%Q.
Proof.
  intros Hl. unfold portfolio_totals.
  intros (price & Hprice & (value & Hvalue & (gain & Hgain &
      (vc & Hvc & (vm & Hvm & (vg & Hvg & (avg & _ & [= <-])%dec_bind_exact
      )%dec_bind_exact)%dec_bind_exact)%dec_bind_exact
      )%dec_bind_exact)%dec_bind_exact)%dec_bind_exact.
  destruct (columns_exact _ _ _ _ Hprice Hvalue Hgain) as (Hlv & Hlg & Hsv & Hsg).
  assert (Hlen : (0 < length l)%nat) by (destruct l; simpl; [done | lia]).
  apply series_sum_exact in Hvc as (tc & -> & Htc); [|by rewrite length_fmap].
  apply series_sum_exact in Hvm as (tmv & -> & Htmv); [|lia].
  apply series_sum_exact in Hvg as (tgl & -> & Htgl); [|lia].
  exists tc, tmv, tgl.
  split_and!; [reflexivity | reflexivity | reflexivity | | | ].
  - by rewrite Htc.
  - by rewrite Htmv, Hsv.
  - by rewrite Htgl, Hsg, Htmv, Htc.
Qed.

Lemma frame_cost (l : list asset) :
  Qsum (dval <$> (df_cost_basis <$>
     ((λ a, mkDfRow (ticker a) (shares a) (cost_basis a) (asset_class a)) <$> l)))
  = Qsum ((λ a, dval (cost_basis a)) <$> l).
Proof. by rewrite <- !list_fmap_compose. Qed.

Lemma frame_value (l : list asset) :
  Qsum ((λ r, dval (df_shares r) * dval (df_cost_basis r) * (11 # 10))%Q <$>
     ((λ a, mkDfRow (ticker a) (shares a) (cost_basis a) (asset_class a)) <$> l))
  = Qsum ((λ a, dval (shares a) * dval (cost_basis a) * (11 # 10))%Q <$> l).
Proof. by rewrite <- !list_fmap_compose. Qed.

End exact_arithmetic.

(** C1, as amended.  For a non-empty assets table, [get_portfolio_summary]
    returns a dictionary, and if the decimal context's [Inexact] flag is
    clear after the call (no intermediate result needed more than 28
    significant digits), then [total_cost_basis] is the sum of
    [cost_basis] over the rows, [total_market_value] is the sum of
    [shares * cost_basis * 1.10], and [total_gain_loss] is
    [total_market_value - total_cost_basis]. *)
Theorem summary_totals_when_exact (w : world) :
  assets (pending w) ≠ [] ->
  inexact (get_portfolio_summary false w).2 = false ->
  ∃ tc tmv tgl,
    returned_field "total_cost_basis" (get_portfolio_summary false w) = Some (PyDec tc) ∧
    returned_field "total_market_value" (get_portfolio_summary false w) = Some (PyDec tmv) ∧
    returned_field "total_gain_loss" (get_portfolio_summary false w) = Some (PyDec tgl) ∧
    (dval tc == total_cost (pending w))%Q ∧
    (dval tmv == marked_up_value (pending w))%Q ∧
    (dval tgl == dval tmv - dval tc)%Q.
Proof.
  intros Hne.
  unfold returned_field, get_portfolio_summary, try_except, mbind, py_bind, cursor_query,
    failure_of_bool.
  unfold select_asset_columns, total_cost, marked_up_value.
  rewrite <- frame_cost, <- frame_value.
  destruct (_ <$> assets (pending w)) as [|r rows] eqn:Hrows.
  { by apply fmap_nil_inv in Hrows. }
  unfold decimal_op.
  destruct (portfolio_totals (r :: rows)) as [m i] eqn:Hm. simpl.
  intros [_ ->]%orb_false_elim.
  apply portfolio_totals_exact in Hm as (tc & tmv & tgl & H1 & H2 & H3 & H4 & H5 & H6);
    [|done].
  by exists tc, tmv, tgl.
Qed.

Lemma summary_totals_when_exact_witness :
  ∃ tc tmv tgl,
    returned_field "total_cost_basis"
      (get_portfolio_summary false (world_of (mkDb [aapl] []))) = Some (PyDec tc) ∧
    returned_field "total_market_value"
      (get_portfolio_summary false (world_of (mkDb [aapl] []))) = Some (PyDec tmv) ∧
    returned_field "total_gain_loss"
      (get_portfolio_summary false (world_of (mkDb [aapl] []))) = Some (PyDec tgl) ∧
    (dval tc == total_cost (mkDb [aapl] []))%Q ∧
    (dval tmv == marked_up_value (mkDb [aapl] []))%Q ∧
    (dval tgl == dval tmv - dval tc)%Q.
Proof.
  apply (summary_totals_when_exact (world_of (mkDb [aapl] []))).
  - discriminate.
  - vm_compute. reflexivity.
Defined.

(** C1 as stated fails where the context rounds: for one holding of
    1.0000000000000007 shares with cost basis 100000000000.07 the product
    [shares * (cost_basis * 1.10)] has 32 digits and [total_market_value]
    is the rounded 110000000000.0770770000000001.  The sum of
    [shares * cost_basis * 1.10] is 110000000000.07707700000000005390 as a
    number, and 110000000000.0770770000000000 when it is itself computed
    on [Decimal] objects from left to right. *)
Lemma summary_market_value_rounded :
  returned_field "total_market_value" (get_portfolio_summary false (world_of wide))
    = Some (PyDec (mkDec 1100000000000770770000000001 (-16))) ∧
  (marked_up_value wide == 11000000000007707700000000005390 # 100000000000000000000)%Q ∧
  ¬ (dval (mkDec 1100000000000770770000000001 (-16)) == marked_up_value wide)%Q ∧
  (x ← dmul (mkDec 10000000000000007 (-16)) (mkDec 10000000000007 (-2)); dmul x d1_10)
    = (mkDec 1100000000000770770000000000 (-16), true).
Proof.
  split_and!.
  - vm_compute. reflexivity.
  - vm_compute. reflexivity.
  - vm_compute. discriminate.
  - vm_compute. reflexivity.
Qed.

(** C2: what the code computes for the single row
    ("AAPL", 2024-01-01, 10, 1500.00, "Equities"): [total_cost_basis] is
    1500.00, but [total_market_value] is 16500.0000 and [total_gain_loss]
    is 15000.0000, since the marked-up cost basis is multiplied by the
    number of shares. *)
Theorem aapl_summary (w : world) :
  assets (pending w) = [aapl] ->
  returned_field "total_cost_basis" (get_portfolio_summary false w)
    = Some (PyDec (mkDec 150000 (-2))) ∧
  returned_field "total_market_value" (get_portfolio_summary false w)
    = Some (PyDec (mkDec 165000000 (-4))) ∧
  returned_field "total_gain_loss" (get_portfolio_summary false w)
    = Some (PyDec (mkDec 150000000 (-4))) ∧
  (dval (mkDec 150000 (-2)) == 1500)%Q ∧
  (dval (mkDec 165000000 (-4)) == 16500)%Q ∧
  (dval (mkDec 150000000 (-4)) == 15000)%Q.
Proof.
  intros Ha.
  unfold returned_field, get_portfolio_summary, try_except, mbind, py_bind,
    cursor_query, select_asset_columns.
  rewrite Ha. split_and!; vm_compute; reflexivity.
Qed.

Lemma aapl_summary_witness :
  returned_field "total_cost_basis"
    (get_portfolio_summary false (world_of (mkDb [aapl] [])))
    = Some (PyDec (mkDec 150000 (-2))) ∧
  returned_field "total_market_value"
    (get_portfolio_summary false (world_of (mkDb [aapl] [])))
    = Some (PyDec (mkDec 165000000 (-4))) ∧
  returned_field "total_gain_loss"
    (get_portfolio_summary false (world_of (mkDb [aapl] [])))
    = Some (PyDec (mkDec 150000000 (-4))) ∧
  (dval (mkDec 150000 (-2)) == 1500)%Q ∧
  (dval (mkDec 165000000 (-4)) == 16500)%Q ∧
  (dval (mkDec 150000000 (-4)) == 15000)%Q.
Proof. apply (aapl_summary (world_of (mkDb [aapl] []))). reflexivity. Defined.

(** ** The mutating methods *)

(** Unfold a method down to the outcome of its statement. *)
Ltac method_run :=
  unfold try_except, mbind, py_bind, cursor_execute, conn_commit, conn_rollback,
    now_date, statement_outcome;
  match goal with f : failure |- _ => destruct f end;
  [by destruct (run_statement _ _ _) | reflexivity | reflexivity].

Section mutations.
Context (srv : server) (fault : failure) (w : world).

(** Each method raises when the connection is lost; otherwise its result
    is its statement's outcome, committed or rolled back. *)
Lemma create_asset_run t d s c a :
  create_asset srv fault t d s c a w =
  match fault with
  | ConnectionLost => (Raised (Psycopg2Error InterfaceError), disconnected w)
  | _ =>
  match statement_outcome srv fault (InsertAsset (mkAsset t d s c a)) (pending w) with
  | inl e => (Returned false,
              mkWorld (committed w) (committed w) (today w) (inexact w)
                      (stdout w ++ [LogError "Error creating asset" e]))
  | inr db => (Returned true,
               mkWorld db db (today w) (inexact w)
                       (stdout w ++ [LogInfo ("Asset '" +:+ t +:+ "' created successfully.")]))
  end
  end.
Proof. unfold create_asset. method_run. Qed.

Lemma update_asset_run t t' d s c a :
  update_asset srv fault t t' d s c a w =
  match fault with
  | ConnectionLost => (Raised (Psycopg2Error InterfaceError), disconnected w)
  | _ =>
  match statement_outcome srv fault (UpdateAsset (mkAsset t' d s c a) t) (pending w) with
  | inl e => (Returned false,
              mkWorld (committed w) (committed w) (today w) (inexact w)
                      (stdout w ++ [LogError "Error updating asset" e]))
  | inr db => (Returned true,
               mkWorld db db (today w) (inexact w)
                       (stdout w ++ [LogInfo ("Asset '" +:+ t +:+ "' updated successfully.")]))
  end
  end.
Proof. unfold update_asset. method_run. Qed.

Lemma delete_asset_run t :
  delete_asset srv fault t w =
  match fault with
  | ConnectionLost => (Raised (Psycopg2Error InterfaceError), disconnected w)
  | _ =>
  match statement_outcome srv fault (DeleteAsset t) (pending w) with
  | inl e => (Returned false,
              mkWorld (committed w) (committed w) (today w) (inexact w)
                      (stdout w ++ [LogError "Error deleting asset" e]))
  | inr db => (Returned true,
               mkWorld db db (today w) (inexact w)
                       (stdout w ++ [LogInfo ("Asset '" +:+ t +:+ "' deleted successfully.")]))
  end
  end.
Proof. unfold delete_asset. method_run. Qed.

Lemma add_transaction_run t ty amt nt :
  add_transaction srv fault t ty amt nt w =
  match fault with
  | ConnectionLost => (Raised (Psycopg2Error InterfaceError), disconnected w)
  | _ =>
  match statement_outcome srv fault
          (InsertTransaction (mkTransaction t (today w) ty amt nt)) (pending w) with
  | inl e => (Returned false,
              mkWorld (committed w) (committed w) (today w) (inexact w)
                      (stdout w ++ [LogError "Error adding transaction" e]))
  | inr db => (Returned true,
               mkWorld db db (today w) (inexact w)
                       (stdout w ++
                          [LogInfo ("Transaction for '" +:+ t +:+ "' added successfully.")]))
  end
  end.
Proof. unfold add_transaction. method_run. Qed.

End mutations.



(** In that session the update is the statement that fails (the ticker
    [AAPL] is taken) and the other three succeed. *)
Example mutations_scenario :
  (update_asset srv_cascade NoFailure "MSFT" "AAPL" (mkDate 2024 6 1) (mkDec 5 0)
     (mkDec 90000 (-2)) "Crypto" (world_of (mkDb [aapl; msft] [aapl_buy]))).1
    = Returned false ∧
  (delete_asset srv_cascade NoFailure "MSFT" (world_of (mkDb [aapl; msft] [aapl_buy]))).1
    = Returned true ∧
  (create_asset srv_cascade Rejected "GOOG" (mkDate 2024 6 1) (mkDec 5 0)
     (mkDec 90000 (-2)) "Crypto" (world_of (mkDb [aapl; msft] [aapl_buy]))).1
    = Returned false.
Proof. split_and!; reflexivity. Qed.


(** C3.  When a row with ticker [t] exists, [create_asset] with ticker [t]
    returns [True] and leaves both tables as they were, whatever the
    other arguments are: the row written first stays.  (Here and below,
    [fault = false]: the server does not reject the statement for a
    reason outside the tables; and the connection has no uncommitted
    change, as after every method of the class.) *)
Theorem create_asset_existing_ticker (srv : server) (w : world)
    (t : string) (d : date) (s c : Decimal) (a : string) :
  pending w = committed w ->
  has_ticker t (pending w) = true ->
  (create_asset srv false t d s c a w).1 = Returned true ∧
  committed (create_asset srv false t d s c a w).2 = committed w ∧
  pending (create_asset srv false t d s c a w).2 = pending w.
Proof.
  intros Hq Ht. rewrite create_asset_run.
  unfold statement_outcome, run_statement. simpl. rewrite Ht. simpl. by rewrite Hq.
Qed.

Lemma create_asset_existing_ticker_witness :
  (create_asset srv_cascade false "AAPL" (mkDate 2025 6 1) (mkDec 3 0) (mkDec 99900 (-2))
     "Crypto" (world_of (mkDb [aapl] [aapl_buy]))).1 = Returned true ∧
  committed (create_asset srv_cascade false "AAPL" (mkDate 2025 6 1) (mkDec 3 0)
     (mkDec 99900 (-2)) "Crypto" (world_of (mkDb [aapl] [aapl_buy]))).2
    = mkDb [aapl] [aapl_buy] ∧
  pending (create_asset srv_cascade false "AAPL" (mkDate 2025 6 1) (mkDec 3 0)
     (mkDec 99900 (-2)) "Crypto" (world_of (mkDb [aapl] [aapl_buy]))).2
    = mkDb [aapl] [aapl_buy].
Proof.
  apply (create_asset_existing_ticker srv_cascade (world_of (mkDb [aapl] [aapl_buy])));
    reflexivity.
Defined.

(** C10.  When no row has ticker [t], [update_asset] with
    [original_ticker = t] and [delete_asset] with [ticker = t] return
    [True] and leave both tables as they were. *)
Theorem missing_ticker_reports_success (srv : server) (w : world)
    (t t' : string) (d : date) (s c : Decimal) (a : string) :
  pending w = committed w ->
  has_ticker t (pending w) = false ->
  ((update_asset srv false t t' d s c a w).1 = Returned true ∧
   committed (update_asset srv false t t' d s c a w).2 = committed w ∧
   pending (update_asset srv false t t' d s c a w).2 = pending w) ∧
  ((delete_asset srv false t w).1 = Returned true ∧
   committed (delete_asset srv false t w).2 = committed w ∧
   pending (delete_asset srv false t w).2 = pending w).
Proof.
  intros Hq Ht. rewrite update_asset_run, delete_asset_run.
  unfold statement_outcome, run_statement. rewrite Ht. simpl. by rewrite Hq.
Qed.

Lemma missing_ticker_reports_success_witness :
  ((update_asset srv_cascade false "MSFT" "GOOG" (mkDate 2025 6 1) (mkDec 3 0)
      (mkDec 99900 (-2)) "Equities" (world_of (mkDb [aapl] [aapl_buy]))).1 = Returned true ∧
   committed (update_asset srv_cascade false "MSFT" "GOOG" (mkDate 2025 6 1) (mkDec 3 0)
      (mkDec 99900 (-2)) "Equities" (world_of (mkDb [aapl] [aapl_buy]))).2
     = mkDb [aapl] [aapl_buy] ∧
   pending (update_asset srv_cascade false "MSFT" "GOOG" (mkDate 2025 6 1) (mkDec 3 0)
      (mkDec 99900 (-2)) "Equities" (world_of (mkDb [aapl] [aapl_buy]))).2
     = mkDb [aapl] [aapl_buy]) ∧
  ((delete_asset srv_cascade false "MSFT" (world_of (mkDb [aapl] [aapl_buy]))).1
     = Returned true ∧
   committed (delete_asset srv_cascade false "MSFT" (world_of (mkDb [aapl] [aapl_buy]))).2
     = mkDb [aapl] [aapl_buy] ∧
   pending (delete_asset srv_cascade false "MSFT" (world_of (mkDb [aapl] [aapl_buy]))).2
     = mkDb [aapl] [aapl_buy]).
Proof.
  apply (missing_ticker_reports_success srv_cascade (world_of (mkDb [aapl] [aapl_buy])));
    reflexivity.
Defined.

(** C9.  [add_transaction] takes a ticker, a type, an amount and notes
    but no date; for an existing asset it succeeds, and the row it appends
    carries the date the clock shows when the call executes
    ([datetime.now().date()], the field [today] of the world). *)
Theorem add_transaction_dates_row (srv : server) (w : world)
    (t ty : string) (amt : Decimal) (nt : option string) :
  has_ticker t (pending w) = true ->
  (add_transaction srv false t ty amt nt w).1 = Returned true ∧
  transactions (committed (add_transaction srv false t ty amt nt w).2) =
    transactions (pending w) ++ [mkTransaction t (today w) ty amt nt].
Proof.
  intros Ht. rewrite add_transaction_run.
  unfold statement_outcome, run_statement. simpl. by rewrite Ht.
Qed.

Lemma add_transaction_dates_row_witness :
  (add_transaction srv_cascade false "AAPL" "Dividend" (mkDec 1250 (-2)) (Some "Q1")
     (world_of (mkDb [aapl] [aapl_buy]))).1 = Returned true ∧
  transactions (committed (add_transaction srv_cascade false "AAPL" "Dividend"
     (mkDec 1250 (-2)) (Some "Q1") (world_of (mkDb [aapl] [aapl_buy]))).2) =
    [aapl_buy] ++ [mkTransaction "AAPL" (mkDate 2024 3 1) "Dividend" (mkDec 1250 (-2))
                     (Some "Q1")].
Proof.
  apply (add_transaction_dates_row srv_cascade (world_of (mkDb [aapl] [aapl_buy]))).
  reflexivity.
Defined.

(** ** Renaming a ticker *)

Section rename.

Lemma retarget_unreferenced (old new : string) (l : list transaction) :
  old ∉ t_ticker <$> l -> retarget old new <$> l = l.
Proof.
  induction l as [|x l IH]; csimpl; [done|].
  rewrite not_elem_of_cons. intros [Hx Hl]. rewrite IH by done.
  unfold retarget. by rewrite decide_False.
Qed.

Lemma retarget_ticker (old new : string) (x : transaction) :
  t_ticker (retarget old new x) = rename_key old new (t_ticker x).
Proof. unfold retarget, rename_key. by destruct (decide _). Qed.

(** What an accepted change of key leaves in the tables. *)
Lemma rename_statement (srv : server) (r : asset) (t : string) (db db' : database) :
  has_ticker t db = true -> ticker r ≠ t ->
  run_statement srv (UpdateAsset r t) db = inr db' ->
  assets db' = (λ a, if decide (ticker a = t) then r else a) <$> assets db ∧
  transactions db' = retarget t (ticker r) <$> transactions db.
Proof.
  intros Ht Hne. unfold run_statement. rewrite Ht, decide_False by done.
  destruct (has_ticker (ticker r) db); [done|].
  destruct (referenced t db) eqn:Href.
  - destruct (fk_on_update srv); [done|]. by intros [= <-].
  - intros [= <-]. simpl. split; [done|].
    unfold referenced in Href. apply bool_decide_eq_false in Href.
    by rewrite retarget_unreferenced.
Qed.

End rename.

(** C4.  If an asset [old] exists and [update_asset] renaming it to
    another ticker [new] succeeds, then [read_all_assets] afterwards has a
    row for [new] and none for [old], and the transactions are the former
    ones with every reference to [old] replaced by [new]: each transaction
    that referred to [old] now refers to [new], at the same position.
    With [old = "AAPL"] and [new = "AAPLX"] this is the scenario of the
    specification. *)
Theorem rename_propagates (srv : server) (w : world) (old new : string)
    (d : date) (s c : Decimal) (a : string) :
  old ≠ new ->
  has_ticker old (pending w) = true ->
  (update_asset srv false old new d s c a w).1 = Returned true ->
  ∃ rows,
    (read_all_assets srv false (update_asset srv false old new d s c a w).2).1
      = Returned rows ∧
    new ∈ (ticker <$> rows) ∧
    (old ∉ ticker <$> rows) ∧
    transactions (committed (update_asset srv false old new d s c a w).2)
      = retarget old new <$> transactions (pending w) ∧
    transactions (pending (update_asset srv false old new d s c a w).2)
      = retarget old new <$> transactions (pending w) ∧
    (∀ i x, transactions (pending w) !! i = Some x -> t_ticker x = old ->
       ∃ x', transactions (committed (update_asset srv false old new d s c a w).2) !! i
               = Some x' ∧ t_ticker x' = new).
Proof.
  intros Hne Hold. rewrite update_asset_run. unfold statement_outcome.
  destruct (run_statement _ _ _) as [e|db'] eqn:Hrun; [done|]. simpl.
  intros _.
  apply rename_statement in Hrun as (Ha & Htx); [|done|simpl; congruence].
  simpl in Ha, Htx.
  exists (select_assets srv db'). split_and!; try done.
  - unfold select_assets. rewrite merge_sort_Permutation, Ha.
    apply bool_decide_eq_true in Hold.
    apply list_elem_of_fmap in Hold as (x & -> & Hx).
    apply list_elem_of_fmap. eexists. split; [|apply list_elem_of_fmap; eauto].
    simpl. by rewrite decide_True.
  - unfold select_assets. rewrite merge_sort_Permutation, Ha.
    intros (y & Hy & (x & -> & Hx)%list_elem_of_fmap)%list_elem_of_fmap.
    destruct (decide _); simpl in *; congruence.
  - intros i x Hi Hx. rewrite Htx, list_lookup_fmap, Hi. simpl.
    eexists. split; [done|]. rewrite retarget_ticker. unfold rename_key.
    by rewrite decide_True.
Qed.

Lemma rename_propagates_witness :
  ∃ rows,
    (read_all_assets srv_cascade false
       (update_asset srv_cascade false "AAPL" "AAPLX" (mkDate 2024 1 1) (mkDec 10 0)
          (mkDec 150000 (-2)) "Equities" (world_of (mkDb [aapl] [aapl_buy]))).2).1
      = Returned rows ∧
    "AAPLX"%string ∈ (ticker <$> rows) ∧
    ("AAPL"%string ∉ ticker <$> rows) ∧
    transactions (committed
       (update_asset srv_cascade false "AAPL" "AAPLX" (mkDate 2024 1 1) (mkDec 10 0)
          (mkDec 150000 (-2)) "Equities" (world_of (mkDb [aapl] [aapl_buy]))).2)
      = retarget "AAPL" "AAPLX" <$> [aapl_buy] ∧
    transactions (pending
       (update_asset srv_cascade false "AAPL" "AAPLX" (mkDate 2024 1 1) (mkDec 10 0)
          (mkDec 150000 (-2)) "Equities" (world_of (mkDb [aapl] [aapl_buy]))).2)
      = retarget "AAPL" "AAPLX" <$> [aapl_buy] ∧
    (∀ i x, [aapl_buy] !! i = Some x -> t_ticker x = "AAPL"%string ->
       ∃ x', transactions (committed
               (update_asset srv_cascade false "AAPL" "AAPLX" (mkDate 2024 1 1)
                  (mkDec 10 0) (mkDec 150000 (-2)) "Equities"
                  (world_of (mkDb [aapl] [aapl_buy]))).2) !! i
               = Some x' ∧ t_ticker x' = "AAPLX"%string).
Proof.
  apply (rename_propagates srv_cascade (world_of (mkDb [aapl] [aapl_buy]))
           "AAPL" "AAPLX").
  - discriminate.
  - reflexivity.
  - reflexivity.
Defined.

(** Where the foreign key is declared without ON UPDATE CASCADE, the
    rename of an asset that has transactions is rejected. *)
Lemma rename_rejected_without_cascade (srv : server) (w : world) (old new : string)
    (d : date) (s c : Decimal) (a : string) :
  fk_on_update srv = NoAction ->
  old ≠ new ->
  has_ticker old (pending w) = true ->
  referenced old (pending w) = true ->
  (update_asset srv false old new d s c a w).1 = Returned false ∧
  committed (update_asset srv false old new d s c a w).2 = committed w.
Proof.
  intros Hfk Hne Hold Href. rewrite update_asset_run.
  unfold statement_outcome, run_statement. simpl.
  rewrite Hold, decide_False by done.
  destruct (has_ticker new (pending w)); [done|].
  by rewrite Href, Hfk.
Qed.

(** ** Dictionaries *)

Section dictionaries.

Lemma py_dict_snoc (l : list (string * pyval)) (k : string) (v : pyval) :
  py_dict (l ++ [(k, v)]) = <[k := v]> (py_dict l).
Proof. unfold py_dict. by rewrite fold_left_app. Qed.

(** With distinct keys, the dictionary holds exactly the listed items. *)
Lemma py_dict_lookup (l : list (string * pyval)) (k : string) (v : pyval) :
  NoDup l.*1 -> py_dict l !! k = Some v ↔ (k, v) ∈ l.
Proof.
  induction l as [|[k' v'] l IH] using rev_ind; intros Hnd.
  - unfold py_dict; simpl. rewrite lookup_empty. split; [done|].
    by intros ?%not_elem_of_nil.
  - rewrite fmap_app, NoDup_app in Hnd. destruct Hnd as (Hnd & Hfresh & _).
    rewrite py_dict_snoc, elem_of_app, list_elem_of_singleton.
    destruct (decide (k' = k)) as [->|Hk].
    + rewrite lookup_insert_eq. split.
      * intros [= ->]. by right.
      * intros [Hin|[= ->]]; [|done].
        exfalso. apply (Hfresh k); [|simpl; apply list_elem_of_here].
        apply list_elem_of_fmap. by exists (k, v).
    + rewrite lookup_insert_ne by done. rewrite IH by done.
      split; [by left|]. intros [?|[= ? ?]]; [done|congruence].
Qed.

End dictionaries.

(** ** Grouped sums *)

Section grouping.

Lemma group_add_keys (c : string) (x : Decimal) (acc : list (string * Decimal)) :
  (group_add c x acc).*1 = if decide (c ∈ acc.*1) then acc.*1 else acc.*1 ++ [c].
Proof.
  induction acc as [|[c' s] acc IH].
  - destruct (decide _) as [Hin|]; [|done]. by apply not_elem_of_nil in Hin.
  - cbn [group_add]. destruct (decide (c' = c)) as [->|Hc].
    + clear IH. destruct (decide _) as [|Hin]; [reflexivity|].
      exfalso. apply Hin. csimpl. apply list_elem_of_here.
    + rewrite !fmap_cons, IH. cbn [fst].
      destruct (decide (c ∈ acc.*1)) as [Hin|Hin];
        destruct (decide (c ∈ c' :: acc.*1)) as [Hin'|Hin']; try reflexivity.
      * exfalso. apply Hin'. by apply list_elem_of_further.
      * apply elem_of_cons in Hin' as [->|]; done.
Qed.

Lemma group_add_NoDup (c : string) (x : Decimal) (acc : list (string * Decimal)) :
  NoDup acc.*1 -> NoDup (group_add c x acc).*1.
Proof.
  intros Hnd. rewrite group_add_keys. destruct (decide _) as [|Hin]; [done|].
  apply NoDup_app. split_and!; [done| |apply NoDup_singleton].
  intros y Hy ->%list_elem_of_singleton. done.
Qed.

Lemma group_add_total (c : string) (x : Decimal) (acc : list (string * Decimal)) :
  (group_total (group_add c x acc) == group_total acc + dval x)%Q.
Proof.
  unfold group_total.
  induction acc as [|[c' s] acc IH]; csimpl.
  - rewrite !Qsum_cons, Qsum_nil. ring.
  - destruct (decide (c' = c)) as [->|Hc]; csimpl; rewrite !Qsum_cons.
    + unfold numeric_add. rewrite dval_add_exact. ring.
    + rewrite IH. ring.
Qed.

Lemma group_add_of (c' c : string) (x : Decimal) (acc : list (string * Decimal)) :
  (group_of c' (group_add c x acc) ==
   group_of c' acc + if decide (c = c') then dval x else 0)%Q.
Proof.
  unfold group_of.
  induction acc as [|[k s] acc IH]; csimpl.
  - rewrite filter_cons, filter_nil. simpl.
    destruct (decide (c = c')); csimpl; rewrite ?Qsum_cons, ?Qsum_nil; ring.
  - destruct (decide (k = c)) as [->|Hk]; rewrite !filter_cons; simpl.
    + destruct (decide (c = c')); csimpl; rewrite ?Qsum_cons.
      * unfold numeric_add. rewrite dval_add_exact. ring.
      * ring.
    + destruct (decide (k = c')); csimpl; rewrite ?Qsum_cons, IH; ring.
Qed.

Lemma group_absent (c : string) (acc : list (string * Decimal)) :
  c ∉ acc.*1 -> filter (λ p, p.1 = c) acc = [].
Proof.
  induction acc as [|[k s] acc IH]; [done|].
  rewrite fmap_cons, not_elem_of_cons, filter_cons. simpl. intros [Hk Hc].
  rewrite decide_False by done. by apply IH.
Qed.

Lemma group_of_unique (c : string) (s : Decimal) (acc : list (string * Decimal)) :
  NoDup acc.*1 -> (c, s) ∈ acc -> (group_of c acc == dval s)%Q.
Proof.
  unfold group_of.
  induction acc as [|[k s'] acc IH]; csimpl; [by intros _ ?%not_elem_of_nil|].
  rewrite NoDup_cons, elem_of_cons, filter_cons. simpl.
  intros [Hk Hnd] [[= <- <-]|Hin].
  - rewrite decide_True by done. csimpl. rewrite Qsum_cons.
    rewrite group_absent by done. csimpl. rewrite Qsum_nil. ring.
  - rewrite decide_False; [by apply IH|].
    intros ->. apply Hk. apply list_elem_of_fmap. by exists (c, s).
Qed.

(** The grouped sums after scanning a table, from the accumulator [acc]:
    one group per class, nothing lost and nothing counted twice. *)
Lemma allocation_scan (l : list asset) (acc : list (string * Decimal)) :
  let out := fold_left (λ acc a, group_add (asset_class a) (cost_basis a) acc) l acc in
  (NoDup acc.*1 -> NoDup out.*1) ∧
  (group_total out == group_total acc + Qsum ((λ a, dval (cost_basis a)) <$> l))%Q ∧
  (∀ c, group_of c out ==
        group_of c acc +
        Qsum ((λ a, dval (cost_basis a)) <$> filter (λ a, asset_class a = c) l))%Q.
Proof.
  revert acc. induction l as [|a l IH]; intros acc; csimpl.
  - rewrite ?Qsum_nil. split_and!; [done | ring | intros c].
    rewrite ?filter_nil. csimpl. rewrite ?Qsum_nil. ring.
  - destruct (IH (group_add (asset_class a) (cost_basis a) acc)) as (H1 & H2 & H3).
    split_and!.
    + intros Hnd. by apply H1, group_add_NoDup.
    + rewrite H2, group_add_total, Qsum_cons. ring.
    + intros c. rewrite H3, group_add_of, filter_cons.
      destruct (decide (asset_class a = c)); csimpl; rewrite ?Qsum_cons; ring.
Qed.

(** The groups are the classes that occur in the table. *)
Lemma allocation_scan_keys (l : list asset) (acc : list (string * Decimal)) (c : string) :
  c ∈ (fold_left (λ acc a, group_add (asset_class a) (cost_basis a) acc) l acc).*1
  ↔ c ∈ acc.*1 ∨ c ∈ asset_class <$> l.
Proof.
  revert acc. induction l as [|a l IH]; intros acc; csimpl.
  - rewrite elem_of_nil. tauto.
  - rewrite IH, group_add_keys, elem_of_cons.
    destruct (decide (asset_class a ∈ acc.*1)) as [Hin|Hin].
    + split; [tauto|]. intros [?|[->|?]]; tauto.
    + rewrite elem_of_app, list_elem_of_singleton. tauto.
Qed.

End grouping.

(** C8, as amended.  [get_asset_allocation] returns a dictionary with one
    entry per asset class that occurs in the table, and no other; the
    value of a class is the float nearest to the sum [s] of [cost_basis]
    over the rows of that class, and these sums [s], before their
    conversion to floats, add up to the sum of [cost_basis] over all
    rows. *)
Theorem allocation_groups_total (w : world) :
  ∃ (m : gmap string pyval) (sums : list (string * Decimal)),
    get_asset_allocation false w = (Returned m, w) ∧
    NoDup sums.*1 ∧
    (∀ c, c ∈ sums.*1 ↔ c ∈ asset_class <$> assets (pending w)) ∧
    (∀ c v, m !! c = Some v ↔ ∃ s, (c, s) ∈ sums ∧ v = PyFloat (float_of_decimal s)) ∧
    (∀ c s, (c, s) ∈ sums -> (dval s == class_cost c (pending w))%Q) ∧
    (Qsum (dval <$> sums.*2) == total_cost (pending w))%Q.
Proof.
  pose proof (allocation_scan (assets (pending w)) []) as (Hnd & Htot & Hof).
  specialize (Hnd (NoDup_nil_2)).
  eexists _, (select_allocation (pending w)). split_and!.
  - reflexivity.
  - done.
  - intros c. unfold select_allocation. rewrite allocation_scan_keys, elem_of_nil. tauto.
  - intros c v. rewrite py_dict_lookup.
    + rewrite list_elem_of_fmap. split.
      * intros ([c' s] & [= -> ->] & Hin). eauto.
      * intros (s & Hin & ->). by exists (c, s).
    + by rewrite <- list_fmap_compose.
  - intros c s Hin. rewrite <- (group_of_unique c s _ Hnd Hin).
    unfold select_allocation. rewrite (Hof c). unfold group_of, class_cost.
    rewrite filter_nil. csimpl. rewrite Qsum_nil. ring.
  - unfold total_cost. fold (group_total (select_allocation (pending w))).
    unfold select_allocation. rewrite Htot. unfold group_total. csimpl.
    rewrite Qsum_nil. ring.
Qed.

Lemma allocation_groups_total_witness :
  ∃ (m : gmap string pyval) (sums : list (string * Decimal)),
    get_asset_allocation false (world_of dimes) = (Returned m, world_of dimes) ∧
    NoDup sums.*1 ∧
    (∀ c, c ∈ sums.*1 ↔ c ∈ asset_class <$> assets dimes) ∧
    (∀ c v, m !! c = Some v ↔ ∃ s, (c, s) ∈ sums ∧ v = PyFloat (float_of_decimal s)) ∧
    (∀ c s, (c, s) ∈ sums -> (dval s == class_cost c dimes)%Q) ∧
    (Qsum (dval <$> sums.*2) == total_cost dimes)%Q.
Proof. exact (allocation_groups_total (world_of dimes)). Defined.

(** C8 as stated fails on the floats: with cost bases 0.10 in "Equities"
    and 0.20 in "Crypto" the dictionary holds the floats 0.1 and 0.2; the
    sum of cost bases is 0.30, but the two floats add up neither to 0.30
    as numbers nor, in float addition, to the float 0.3. *)
Lemma allocation_floats_differ :
  ∃ e c,
    (get_asset_allocation false (world_of dimes)).1 =
      Returned {[ "Equities"%string := PyFloat e; "Crypto"%string := PyFloat c ]} ∧
    (total_cost dimes == 3 # 10)%Q ∧
    ¬ (fval e + fval c == total_cost dimes)%Q ∧
    f64_add e c ≠ float_of_decimal (mkDec 30 (-2)).
Proof.
  exists (F64 7205759403792794 (-56)), (F64 7205759403792794 (-55)).
  split_and!.
  - vm_compute. reflexivity.
  - vm_compute. reflexivity.
  - vm_compute. discriminate.
  - vm_compute. discriminate.
Qed.

(** The allocation scenario of the specification: cost bases 1000 in
    "Equities" and 500 in "Crypto" give [{"Equities": 1000.0, "Crypto": 500.0}]. *)
Example allocation_scenario :
  (get_asset_allocation false
     (world_of (mkDb [mkAsset "VTI" (mkDate 2024 1 1) (mkDec 4 0) (mkDec 1000 0) "Equities";
                      mkAsset "BTC" (mkDate 2024 1 1) (mkDec 1 0) (mkDec 500 0) "Crypto"]
                     []))).1
  = Returned {[ "Equities"%string := PyFloat (float_of_int 1000);
                "Crypto"%string := PyFloat (float_of_int 500) ]}.
Proof. vm_compute. reflexivity. Qed.

Lemma sql_sum_value (l : list Decimal) (s : Decimal) :
  sql_sum l = Some s -> (dval s == Qsum (dval <$> l))%Q.
Proof.
  destruct l as [|x l]; [done|]. unfold sql_sum, sql_fold. intros [= <-].
  csimpl. rewrite Qsum_cons. revert x. induction l as [|y l IH]; intros x; csimpl.
  - rewrite Qsum_nil. ring.
  - rewrite IH, Qsum_cons. unfold numeric_add. rewrite dval_add_exact. ring.
Qed.

(** The total that [get_insights] reports is the float nearest to the
    sum of all cost bases. *)
Lemma insights_total_cost (srv : server) (w : world) :
  assets (pending w) ≠ [] ->
  ∃ s, returned_field "total_cost_basis" (get_insights srv false w)
         = Some (PyFloat (float_of_decimal s)) ∧
       (dval s == total_cost (pending w))%Q.
Proof.
  intros Hne.
  unfold returned_field, get_insights, try_except, mbind, py_bind, cursor_query,
    select_insights, total_cost.
  destruct (assets (pending w)) as [|a l] eqn:Ha; [done|].
  destruct (sql_sum (cost_basis <$> a :: l)) as [s|] eqn:Hs; [|done].
  exists s. split; [reflexivity|].
  apply sql_sum_value in Hs. by rewrite Hs, <- list_fmap_compose.
Qed.

(** ** Empty tables and failed queries *)




(** C6.  On an empty assets table [get_insights] returns (it does not
    raise) the dictionary whose five fields are zero. *)
Theorem insights_empty_table (srv : server) (w : world) :
  assets (pending w) = [] ->
  get_insights srv false w =
    (Returned {[ "total_assets"%string := PyInt 0;
                 "total_cost_basis"%string := PyFloat (F64 0 0);
                 "avg_cost_basis"%string := PyFloat (F64 0 0);
                 "min_shares"%string := PyFloat (F64 0 0);
                 "max_shares"%string := PyFloat (F64 0 0) ]}, w).
Proof.
  intros Ha.
  unfold get_insights, try_except, mbind, py_bind, cursor_query, select_insights.
  rewrite Ha. reflexivity.
Qed.

Lemma insights_empty_table_witness :
  get_insights srv_no_action false (world_of (mkDb [] [])) =
    (Returned {[ "total_assets"%string := PyInt 0;
                 "total_cost_basis"%string := PyFloat (F64 0 0);
                 "avg_cost_basis"%string := PyFloat (F64 0 0);
                 "min_shares"%string := PyFloat (F64 0 0);
                 "max_shares"%string := PyFloat (F64 0 0) ]}, world_of (mkDb [] [])).
Proof. apply (insights_empty_table srv_no_action (world_of (mkDb [] []))). reflexivity. Defined.

(** ** The constraints of the schema are kept *)

Section constraints.

Lemma update_tickers (r : asset) (t : string) (l : list asset) :
  ticker <$> ((λ a, if decide (ticker a = t) then r else a) <$> l)
  = rename_key t (ticker r) <$> (ticker <$> l).
Proof.
  rewrite <- !list_fmap_compose. apply list_fmap_ext. intros _ a _. simpl.
  unfold rename_key. by destruct (decide _).
Qed.

Lemma rename_key_NoDup (old new : string) (l : list string) :
  new ∉ l -> NoDup l -> NoDup (rename_key old new <$> l).
Proof.
  intros Hnew Hnd. apply NoDup_fmap_2_strong; [|done].
  intros x y Hx Hy. unfold rename_key.
  repeat destruct (decide _); congruence.
Qed.

Lemma rename_key_same (t : string) (l : list string) : rename_key t t <$> l = l.
Proof.
  rewrite <- (list_fmap_id l) at 2. apply list_fmap_ext. intros _ x _.
  unfold rename_key. by destruct (decide _).
Qed.

Lemma retarget_tickers (old new : string) (l : list transaction) :
  t_ticker <$> (retarget old new <$> l) = rename_key old new <$> (t_ticker <$> l).
Proof.
  rewrite <- !list_fmap_compose. apply list_fmap_ext. intros _ x _. simpl.
  apply retarget_ticker.
Qed.

Lemma filter_tickers (t : string) (l : list asset) :
  ticker <$> filter (λ a, ticker a ≠ t) l = filter (λ k, k ≠ t) (ticker <$> l).
Proof.
  induction l as [|a l IH]; [done|]. rewrite fmap_cons, !filter_cons.
  destruct (decide _); csimpl; by rewrite IH.
Qed.

Lemma filter_t_tickers (t : string) (l : list transaction) :
  t_ticker <$> filter (λ x, t_ticker x ≠ t) l = filter (λ k, k ≠ t) (t_ticker <$> l).
Proof.
  induction l as [|a l IH]; [done|]. rewrite fmap_cons, !filter_cons.
  destruct (decide _); csimpl; by rewrite IH.
Qed.

(** Every accepted statement leaves the constraints in force. *)
Lemma run_statement_wf (srv : server) (q : statement) (db db' : database) :
  db_wf db -> run_statement srv q db = inr db' -> db_wf db'.
Proof.
  intros [Hnd Hfk]. destruct q as [r|r t|t|x]; unfold run_statement, has_ticker.
  - case_bool_decide as Hin; intros [= <-]; [done|]. split; unfold tickers in *; simpl.
    + rewrite fmap_app. apply NoDup_app. split_and!; [done| |apply NoDup_singleton].
      by intros k Hk ->%list_elem_of_singleton.
    + intros k Hk. rewrite fmap_app, elem_of_app. left. by apply Hfk.
  - case_bool_decide as Hin; [|by intros [= <-]].
    destruct (decide (ticker r = t)) as [Heq|Hne].
    { intros [= <-]. unfold db_wf, tickers in *; simpl.
      by rewrite update_tickers, Heq, rename_key_same. }
    case_bool_decide as Hnew; [done|].
    assert (Hkeys : ∀ l : list string, (∀ k, k ∈ l -> k ∈ tickers db) ->
              ∀ k, k ∈ rename_key t (ticker r) <$> l ->
                   k ∈ rename_key t (ticker r) <$> tickers db).
    { intros l Hl k (k0 & -> & Hk0)%list_elem_of_fmap.
      apply list_elem_of_fmap. eauto. }
    destruct (referenced t db) eqn:Href.
    + destruct (fk_on_update srv); [done|]. intros [= <-].
      split; unfold tickers in *; simpl; rewrite update_tickers.
      * by apply rename_key_NoDup.
      * rewrite retarget_tickers. by apply Hkeys.
    + intros [= <-]. split; unfold tickers in *; simpl; rewrite update_tickers.
      * by apply rename_key_NoDup.
      * apply bool_decide_eq_false in Href.
        intros k Hk. apply list_elem_of_fmap. exists k. split; [|by apply Hfk].
        unfold rename_key. rewrite decide_False; [done|]. by intros ->.
  - case_bool_decide as Hin; intros [= <-]; [|done].
    split; unfold tickers in *; simpl.
    + rewrite filter_tickers. by apply NoDup_filter.
    + intros k. rewrite filter_tickers, filter_t_tickers, !list_elem_of_filter.
      intros [? ?]. split; [done|]. by apply Hfk.
  - case_bool_decide as Hin; [|done]. intros [= <-].
    split; unfold tickers in *; simpl; [done|].
    intros k. rewrite fmap_app, elem_of_app. csimpl. rewrite list_elem_of_singleton.
    intros [?| ->]; [by apply Hfk | done].
Qed.

End constraints.

(** Each mutating method leaves a committed store that satisfies the
    constraints, and no change pending. *)
Lemma methods_keep_constraints (srv : server) (fault : failure) (w : world)
    (t t' ty : string) (d : date) (s c amt : Decimal) (a : string) (nt : option string) :
  db_wf (committed w) -> db_wf (pending w) ->
  db_wf (committed (create_asset srv fault t d s c a w).2) ∧
  db_wf (committed (update_asset srv fault t t' d s c a w).2) ∧
  db_wf (committed (delete_asset srv fault t w).2) ∧
  db_wf (committed (add_transaction srv fault t ty amt nt w).2).
Proof.
  intros Hc Hp.
  rewrite create_asset_run, update_asset_run, delete_asset_run, add_transaction_run.
  unfold statement_outcome. destruct fault; [|done|done].
  split_and!; destruct (run_statement _ _ _) eqn:Hrun; simpl; try done;
    by eapply run_statement_wf.
Qed.

Lemma methods_leave_nothing_pending (srv : server) (fault : failure) (w : world)
    (t t' ty : string) (d : date) (s c amt : Decimal) (a : string) (nt : option string) :
  pending (create_asset srv fault t d s c a w).2
    = committed (create_asset srv fault t d s c a w).2 ∧
  pending (update_asset srv fault t t' d s c a w).2
    = committed (update_asset srv fault t t' d s c a w).2 ∧
  pending (delete_asset srv fault t w).2 = committed (delete_asset srv fault t w).2 ∧
  pending (add_transaction srv fault t ty amt nt w).2
    = committed (add_transaction srv fault t ty amt nt w).2.
Proof.
  rewrite create_asset_run, update_asset_run, delete_asset_run, add_transaction_run.
  destruct fault; [| |done]; split_and!; by destruct (statement_outcome _ _ _ _).
Qed.

(** ** Reading and deleting *)

(** [read_all_assets] returns the rows of the table, in the order of the
    collation when that is a total order. *)
Lemma read_all_assets_rows (srv : server) (w : world) :
  ∃ rows, read_all_assets srv false w = (Returned rows, w) ∧
          rows ≡ₚ assets (pending w) ∧
          (Total (ticker_le srv) -> Sorted (ticker_le srv) rows).
Proof.
  exists (select_assets srv (pending w)). split_and!; [done| |].
  - apply merge_sort_Permutation.
  - intros Htot. by apply Sorted_merge_sort.
Qed.

Lemma get_all_transactions_rows (w : world) :
  ∃ rows, get_all_transactions false w = (Returned rows, w) ∧
          rows ≡ₚ transactions (pending w).
Proof.
  exists (select_transactions (pending w)). split; [done|].
  apply merge_sort_Permutation.
Qed.

(** Deleting an asset removes the transactions that refer to it, and no
    others. *)
Lemma delete_asset_cascades (srv : server) (w : world) (t : string) :
  has_ticker t (pending w) = true ->
  (delete_asset srv false t w).1 = Returned true ∧
  assets (committed (delete_asset srv false t w).2)
    = filter (λ a, ticker a ≠ t) (assets (pending w)) ∧
  transactions (committed (delete_asset srv false t w).2)
    = filter (λ x, t_ticker x ≠ t) (transactions (pending w)).
Proof.
  intros Ht. rewrite delete_asset_run.
  unfold statement_outcome, run_statement. by rewrite Ht.
Qed.

Example delete_scenario :
  (delete_asset srv_no_action false "AAPL" (world_of (mkDb [aapl] [aapl_buy]))).1
    = Returned true ∧
  committed (delete_asset srv_no_action false "AAPL"
               (world_of (mkDb [aapl] [aapl_buy]))).2 = mkDb [] [].
Proof. split; reflexivity. Qed.

(** A transaction for a ticker that no asset has is rejected by the
    foreign key. *)
Example orphan_transaction_rejected :
  (add_transaction srv_cascade false "MSFT" "Buy" (mkDec 100 0) None
     (world_of (mkDb [aapl] [aapl_buy]))).1 = Returned false.
Proof. reflexivity. Qed.

Example read_sorted :
  (read_all_assets srv_cascade false
     (world_of (mkDb [mkAsset "MSFT" (mkDate 2024 1 1) (mkDec 1 0) (mkDec 1 0) "Equities"; aapl]
                     []))).1
  = Returned [aapl; mkAsset "MSFT" (mkDate 2024 1 1) (mkDec 1 0) (mkDec 1 0) "Equities"].
Proof. vm_compute. reflexivity. Qed.

(** ** Single calls *)

(** * Further properties of the data-access layer *)

Section store_facts.

Lemma db_wfb_spec (db : database) : db_wfb db = true -> db_wf db.
Proof.
  unfold db_wfb, db_wf. intros [Hnd Hfk]%andb_true_iff.
  split; [by apply bool_decide_eq_true in Hnd|].
  intros t Ht. apply forallb_forall with (x := t) in Hfk.
  - by apply bool_decide_eq_true in Hfk.
  - by apply list_elem_of_In.
Qed.

Lemma has_ticker_true (t : string) (db : database) :
  has_ticker t db = true ↔ t ∈ tickers db.
Proof. unfold has_ticker. by rewrite bool_decide_eq_true. Qed.

Lemma has_ticker_false (t : string) (db : database) :
  has_ticker t db = false ↔ t ∉ tickers db.
Proof. unfold has_ticker. by rewrite bool_decide_eq_false. Qed.

Lemma filter_all {A} (P : A -> Prop) `{∀ x, Decision (P x)} (l : list A) :
  (∀ x, x ∈ l -> P x) -> filter P l = l.
Proof.
  induction l as [|x l IH]; [done|]. intros Hall.
  rewrite filter_cons, decide_True by (apply Hall, list_elem_of_here).
  rewrite IH; [done|]. intros y Hy. by apply Hall, list_elem_of_further.
Qed.

End store_facts.

Lemma create_asset_new_row_store (srv : server) (w : world)
    (t : string) (d : date) (s c : Decimal) (a : string) :
  has_ticker t (pending w) = false ->
  assets (committed (create_asset srv false t d s c a w).2)
    = assets (pending w) ++ [mkAsset t d s c a] ∧
  transactions (committed (create_asset srv false t d s c a w).2)
    = transactions (pending w) ∧
  pending (create_asset srv false t d s c a w).2
    = committed (create_asset srv false t d s c a w).2.
Proof.
  intros Ht. rewrite create_asset_run. unfold statement_outcome, run_statement.
  simpl. by rewrite Ht.
Qed.

(** X1.  [create_asset] with a ticker that no row has returns [True] and
    appends exactly the row it was given; the other rows and the
    transactions stay, and [read_all_assets] then returns the new row among
    one row more than before. *)
Theorem create_asset_new_row (srv : server) (w : world)
    (t : string) (d : date) (s c : Decimal) (a : string) :
  has_ticker t (pending w) = false ->
  (create_asset srv false t d s c a w).1 = Returned true ∧
  assets (committed (create_asset srv false t d s c a w).2)
    = assets (pending w) ++ [mkAsset t d s c a] ∧
  transactions (committed (create_asset srv false t d s c a w).2)
    = transactions (pending w) ∧
  ∃ rows,
    (read_all_assets srv false (create_asset srv false t d s c a w).2).1 = Returned rows ∧
    mkAsset t d s c a ∈ rows ∧
    length rows = S (length (assets (pending w))).
Proof.
  intros Ht. rewrite create_asset_run. unfold statement_outcome, run_statement.
  simpl. rewrite Ht. simpl. split_and!; try done.
  eexists. split; [reflexivity|]. unfold select_assets. simpl. split.
  - rewrite merge_sort_Permutation, elem_of_app, list_elem_of_singleton. by right.
  - rewrite merge_sort_Permutation, length_app. simpl. lia.
Qed.

Lemma create_asset_new_row_witness :
  (create_asset srv_cascade false "MSFT" (mkDate 2025 6 1) (mkDec 3 0) (mkDec 99900 (-2))
     "Equities" (world_of (mkDb [aapl] [aapl_buy]))).1 = Returned true ∧
  assets (committed (create_asset srv_cascade false "MSFT" (mkDate 2025 6 1) (mkDec 3 0)
     (mkDec 99900 (-2)) "Equities" (world_of (mkDb [aapl] [aapl_buy]))).2)
    = [aapl] ++ [mkAsset "MSFT" (mkDate 2025 6 1) (mkDec 3 0) (mkDec 99900 (-2)) "Equities"] ∧
  transactions (committed (create_asset srv_cascade false "MSFT" (mkDate 2025 6 1)
     (mkDec 3 0) (mkDec 99900 (-2)) "Equities" (world_of (mkDb [aapl] [aapl_buy]))).2)
    = [aapl_buy] ∧
  ∃ rows,
    (read_all_assets srv_cascade false
       (create_asset srv_cascade false "MSFT" (mkDate 2025 6 1) (mkDec 3 0)
          (mkDec 99900 (-2)) "Equities" (world_of (mkDb [aapl] [aapl_buy]))).2).1
      = Returned rows ∧
    mkAsset "MSFT" (mkDate 2025 6 1) (mkDec 3 0) (mkDec 99900 (-2)) "Equities" ∈ rows ∧
    length rows = 2%nat.
Proof.
  apply (create_asset_new_row srv_cascade (world_of (mkDb [aapl] [aapl_buy]))).
  reflexivity.
Defined.

(** X2.  After a call of [create_asset] for a ticker, whether it inserted
    or not, a second call for that ticker returns [True] and changes
    nothing, whatever its other arguments: the call is idempotent. *)
Theorem create_asset_twice (srv : server) (w : world)
    (t : string) (d d' : date) (s c s' c' : Decimal) (a a' : string) :
  (create_asset srv false t d' s' c' a' (create_asset srv false t d s c a w).2).1
    = Returned true ∧
  committed (create_asset srv false t d' s' c' a' (create_asset srv false t d s c a w).2).2
    = committed (create_asset srv false t d s c a w).2 ∧
  pending (create_asset srv false t d' s' c' a' (create_asset srv false t d s c a w).2).2
    = committed (create_asset srv false t d s c a w).2.
Proof.
  rewrite (create_asset_run srv false w). unfold statement_outcome, run_statement at 2.
  simpl. destruct (has_ticker t (pending w)) eqn:Ht; simpl.
  - rewrite create_asset_run. unfold statement_outcome, run_statement. simpl.
    by rewrite Ht.
  - rewrite create_asset_run. unfold statement_outcome, run_statement. simpl.
    assert (Hin : has_ticker t (mkDb (assets (pending w) ++ [mkAsset t d s c a])
                                     (transactions (pending w))) = true).
    { apply has_ticker_true. unfold tickers. simpl.
      rewrite fmap_app, elem_of_app. right. apply list_elem_of_here. }
    by rewrite Hin.
Qed.

Section rows.

Lemma replace_rows_other (r : asset) (t : string) (l : list asset) :
  filter (λ x, ticker x ≠ t) ((λ x, if decide (ticker x = t) then r else x) <$> l)
  = if decide (ticker r = t) then filter (λ x, ticker x ≠ t) l
    else (λ x, if decide (ticker x = t) then r else x) <$> l.
Proof.
  induction l as [|x l IH]; [by destruct (decide _)|].
  rewrite fmap_cons, !filter_cons, IH.
  destruct (decide (ticker r = t)) as [Hr|Hr];
    destruct (decide (ticker x = t)) as [Hx|Hx]; simpl.
  all: repeat destruct (decide _); try done; by exfalso; eauto.
Qed.

Lemma replace_rows_absent (r : asset) (t : string) (l : list asset) :
  t ∉ ticker <$> l ->
  (λ x, if decide (ticker x = t) then r else x) <$> l = l ∧
  filter (λ x, ticker x = t) l = [].
Proof.
  induction l as [|x l IH]; [done|].
  rewrite fmap_cons, not_elem_of_cons. intros [Hx Hl].
  destruct (IH Hl) as [IH1 IH2].
  rewrite fmap_cons, filter_cons, IH1, IH2.
  by rewrite !decide_False by done.
Qed.

Lemma replace_rows_same (r : asset) (t : string) (l : list asset) :
  ticker r = t -> t ∈ ticker <$> l -> NoDup (ticker <$> l) ->
  filter (λ x, ticker x = t) ((λ x, if decide (ticker x = t) then r else x) <$> l) = [r].
Proof.
  intros Hr. induction l as [|x l IH]; [by intros ?%not_elem_of_nil|].
  rewrite !fmap_cons, NoDup_cons, elem_of_cons, filter_cons.
  intros Hin [Hx Hnd]. destruct (decide (ticker x = t)) as [Hxt|Hxt].
  - rewrite Hxt in Hx.
    destruct (replace_rows_absent r t l Hx) as [-> ->].
    by rewrite decide_True.
  - rewrite decide_False by done. apply IH; [|done]. by destruct Hin.
Qed.

End rows.

(** X3.  [update_asset] that keeps the ticker of an existing asset returns
    [True]; afterwards exactly one row carries that ticker and holds the
    new values, every other row is as before, and the transactions are
    untouched. *)
Theorem update_asset_in_place (srv : server) (w : world)
    (t : string) (d : date) (s c : Decimal) (a : string) :
  NoDup (tickers (pending w)) ->
  has_ticker t (pending w) = true ->
  (update_asset srv false t t d s c a w).1 = Returned true ∧
  filter (λ x, ticker x = t) (assets (committed (update_asset srv false t t d s c a w).2))
    = [mkAsset t d s c a] ∧
  filter (λ x, ticker x ≠ t) (assets (committed (update_asset srv false t t d s c a w).2))
    = filter (λ x, ticker x ≠ t) (assets (pending w)) ∧
  transactions (committed (update_asset srv false t t d s c a w).2)
    = transactions (pending w).
Proof.
  intros Hnd Ht. rewrite update_asset_run. unfold statement_outcome, run_statement.
  simpl. rewrite Ht, decide_True by done. simpl. split_and!; try done.
  - apply replace_rows_same; [done| |done]. by apply has_ticker_true.
  - rewrite replace_rows_other. by rewrite decide_True.
Qed.

Lemma update_asset_in_place_witness :
  (update_asset srv_no_action false "AAPL" "AAPL" (mkDate 2025 6 1) (mkDec 12 0)
     (mkDec 180000 (-2)) "Other" (world_of (mkDb [aapl] [aapl_buy]))).1 = Returned true ∧
  filter (λ x, ticker x = "AAPL"%string)
    (assets (committed (update_asset srv_no_action false "AAPL" "AAPL" (mkDate 2025 6 1)
       (mkDec 12 0) (mkDec 180000 (-2)) "Other" (world_of (mkDb [aapl] [aapl_buy]))).2))
    = [mkAsset "AAPL" (mkDate 2025 6 1) (mkDec 12 0) (mkDec 180000 (-2)) "Other"] ∧
  filter (λ x, ticker x ≠ "AAPL"%string)
    (assets (committed (update_asset srv_no_action false "AAPL" "AAPL" (mkDate 2025 6 1)
       (mkDec 12 0) (mkDec 180000 (-2)) "Other" (world_of (mkDb [aapl] [aapl_buy]))).2))
    = filter (λ x, ticker x ≠ "AAPL"%string) [aapl] ∧
  transactions (committed (update_asset srv_no_action false "AAPL" "AAPL" (mkDate 2025 6 1)
     (mkDec 12 0) (mkDec 180000 (-2)) "Other" (world_of (mkDb [aapl] [aapl_buy]))).2)
    = [aapl_buy].
Proof.
  apply (update_asset_in_place srv_no_action (world_of (mkDb [aapl] [aapl_buy])) "AAPL").
  - apply NoDup_singleton.
  - reflexivity.
Defined.

(** X4.  [update_asset] that would give an existing asset the ticker of
    another row is rejected: it returns [False], the store is as it was
    and the error is printed. *)
Theorem update_asset_taken_ticker (srv : server) (w : world)
    (t t' : string) (d : date) (s c : Decimal) (a : string) :
  t ≠ t' ->
  has_ticker t (pending w) = true ->
  has_ticker t' (pending w) = true ->
  update_asset srv false t t' d s c a w =
    (Returned false,
     mkWorld (committed w) (committed w) (today w) (inexact w)
       (stdout w ++ [LogError "Error updating asset" UniqueViolation])).
Proof.
  intros Hne Ht Ht'. rewrite update_asset_run. unfold statement_outcome, run_statement.
  simpl. rewrite Ht, decide_False by done. by rewrite Ht'.
Qed.

Lemma update_asset_taken_ticker_witness :
  update_asset srv_cascade false "AAPL" "MSFT" (mkDate 2025 6 1) (mkDec 12 0)
    (mkDec 180000 (-2)) "Other" (world_of (mkDb [aapl; msft] [aapl_buy])) =
    (Returned false,
     mkWorld (mkDb [aapl; msft] [aapl_buy]) (mkDb [aapl; msft] [aapl_buy])
       (mkDate 2024 3 1) false [LogError "Error updating asset" UniqueViolation]).
Proof.
  apply (update_asset_taken_ticker srv_cascade (world_of (mkDb [aapl; msft] [aapl_buy]))).
  - discriminate.
  - reflexivity.
  - reflexivity.
Defined.

(** X5.  [delete_asset] of an existing asset returns [True]; afterwards
    no row has the ticker and no transaction refers to it, while the rows
    and transactions of other tickers are kept, in order. *)
Theorem delete_asset_removes (srv : server) (w : world) (t : string) :
  has_ticker t (pending w) = true ->
  (delete_asset srv false t w).1 = Returned true ∧
  has_ticker t (committed (delete_asset srv false t w).2) = false ∧
  referenced t (committed (delete_asset srv false t w).2) = false ∧
  assets (committed (delete_asset srv false t w).2)
    = filter (λ a, ticker a ≠ t) (assets (pending w)) ∧
  transactions (committed (delete_asset srv false t w).2)
    = filter (λ x, t_ticker x ≠ t) (transactions (pending w)).
Proof.
  intros Ht. rewrite delete_asset_run. unfold statement_outcome, run_statement.
  rewrite Ht. simpl. split_and!; try done.
  - apply has_ticker_false. unfold tickers. simpl.
    rewrite filter_tickers, list_elem_of_filter. tauto.
  - unfold referenced. apply bool_decide_eq_false. simpl.
    rewrite filter_t_tickers, list_elem_of_filter. tauto.
Qed.

Lemma delete_asset_removes_witness :
  (delete_asset srv_no_action false "AAPL" (world_of (mkDb [aapl; msft] [aapl_buy]))).1
    = Returned true ∧
  has_ticker "AAPL" (committed (delete_asset srv_no_action false "AAPL"
     (world_of (mkDb [aapl; msft] [aapl_buy]))).2) = false ∧
  referenced "AAPL" (committed (delete_asset srv_no_action false "AAPL"
     (world_of (mkDb [aapl; msft] [aapl_buy]))).2) = false ∧
  assets (committed (delete_asset srv_no_action false "AAPL"
     (world_of (mkDb [aapl; msft] [aapl_buy]))).2)
    = filter (λ a, ticker a ≠ "AAPL"%string) [aapl; msft] ∧
  transactions (committed (delete_asset srv_no_action false "AAPL"
     (world_of (mkDb [aapl; msft] [aapl_buy]))).2)
    = filter (λ x, t_ticker x ≠ "AAPL"%string) [aapl_buy].
Proof.
  apply (delete_asset_removes srv_no_action (world_of (mkDb [aapl; msft] [aapl_buy]))).
  reflexivity.
Defined.

(** X6.  [add_transaction] for a ticker that no asset has is rejected by
    the foreign key: it returns [False], the store is as it was and the
    error is printed. *)
Theorem add_transaction_unknown_ticker (srv : server) (w : world)
    (t ty : string) (amt : Decimal) (nt : option string) :
  has_ticker t (pending w) = false ->
  add_transaction srv false t ty amt nt w =
    (Returned false,
     mkWorld (committed w) (committed w) (today w) (inexact w)
       (stdout w ++ [LogError "Error adding transaction" ForeignKeyViolation])).
Proof.
  intros Ht. rewrite add_transaction_run. unfold statement_outcome, run_statement.
  simpl. by rewrite Ht.
Qed.

Lemma add_transaction_unknown_ticker_witness :
  add_transaction srv_cascade false "MSFT" "Buy" (mkDec 100 0) None
    (world_of (mkDb [aapl] [aapl_buy])) =
    (Returned false,
     mkWorld (mkDb [aapl] [aapl_buy]) (mkDb [aapl] [aapl_buy]) (mkDate 2024 3 1) false
       [LogError "Error adding transaction" ForeignKeyViolation]).
Proof.
  apply (add_transaction_unknown_ticker srv_cascade (world_of (mkDb [aapl] [aapl_buy]))).
  reflexivity.
Defined.


(** ** Sessions of calls *)

Section sessions.

(** The reading methods, whatever the fault. *)
Lemma read_all_assets_run (srv : server) (fault : failure) (w : world) :
  read_all_assets srv fault w =
  match fault with
  | NoFailure => (Returned (select_assets srv (pending w)), w)
  | Rejected =>
      (Returned [],
       mkWorld (committed w) (pending w) (today w) (inexact w)
               (stdout w ++ [LogError "Error reading assets" OperationalError]))
  | ConnectionLost =>
      (Returned [],
       mkWorld (committed w) (committed w) (today w) (inexact w)
               (stdout w ++ [LogError "Error reading assets" OperationalError]))
  end.
Proof. by destruct fault. Qed.

Lemma get_all_transactions_run (fault : failure) (w : world) :
  get_all_transactions fault w =
  match fault with
  | NoFailure => (Returned (select_transactions (pending w)), w)
  | Rejected =>
      (Returned [],
       mkWorld (committed w) (pending w) (today w) (inexact w)
               (stdout w ++ [LogError "Error retrieving transactions" OperationalError]))
  | ConnectionLost =>
      (Returned [],
       mkWorld (committed w) (committed w) (today w) (inexact w)
               (stdout w ++ [LogError "Error retrieving transactions" OperationalError]))
  end.
Proof. by destruct fault. Qed.

Lemma get_asset_allocation_failed (w : world) :
  get_asset_allocation true w =
  (Returned ∅,
   mkWorld (committed w) (pending w) (today w) (inexact w)
           (stdout w ++ [LogError "Error getting asset allocation" OperationalError])).
Proof. reflexivity. Qed.

Lemma get_insights_failed (srv : server) (w : world) :
  get_insights srv true w =
  (Returned ∅,
   mkWorld (committed w) (pending w) (today w) (inexact w)
           (stdout w ++ [LogError "Error getting business insights" OperationalError])).
Proof. reflexivity. Qed.

Lemma get_portfolio_summary_failed (w : world) :
  get_portfolio_summary true w =
  (Returned ∅,
   mkWorld (committed w) (pending w) (today w) (inexact w)
           (stdout w ++ [LogError "Error getting portfolio summary" OperationalError])).
Proof. reflexivity. Qed.

Lemma get_portfolio_summary_store (fault : bool) (w : world) :
  (∃ m, (get_portfolio_summary fault w).1 = Returned m) ∧
  committed (get_portfolio_summary fault w).2 = committed w ∧
  pending (get_portfolio_summary fault w).2 = pending w.
Proof.
  destruct fault; [rewrite get_portfolio_summary_failed; eauto|].
  unfold get_portfolio_summary, try_except, mbind, py_bind, cursor_query.
  destruct (select_asset_columns (pending w)); simpl; eauto.
Qed.

Lemma get_insights_store (srv : server) (fault : bool) (w : world) :
  (∃ m, (get_insights srv fault w).1 = Returned m) ∧
  committed (get_insights srv fault w).2 = committed w ∧
  pending (get_insights srv fault w).2 = pending w.
Proof. destruct fault; [rewrite get_insights_failed; eauto|]. simpl. eauto. Qed.

Lemma get_asset_allocation_store (fault : bool) (w : world) :
  (∃ m, (get_asset_allocation fault w).1 = Returned m) ∧
  committed (get_asset_allocation fault w).2 = committed w ∧
  pending (get_asset_allocation fault w).2 = pending w.
Proof. destruct fault; [rewrite get_asset_allocation_failed; eauto|]. simpl. eauto. Qed.

(** One call keeps the constraints and leaves nothing pending. *)
Lemma run_call_wf (srv : server) (fault : failure) (c : method_call) (w : world) :
  db_wf (pending w) -> pending w = committed w ->
  db_wf (pending (run_call srv fault c w)) ∧
  pending (run_call srv fault c w) = committed (run_call srv fault c w).
Proof.
  intros Hwf Hq.
  assert (Hwf' : db_wf (committed w)) by (by rewrite <- Hq).
  assert (Hread : ∀ w', committed w' = committed w -> pending w' = pending w ->
                        db_wf (pending w') ∧ pending w' = committed w').
  { intros w' Hc Hp. by rewrite Hp, Hc. }
  destruct c as [t d s c a| |t t' d s c a|t|t ty amt nt| | | |]; cbn [run_call].
  - pose proof (methods_keep_constraints srv fault w t t t d s c s a None Hwf' Hwf)
      as (H & _).
    pose proof (methods_leave_nothing_pending srv fault w t t t d s c s a None)
      as (-> & _). done.
  - rewrite read_all_assets_run. by destruct fault.
  - pose proof (methods_keep_constraints srv fault w t t' t d s c s a None Hwf' Hwf)
      as (_ & H & _).
    pose proof (methods_leave_nothing_pending srv fault w t t' t d s c s a None)
      as (_ & -> & _). done.
  - pose proof (methods_keep_constraints srv fault w t t t (today w) (mkDec 0 0)
                  (mkDec 0 0) (mkDec 0 0) t None Hwf' Hwf) as (_ & _ & H & _).
    pose proof (methods_leave_nothing_pending srv fault w t t t (today w) (mkDec 0 0)
                  (mkDec 0 0) (mkDec 0 0) t None) as (_ & _ & -> & _). done.
  - pose proof (methods_keep_constraints srv fault w t t ty (today w) amt amt amt t nt
                  Hwf' Hwf) as (_ & _ & _ & H).
    pose proof (methods_leave_nothing_pending srv fault w t t ty (today w) amt amt amt
                  t nt) as (_ & _ & _ & ->). done.
  - rewrite get_all_transactions_run. by destruct fault.
  - destruct fault; [| |by simpl].
    + change NoFailure with (failure_of_bool false).
      destruct (get_portfolio_summary_store false w) as (_ & Hc & Hp). by apply Hread.
    + change Rejected with (failure_of_bool true).
      destruct (get_portfolio_summary_store true w) as (_ & Hc & Hp). by apply Hread.
  - destruct fault; [| |by simpl].
    + change NoFailure with (failure_of_bool false).
      destruct (get_asset_allocation_store false w) as (_ & Hc & Hp). by apply Hread.
    + change Rejected with (failure_of_bool true).
      destruct (get_asset_allocation_store true w) as (_ & Hc & Hp). by apply Hread.
  - destruct fault; [| |by simpl].
    + change NoFailure with (failure_of_bool false).
      destruct (get_insights_store srv false w) as (_ & Hc & Hp). by apply Hread.
    + change Rejected with (failure_of_bool true).
      destruct (get_insights_store srv true w) as (_ & Hc & Hp). by apply Hread.
Qed.

End sessions.

(** X7.  Whatever methods are called, in whatever order, with whatever
    arguments, whichever of the statements fail and whichever calls lose
    the connection: if tickers were unique and every transaction referred
    to an asset before, the same holds of the committed store afterwards,
    and no change is left uncommitted. *)
Theorem calls_keep_constraints (srv : server) (cs : list (failure * method_call))
    (w : world) :
  db_wf (pending w) -> pending w = committed w ->
  db_wf (committed (run_calls srv cs w)) ∧
  pending (run_calls srv cs w) = committed (run_calls srv cs w).
Proof.
  unfold run_calls. revert w. induction cs as [|[f c] cs IH]; intros w Hwf Hq; simpl.
  - by rewrite <- Hq.
  - destruct (run_call_wf srv f c w Hwf Hq) as [Hwf' Hq']. by apply IH.
Qed.

Lemma calls_keep_constraints_witness :
  db_wf (committed (run_calls srv_no_action
    [(NoFailure,
      CallCreateAsset "MSFT" (mkDate 2024 5 1) (mkDec 2 0) (mkDec 80000 (-2)) "Equities");
     (NoFailure,
      CallCreateAsset "AAPL" (mkDate 2024 5 1) (mkDec 2 0) (mkDec 80000 (-2)) "Crypto");
     (NoFailure,
      CallUpdateAsset "AAPL" "MSFT" (mkDate 2024 5 1) (mkDec 2 0) (mkDec 1 0) "Other");
     (Rejected, CallGetInsights);
     (NoFailure, CallAddTransaction "GOOG" "Buy" (mkDec 5 0) None);
     (ConnectionLost, CallDeleteAsset "MSFT");
     (NoFailure, CallDeleteAsset "AAPL")]
    (world_of (mkDb [aapl] [aapl_buy])))) ∧
  pending (run_calls srv_no_action
    [(NoFailure,
      CallCreateAsset "MSFT" (mkDate 2024 5 1) (mkDec 2 0) (mkDec 80000 (-2)) "Equities");
     (NoFailure,
      CallCreateAsset "AAPL" (mkDate 2024 5 1) (mkDec 2 0) (mkDec 80000 (-2)) "Crypto");
     (NoFailure,
      CallUpdateAsset "AAPL" "MSFT" (mkDate 2024 5 1) (mkDec 2 0) (mkDec 1 0) "Other");
     (Rejected, CallGetInsights);
     (NoFailure, CallAddTransaction "GOOG" "Buy" (mkDec 5 0) None);
     (ConnectionLost, CallDeleteAsset "MSFT");
     (NoFailure, CallDeleteAsset "AAPL")]
    (world_of (mkDb [aapl] [aapl_buy])))
  = mkDb [msft] [].
Proof.
  apply (calls_keep_constraints srv_no_action
    [(NoFailure,
      CallCreateAsset "MSFT" (mkDate 2024 5 1) (mkDec 2 0) (mkDec 80000 (-2)) "Equities");
     (NoFailure,
      CallCreateAsset "AAPL" (mkDate 2024 5 1) (mkDec 2 0) (mkDec 80000 (-2)) "Crypto");
     (NoFailure,
      CallUpdateAsset "AAPL" "MSFT" (mkDate 2024 5 1) (mkDec 2 0) (mkDec 1 0) "Other");
     (Rejected, CallGetInsights);
     (NoFailure, CallAddTransaction "GOOG" "Buy" (mkDec 5 0) None);
     (ConnectionLost, CallDeleteAsset "MSFT");
     (NoFailure, CallDeleteAsset "AAPL")]
    (world_of (mkDb [aapl] [aapl_buy]))).
  - apply db_wfb_spec. reflexivity.
  - reflexivity.
Defined.



(** ** Round trips, the log and the order of rows *)

(** X9.  Creating an asset under a ticker that no row has and no
    transaction mentions, and then deleting it, gives back the store as it
    was. *)
Theorem create_then_delete (srv : server) (w : world)
    (t : string) (d : date) (s c : Decimal) (a : string) :
  pending w = committed w ->
  has_ticker t (pending w) = false ->
  referenced t (pending w) = false ->
  (delete_asset srv false t (create_asset srv false t d s c a w).2).1 = Returned true ∧
  committed (delete_asset srv false t (create_asset srv false t d s c a w).2).2
    = committed w.
Proof.
  intros Hq Ht Href.
  destruct (create_asset_new_row_store srv w t d s c a Ht) as (Ha & Hx & Hp).
  rewrite delete_asset_run. unfold statement_outcome, run_statement.
  assert (Hin : has_ticker t (pending (create_asset srv false t d s c a w).2) = true).
  { apply has_ticker_true. unfold tickers. rewrite Hp, Ha, fmap_app, elem_of_app.
    right. apply list_elem_of_here. }
  change (failure_of_bool false) with NoFailure in *.
  rewrite Hin. simpl. split; [done|].
  rewrite Hp, Ha, Hx, <- Hq. destruct (pending w) as [l txs]; simpl in *. f_equal.
  - rewrite filter_app, filter_cons, filter_nil. simpl.
    rewrite decide_False by (by intros H; apply H).
    rewrite app_nil_r. apply filter_all. intros x Hx' Heq.
    apply has_ticker_false in Ht. apply Ht. unfold tickers. simpl.
    rewrite <- Heq. by apply list_elem_of_fmap_2.
  - apply filter_all. intros x Hx' Heq.
    unfold referenced in Href. apply bool_decide_eq_false in Href. apply Href.
    simpl. rewrite <- Heq. by apply list_elem_of_fmap_2.
Qed.

Lemma create_then_delete_witness :
  (delete_asset srv_no_action false "MSFT"
     (create_asset srv_no_action false "MSFT" (mkDate 2024 5 1) (mkDec 2 0)
        (mkDec 80000 (-2)) "Equities" (world_of (mkDb [aapl] [aapl_buy]))).2).1
    = Returned true ∧
  committed (delete_asset srv_no_action false "MSFT"
     (create_asset srv_no_action false "MSFT" (mkDate 2024 5 1) (mkDec 2 0)
        (mkDec 80000 (-2)) "Equities" (world_of (mkDb [aapl] [aapl_buy]))).2).2
    = mkDb [aapl] [aapl_buy].
Proof.
  apply (create_then_delete srv_no_action (world_of (mkDb [aapl] [aapl_buy])));
    reflexivity.
Defined.

Section rename_back.

Lemma same_ticker_same_row (l : list asset) (x y : asset) :
  NoDup (ticker <$> l) -> x ∈ l -> y ∈ l -> ticker x = ticker y -> x = y.
Proof.
  induction l as [|z l IH]; [by intros _ ?%not_elem_of_nil|].
  rewrite fmap_cons, NoDup_cons, !elem_of_cons.
  intros [Hz Hnd] [->|Hx] [->|Hy] Heq; try done.
  - exfalso. apply Hz. rewrite Heq. by apply list_elem_of_fmap_2.
  - exfalso. apply Hz. rewrite <- Heq. by apply list_elem_of_fmap_2.
  - by apply IH.
Qed.

Lemma replace_and_restore (l : list asset) (r0 r1 : asset) :
  NoDup (ticker <$> l) -> r0 ∈ l -> ticker r1 ∉ ticker <$> l ->
  (λ x, if decide (ticker x = ticker r1) then r0 else x)
    <$> ((λ x, if decide (ticker x = ticker r0) then r1 else x) <$> l) = l.
Proof.
  intros Hnd Hr0 Hnew. rewrite <- list_fmap_compose.
  rewrite <- (list_fmap_id l) at 2. apply list_fmap_ext. intros i x Hx. simpl.
  apply list_elem_of_lookup_2 in Hx.
  destruct (decide (ticker x = ticker r0)) as [Heq|Hne].
  - rewrite decide_True by done. symmetry. by eapply same_ticker_same_row.
  - rewrite decide_False; [done|]. intros Heq. apply Hnew. rewrite <- Heq.
    by apply list_elem_of_fmap_2.
Qed.

Lemma retarget_and_restore (old new : string) (l : list transaction) :
  new ∉ t_ticker <$> l -> retarget new old <$> (retarget old new <$> l) = l.
Proof.
  intros Hnew. rewrite <- list_fmap_compose.
  rewrite <- (list_fmap_id l) at 2. apply list_fmap_ext. intros i x Hx. simpl.
  apply list_elem_of_lookup_2 in Hx. unfold retarget.
  destruct (decide (t_ticker x = old)) as [Heq|Hne]; simpl.
  - rewrite decide_True by done. destruct x; simpl in *. by subst.
  - rewrite decide_False; [done|]. intros Heq. apply Hnew. rewrite <- Heq.
    by apply list_elem_of_fmap_2.
Qed.

(** A change of key is accepted when the new ticker is free and the
    foreign key, if it has to act, cascades. *)
Lemma rename_accepted (srv : server) (r : asset) (t : string) (db : database) :
  has_ticker t db = true -> ticker r ≠ t -> has_ticker (ticker r) db = false ->
  (referenced t db = true -> fk_on_update srv = Cascade) ->
  ∃ db', run_statement srv (UpdateAsset r t) db = inr db'.
Proof.
  intros Ht Hne Hnew Hfk. unfold run_statement.
  rewrite Ht, decide_False, Hnew by done.
  destruct (referenced t db); [rewrite Hfk by done|]; eauto.
Qed.

Lemma rename_needs_cascade (srv : server) (r : asset) (t : string) (db db' : database) :
  has_ticker t db = true -> ticker r ≠ t ->
  run_statement srv (UpdateAsset r t) db = inr db' ->
  referenced t db = true -> fk_on_update srv = Cascade.
Proof.
  intros Ht Hne. unfold run_statement. rewrite Ht, decide_False by done.
  destruct (has_ticker (ticker r) db); [done|]. intros Hrun Href.
  rewrite Href in Hrun. by destruct (fk_on_update srv).
Qed.

End rename_back.

(** X10.  Renaming an asset to a free ticker and then renaming it back
    with its former values gives back the store as it was, transactions
    included, provided the first rename succeeded. *)
Theorem rename_there_and_back (srv : server) (w : world) (r0 : asset) (new : string)
    (d : date) (s c : Decimal) (a : string) :
  db_wf (pending w) -> pending w = committed w ->
  r0 ∈ assets (pending w) ->
  has_ticker new (pending w) = false ->
  (update_asset srv false (ticker r0) new d s c a w).1 = Returned true ->
  (update_asset srv false new (ticker r0) (purchase_date r0) (shares r0) (cost_basis r0)
     (asset_class r0) (update_asset srv false (ticker r0) new d s c a w).2).1
    = Returned true ∧
  committed
    (update_asset srv false new (ticker r0) (purchase_date r0) (shares r0) (cost_basis r0)
       (asset_class r0) (update_asset srv false (ticker r0) new d s c a w).2).2
    = committed w.
Proof.
  intros [Hnd Hfk] Hq Hr0 Hnew.
  assert (Hold : has_ticker (ticker r0) (pending w) = true).
  { apply has_ticker_true. by apply list_elem_of_fmap_2. }
  assert (Hne : new ≠ ticker r0) by (intros ->; congruence).
  apply has_ticker_false in Hnew.
  rewrite (update_asset_run srv false w). unfold statement_outcome.
  destruct (run_statement srv _ (pending w)) as [e|db1] eqn:Hrun1; [done|].
  intros _. simpl.
  pose proof (rename_needs_cascade srv (mkAsset new d s c a) (ticker r0) (pending w)
                db1 Hold Hne Hrun1) as Hcas.
  apply rename_statement in Hrun1 as [Ha1 Hx1]; [|done|done]. simpl in Ha1, Hx1.
  rewrite update_asset_run. unfold statement_outcome. cbn [pending committed fst snd].
  assert (Hr0eq : mkAsset (ticker r0) (purchase_date r0) (shares r0) (cost_basis r0)
                    (asset_class r0) = r0) by (by destruct r0).
  rewrite Hr0eq.
  assert (Htk1 : tickers db1 = rename_key (ticker r0) new <$> tickers (pending w)).
  { unfold tickers. rewrite Ha1. apply (update_tickers (mkAsset new d s c a)). }
  assert (Hnew1 : has_ticker new db1 = true).
  { apply has_ticker_true. rewrite Htk1. apply list_elem_of_fmap.
    exists (ticker r0). split; [|by apply has_ticker_true].
    unfold rename_key. by rewrite decide_True. }
  assert (Hold1 : has_ticker (ticker r0) db1 = false).
  { apply has_ticker_false. rewrite Htk1.
    intros (k & Hk & _)%list_elem_of_fmap. unfold rename_key in Hk.
    destruct (decide (k = ticker r0)); congruence. }
  assert (Hnotx : new ∉ t_ticker <$> transactions (pending w)).
  { intros Hin. by apply Hnew, Hfk. }
  assert (Href1 : referenced new db1 = true -> fk_on_update srv = Cascade).
  { intros Href. apply Hcas. unfold referenced in *.
    apply bool_decide_eq_true in Href. apply bool_decide_eq_true.
    rewrite Hx1, retarget_tickers in Href.
    apply list_elem_of_fmap in Href as (k & Hk & Hin). unfold rename_key in Hk.
    destruct (decide (k = ticker r0)) as [->|]; [done|]. by subst. }
  destruct (rename_accepted srv r0 new db1 Hnew1 (not_eq_sym Hne) Hold1 Href1)
    as [db2 Hrun2].
  rewrite Hrun2. split; [done|]. cbn [pending committed fst snd].
  apply rename_statement in Hrun2 as [Ha2 Hx2]; [|done|by apply not_eq_sym].
  rewrite <- Hq. destruct db2 as [l2 x2], (pending w) as [l0 x0]; simpl in *.
  subst l2 x2. rewrite Ha1, Hx1. f_equal.
  - apply (replace_and_restore l0 r0 (mkAsset new d s c a)); done.
  - by apply retarget_and_restore.
Qed.

Lemma rename_there_and_back_witness :
  (update_asset srv_cascade false "AAPLX" (ticker aapl) (purchase_date aapl) (shares aapl)
     (cost_basis aapl) (asset_class aapl)
     (update_asset srv_cascade false (ticker aapl) "AAPLX" (mkDate 2025 6 1) (mkDec 12 0)
        (mkDec 180000 (-2)) "Other" (world_of (mkDb [aapl; msft] [aapl_buy]))).2).1
    = Returned true ∧
  committed
    (update_asset srv_cascade false "AAPLX" (ticker aapl) (purchase_date aapl) (shares aapl)
       (cost_basis aapl) (asset_class aapl)
       (update_asset srv_cascade false (ticker aapl) "AAPLX" (mkDate 2025 6 1) (mkDec 12 0)
          (mkDec 180000 (-2)) "Other" (world_of (mkDb [aapl; msft] [aapl_buy]))).2).2
    = mkDb [aapl; msft] [aapl_buy].
Proof.
  apply (rename_there_and_back srv_cascade (world_of (mkDb [aapl; msft] [aapl_buy])) aapl).
  - apply db_wfb_spec. reflexivity.
  - reflexivity.
  - apply list_elem_of_here.
  - reflexivity.
  - reflexivity.
Defined.

(** X11.  A call of a mutating method ends in one of two ways.  As long
    as the connection is not lost it returns a boolean after exactly one
    [print]: of the success message when it returns [True], of an error
    when it returns [False].  When the connection is lost it raises the
    [InterfaceError] of its [rollback()] and has printed nothing. *)
Theorem mutations_print_once (srv : server) (fault : failure) (w : world)
    (t t' ty : string) (d : date) (s c amt : Decimal) (a : string) (nt : option string) :
  Forall (λ r : outcome bool * world,
            match fault with
            | ConnectionLost =>
                r.1 = Raised (Psycopg2Error InterfaceError) ∧ stdout r.2 = stdout w
            | _ =>
                ∃ b e, r.1 = Returned b ∧ stdout r.2 = stdout w ++ [e] ∧
                       is_error_line e = negb b
            end)
    [create_asset srv fault t d s c a w;
     update_asset srv fault t t' d s c a w;
     delete_asset srv fault t w;
     add_transaction srv fault t ty amt nt w].
Proof.
  rewrite create_asset_run, update_asset_run, delete_asset_run, add_transaction_run.
  destruct fault.
  - repeat constructor; destruct (statement_outcome _ _ _ _); simpl; eauto.
  - repeat constructor; simpl; eauto.
  - repeat constructor.
Qed.

Section orderings.

Lemma date_leb_total (a b : date) : date_leb a b = true ∨ date_leb b a = true.
Proof.
  unfold date_leb. destruct a as [y1 m1 d1], b as [y2 m2 d2]; simpl.
  destruct (Z.ltb_spec y1 y2); [by left|]. destruct (Z.ltb_spec y2 y1); [by right|].
  assert (y1 = y2) by lia. subst. rewrite Z.eqb_refl. simpl.
  destruct (Z.ltb_spec m1 m2); [by left|]. destruct (Z.ltb_spec m2 m1); [by right|].
  assert (m1 = m2) by lia. subst. rewrite Z.eqb_refl. simpl.
  destruct (Z.leb_spec d1 d2); [by left|]. right. apply Z.leb_le. lia.
Qed.

Lemma date_ge_total : Total date_ge.
Proof. intros a b. unfold date_ge. apply date_leb_total. Qed.

End orderings.

(** X12.  [get_all_transactions] returns every transaction of the table
    exactly once, each row followed by one of the same or an earlier date. *)
Theorem get_all_transactions_sorted (w : world) :
  ∃ rows,
    get_all_transactions false w = (Returned rows, w) ∧
    rows ≡ₚ transactions (pending w) ∧
    Sorted (λ x y, date_leb (transaction_date y) (transaction_date x) = true) rows.
Proof.
  exists (select_transactions (pending w)). split_and!; [done| |].
  - apply merge_sort_Permutation.
  - change (Sorted date_ge (merge_sort date_ge (transactions (pending w)))).
    apply Sorted_merge_sort. exact date_ge_total.
Qed.

(** X13.  [read_all_assets] returns every row of the table exactly once;
    when the collation compares any two tickers, each row is followed by
    one whose ticker is not smaller. *)
Theorem read_all_assets_sorted (srv : server) (w : world) :
  (∀ s1 s2, collate_leb srv s1 s2 = true ∨ collate_leb srv s2 s1 = true) ->
  ∃ rows,
    read_all_assets srv false w = (Returned rows, w) ∧
    rows ≡ₚ assets (pending w) ∧
    Sorted (λ x y, collate_leb srv (ticker x) (ticker y) = true) rows.
Proof.
  intros Htot. exists (select_assets srv (pending w)). split_and!; [done| |].
  - apply merge_sort_Permutation.
  - change (Sorted (ticker_le srv) (merge_sort (ticker_le srv) (assets (pending w)))).
    apply Sorted_merge_sort. intros x y. apply Htot.
Qed.

Lemma read_all_assets_sorted_witness :
  ∃ rows,
    read_all_assets srv_cascade false (world_of (mkDb [msft; aapl] []))
      = (Returned rows, world_of (mkDb [msft; aapl] [])) ∧
    rows ≡ₚ [msft; aapl] ∧
    Sorted (λ x y, String.leb (ticker x) (ticker y) = true) rows.
Proof.
  apply (read_all_assets_sorted srv_cascade (world_of (mkDb [msft; aapl] []))).
  exact String.leb_total.
Defined.

(** X14.  After a successful [add_transaction], [get_all_transactions]
    returns the new row, dated today, among one row more than before, and
    the assets are as they were. *)
Theorem add_transaction_then_history (srv : server) (w : world)
    (t ty : string) (amt : Decimal) (nt : option string) :
  has_ticker t (pending w) = true ->
  assets (committed (add_transaction srv false t ty amt nt w).2) = assets (pending w) ∧
  ∃ rows,
    (get_all_transactions false (add_transaction srv false t ty amt nt w).2).1
      = Returned rows ∧
    mkTransaction t (today w) ty amt nt ∈ rows ∧
    rows ≡ₚ mkTransaction t (today w) ty amt nt :: transactions (pending w).
Proof.
  intros Ht. rewrite add_transaction_run. unfold statement_outcome, run_statement.
  simpl. rewrite Ht. simpl. split; [done|].
  eexists. split; [reflexivity|]. unfold select_transactions. simpl.
  assert (Hp : merge_sort date_ge (transactions (pending w) ++ [mkTransaction t (today w) ty amt nt])
               ≡ₚ mkTransaction t (today w) ty amt nt :: transactions (pending w)).
  { rewrite merge_sort_Permutation. by rewrite Permutation_app_comm. }
  split; [|done]. rewrite Hp. apply list_elem_of_here.
Qed.

Lemma add_transaction_then_history_witness :
  assets (committed (add_transaction srv_cascade false "AAPL" "Sell" (mkDec 500 0) None
     (world_of (mkDb [aapl] [aapl_buy]))).2) = [aapl] ∧
  ∃ rows,
    (get_all_transactions false (add_transaction srv_cascade false "AAPL" "Sell"
       (mkDec 500 0) None (world_of (mkDb [aapl] [aapl_buy]))).2).1 = Returned rows ∧
    mkTransaction "AAPL" (mkDate 2024 3 1) "Sell" (mkDec 500 0) None ∈ rows ∧
    rows ≡ₚ mkTransaction "AAPL" (mkDate 2024 3 1) "Sell" (mkDec 500 0) None :: [aapl_buy].
Proof.
  apply (add_transaction_then_history srv_cascade (world_of (mkDb [aapl] [aapl_buy]))).
  reflexivity.
Defined.


(** ** The aggregates *)

Section comparisons.

(** [dleb] compares the numbers. *)
Lemma dleb_le (a b : Decimal) : dleb a b = true ↔ (dval a <= dval b)%Q.
Proof.
  unfold dleb, dval.
  set (m := Z.min (dexp a) (dexp b)).
  rewrite <- (dval_align (coef a) (dexp a) m), <- (dval_align (coef b) (dexp b) m)
    by (unfold m; lia).
  rewrite Z.leb_le, Zle_Qle. symmetry. apply Qmult_le_r.
  apply Qpower_0_lt. reflexivity.
Qed.

Lemma dleb_false_le (a b : Decimal) : dleb a b = false -> (dval b <= dval a)%Q.
Proof.
  intros H. destruct (Qlt_le_dec (dval a) (dval b)) as [Hlt|Hle]; [|done].
  apply Qlt_le_weak, dleb_le in Hlt. congruence.
Qed.

Lemma fold_min (xs : list Decimal) (x0 : Decimal) :
  let r := fold_left (λ acc x, if dleb acc x then acc else x) xs x0 in
  r ∈ x0 :: xs ∧ ∀ x, x ∈ x0 :: xs -> (dval r <= dval x)%Q.
Proof.
  revert x0. induction xs as [|y xs IH]; intros x0; simpl.
  - split; [apply list_elem_of_here|].
    intros x ->%list_elem_of_singleton. apply Qle_refl.
  - destruct (dleb x0 y) eqn:Hc.
    + destruct (IH x0) as [Hin Hle]. split.
      * apply elem_of_cons in Hin as [->|Hin]; [apply list_elem_of_here|].
        by do 2 apply list_elem_of_further.
      * intros x [->|[->|Hx]%elem_of_cons]%elem_of_cons.
        -- apply Hle, list_elem_of_here.
        -- eapply Qle_trans; [apply Hle, list_elem_of_here|]. by apply dleb_le.
        -- by apply Hle, list_elem_of_further.
    + destruct (IH y) as [Hin Hle]. split.
      * by apply list_elem_of_further.
      * intros x [->|Hx]%elem_of_cons; [|by apply Hle].
        eapply Qle_trans; [apply Hle, list_elem_of_here|]. by apply dleb_false_le.
Qed.

Lemma fold_max (xs : list Decimal) (x0 : Decimal) :
  let r := fold_left (λ acc x, if dleb x acc then acc else x) xs x0 in
  r ∈ x0 :: xs ∧ ∀ x, x ∈ x0 :: xs -> (dval x <= dval r)%Q.
Proof.
  revert x0. induction xs as [|y xs IH]; intros x0; simpl.
  - split; [apply list_elem_of_here|].
    intros x ->%list_elem_of_singleton. apply Qle_refl.
  - destruct (dleb y x0) eqn:Hc.
    + destruct (IH x0) as [Hin Hle]. split.
      * apply elem_of_cons in Hin as [->|Hin]; [apply list_elem_of_here|].
        by do 2 apply list_elem_of_further.
      * intros x [->|[->|Hx]%elem_of_cons]%elem_of_cons.
        -- apply Hle, list_elem_of_here.
        -- eapply Qle_trans; [|apply Hle, list_elem_of_here]. by apply dleb_le.
        -- by apply Hle, list_elem_of_further.
    + destruct (IH y) as [Hin Hle]. split.
      * by apply list_elem_of_further.
      * intros x [->|Hx]%elem_of_cons; [|by apply Hle].
        eapply Qle_trans; [|apply Hle, list_elem_of_here]. by apply dleb_false_le.
Qed.

End comparisons.

Section numeric_division.

(** Rounding to the nearest integer moves a number by at most one half. *)
Lemma round_half_away_close (q : Q) :
  (Qabs (inject_Z (round_half_away q) - q) <= 1 # 2)%Q.
Proof.
  destruct q as [n d]. unfold round_half_away. cbn [Qnum Qden].
  set (k := (2 * Z.abs n + Z.pos d) / (2 * Z.pos d)).
  assert (Hk : 2 * Z.pos d * k <= 2 * Z.abs n + Z.pos d < 2 * Z.pos d * k + 2 * Z.pos d).
  { pose proof (Z.div_mod (2 * Z.abs n + Z.pos d) (2 * Z.pos d) ltac:(lia)) as Hdm.
    pose proof (Z.mod_pos_bound (2 * Z.abs n + Z.pos d) (2 * Z.pos d) ltac:(lia)) as Hm.
    fold k in Hdm. lia. }
  clearbody k.
  apply Qabs_Qle_condition. unfold Qle, Qminus, Qplus, Qopp, inject_Z. cbn [Qnum Qden].
  destruct (Z.abs_spec n) as [[Hn Ha]|[Hn Ha]]; rewrite Ha in Hk;
    destruct (Z.sgn_spec n) as [[Hs ->]|[[Hs ->]|[Hs ->]]]; try lia.
  all: split; nia.
Qed.

Lemma select_div_scale_range (x : Decimal) (n : Z) :
  0 <= select_div_scale x n <= 1000.
Proof. unfold select_div_scale. lia. Qed.

Lemma select_div_scale_dividend (x : Decimal) (n : Z) :
  - dexp x <= 1000 -> - dexp x <= select_div_scale x n.
Proof. unfold select_div_scale. lia. Qed.

(** [numeric_div] returns the quotient rounded at the last decimal that
    it keeps. *)
Lemma numeric_div_close (x : Decimal) (n : Z) :
  0 < n ->
  (Qabs (dval (numeric_div x n) - dval x / inject_Z n)
   <= (1 # 2) * (10 # 1) ^ dexp (numeric_div x n))%Q.
Proof.
  intros Hn. unfold numeric_div.
  pose proof (select_div_scale_range x n) as [Hr _].
  set (r := select_div_scale x n) in *. clearbody r.
  set (q := (dval x * inject_Z (10 ^ r) / inject_Z n)%Q).
  pose proof (round_half_away_close q) as Hq.
  set (m := round_half_away q) in *. clearbody m.
  unfold dval at 1. cbn [coef dexp].
  assert (Hp : (0 < (10 # 1) ^ (- r))%Q).
  { apply Qpower_0_lt. reflexivity. }
  assert (Hnz : ~ (inject_Z n == 0)%Q).
  { unfold Qeq, inject_Z. simpl. lia. }
  assert (H10 : ~ (inject_Z (10 ^ r) == 0)%Q).
  { unfold Qeq, inject_Z. simpl. pose proof (Z.pow_pos_nonneg 10 r). lia. }
  assert (Hinv : ((10 # 1) ^ (- r) == / inject_Z (10 ^ r))%Q).
  { rewrite Qpower_opp. rewrite <- inject_pow10 by done. reflexivity. }
  assert (Hx : (dval x / inject_Z n == q * (10 # 1) ^ (- r))%Q).
  { unfold q. rewrite Hinv. field. split; done. }
  rewrite Hx.
  assert (Hd : (inject_Z m * (10 # 1) ^ (- r) - q * (10 # 1) ^ (- r)
                == (inject_Z m - q) * (10 # 1) ^ (- r))%Q) by ring.
  rewrite Hd, Qabs_Qmult, (Qabs_pos ((10 # 1) ^ (- r))) by (by apply Qlt_le_weak).
  apply Qmult_le_compat_r; [exact Hq|by apply Qlt_le_weak].
Qed.

(** The leading base-10000 digit, as a floor. *)
Lemma nbase_first_floor (a e : Z) :
  nbase_first a e
  = Qfloor (inject_Z a * (10 # 1) ^ e / (10 # 1) ^ (4 * nbase_weight a e)).
Proof.
  unfold nbase_first. set (w := nbase_weight a e). clearbody w.
  assert (H10 : ∀ z, ~ ((10 # 1) ^ z == 0)%Q).
  { intros z Hz. pose proof (Qpower_0_lt (10 # 1) z ltac:(reflexivity)) as Hp.
    rewrite Hz in Hp. by apply Qlt_irrefl in Hp. }
  assert (Hk : (inject_Z a * (10 # 1) ^ e / (10 # 1) ^ (4 * w)
                == inject_Z a * (10 # 1) ^ (e - 4 * w))%Q).
  { replace e with ((e - 4 * w) + 4 * w) at 1 by lia. rewrite pow10_add.
    field. apply H10. }
  rewrite (Qfloor_comp _ _ Hk).
  destruct (0 <=? e - 4 * w) eqn:Hs.
  - apply Z.leb_le in Hs.
    rewrite <- inject_pow10, <- inject_Z_mult by done. by rewrite Qfloor_Z.
  - apply Z.leb_gt in Hs. rewrite Zdiv_Qdiv. apply Qfloor_comp.
    rewrite inject_pow10 by lia. rewrite Qpower_opp. field. apply H10.
Qed.

(** A quotient below 10000 gets at least 16 decimals. *)
Lemma select_div_scale_digits (x : Decimal) (n : Z) :
  0 < n ->
  (Qabs (dval x) < 10000 * inject_Z n)%Q ->
  16 <= select_div_scale x n.
Proof.
  intros Hn Hlt.
  pose proof (ndigits_spec n Hn) as [Hn1 Hn2].
  assert (Hdn : 1 <= ndigits n).
  { destruct (Z_lt_le_dec (ndigits n) 1) as [Hl|]; [|done].
    assert (10 ^ ndigits n <= 1).
    { destruct (Z_lt_le_dec (ndigits n) 0).
      - rewrite Z.pow_neg_r by done. lia.
      - replace (ndigits n) with 0 by lia. simpl. lia. }
    lia. }
  assert (Hw2 : 0 <= nbase_weight n 0).
  { unfold nbase_weight. apply Z.div_pos; lia. }
  assert (Hf2 : 0 <= nbase_first n 0).
  { rewrite nbase_first_floor.
    replace 0 with (Qfloor 0) at 1 by reflexivity. apply Qfloor_resp_le.
    apply Qle_shift_div_l; [by apply Qpower_0_lt|].
    rewrite Qmult_0_l. apply Qmult_le_0_compat.
    - unfold Qle, inject_Z. simpl. lia.
    - apply Qpower_0_le. discriminate. }
  unfold select_div_scale.
  destruct (Z.abs (coef x) =? 0) eqn:Ha.
  { destruct (0 <=? nbase_first n 0) eqn:Hb; [lia|]. apply Z.leb_gt in Hb. lia. }
  apply Z.eqb_neq in Ha.
  set (a := Z.abs (coef x)) in *. set (e := dexp x) in *.
  assert (Hpos : 0 < a) by (unfold a; lia).
  pose proof (ndigits_spec a Hpos) as [Ha1 Ha2].
  assert (Hda : 1 <= ndigits a).
  { destruct (Z_lt_le_dec (ndigits a) 1) as [Hl|]; [|done].
    assert (10 ^ ndigits a <= 1).
    { destruct (Z_lt_le_dec (ndigits a) 0).
      - rewrite Z.pow_neg_r by done. lia.
      - replace (ndigits a) with 0 by lia. simpl. lia. }
    lia. }
  assert (Hv : (Qabs (dval x) == inject_Z a * (10 # 1) ^ e)%Q).
  { unfold dval. rewrite Qabs_Qmult.
    rewrite (Qabs_pos ((10 # 1) ^ dexp x))
      by (apply Qlt_le_weak, Qpower_0_lt; reflexivity).
    unfold a. by destruct (coef x). }
  rewrite Hv in Hlt.
  assert (Hpe : (0 < (10 # 1) ^ e)%Q) by (by apply Qpower_0_lt).
  (* the decimal positions of the leading digits *)
  assert (HL : ndigits a - 1 + e < ndigits n - 1 + 5).
  { apply (Qpower_lt_compat_l_inv (10 # 1)); [|reflexivity].
    apply Qle_lt_trans with (inject_Z a * (10 # 1) ^ e)%Q.
    - rewrite pow10_add. apply Qmult_le_compat_r; [|by apply Qlt_le_weak].
      rewrite <- inject_pow10 by lia. unfold Qle, inject_Z. simpl. lia.
    - eapply Qlt_le_trans; [exact Hlt|].
      replace (ndigits n - 1 + 5) with (4 + ndigits n) by lia.
      rewrite pow10_add. change ((10 # 1) ^ 4)%Q with 10000%Q.
      apply Qmult_le_l; [reflexivity|].
      rewrite <- inject_pow10 by lia. unfold Qle, inject_Z. simpl. lia. }
  assert (Hw : nbase_weight a e <= nbase_weight n 0 + 1).
  { unfold nbase_weight.
    replace (ndigits n - 1 + 0) with (ndigits n - 1) by lia.
    rewrite <- (Z.div_add _ 1 4) by lia. apply Z.div_le_mono; lia. }
  destruct (Z_le_lt_eq_dec _ _ Hw) as [Hlt'|Heq].
  { destruct (nbase_first a e <=? nbase_first n 0); lia. }
  assert (Hfd : nbase_first a e <= nbase_first n 0).
  { rewrite !nbase_first_floor. apply Qfloor_resp_le.
    rewrite Heq. replace (4 * (nbase_weight n 0 + 1)) with (4 + 4 * nbase_weight n 0) by lia.
    rewrite pow10_add.
    set (p := ((10 # 1) ^ (4 * nbase_weight n 0))%Q).
    assert (Hp : (0 < p)%Q) by (by apply Qpower_0_lt).
    apply Qle_shift_div_r; [by apply Qmult_lt_0_compat|].
    assert (Hr : (inject_Z n * (10 # 1) ^ 0 / p * ((10 # 1) ^ 4 * p)
                  == 10000 * inject_Z n)%Q).
    { change ((10 # 1) ^ 0)%Q with 1%Q. change ((10 # 1) ^ 4)%Q with 10000%Q.
      field. intros Hz. rewrite Hz in Hp. by apply Qlt_irrefl in Hp. }
    rewrite Hr. by apply Qlt_le_weak. }
  apply Z.leb_le in Hfd. rewrite Hfd. lia.
Qed.

End numeric_division.

(** X15.  On a table with rows, [get_insights] reports the number of
    rows, the float nearest to the exact sum of the cost bases, and as
    smallest and largest holding the floats of two entries of the [shares]
    column below, respectively above, all its entries.  The average it
    reports is the float of a decimal [avg], the quotient of the sum by
    the count as the server rounds it: [avg] differs from the exact
    quotient by at most half a unit of its last decimal, it has no
    positive exponent, and it has at least 16 decimals when the quotient
    is below 10000 in magnitude. *)
Theorem insights_of_table (srv : server) (w : world) :
  assets (pending w) ≠ [] ->
  ∃ total avg lo hi,
    returned_field "total_assets" (get_insights srv false w)
      = Some (PyInt (Z.of_nat (length (assets (pending w))))) ∧
    returned_field "total_cost_basis" (get_insights srv false w)
      = Some (PyFloat (float_of_decimal total)) ∧
    (dval total == total_cost (pending w))%Q ∧
    returned_field "avg_cost_basis" (get_insights srv false w)
      = Some (PyFloat (float_of_decimal avg)) ∧
    (Qabs (dval avg
           - total_cost (pending w) / inject_Z (Z.of_nat (length (assets (pending w)))))
     <= (1 # 2) * (10 # 1) ^ dexp avg)%Q ∧
    dexp avg <= 0 ∧
    ((Qabs (total_cost (pending w))
      < 10000 * inject_Z (Z.of_nat (length (assets (pending w)))))%Q ->
     dexp avg <= -16) ∧
    returned_field "min_shares" (get_insights srv false w)
      = Some (PyFloat (float_of_decimal lo)) ∧
    returned_field "max_shares" (get_insights srv false w)
      = Some (PyFloat (float_of_decimal hi)) ∧
    lo ∈ shares <$> assets (pending w) ∧
    hi ∈ shares <$> assets (pending w) ∧
    (∀ x, x ∈ shares <$> assets (pending w) -> (dval lo <= dval x <= dval hi)%Q).
Proof.
  intros Hne.
  unfold returned_field, get_insights, try_except, mbind, py_bind, cursor_query,
    select_insights, total_cost.
  destruct (assets (pending w)) as [|a l] eqn:Ha; [done|].
  set (rows := a :: l).
  destruct (sql_sum (cost_basis <$> rows)) as [s|] eqn:Hs; [|done].
  pose proof (fold_min (shares <$> l) (shares a)) as [Hlo1 Hlo2].
  pose proof (fold_max (shares <$> l) (shares a)) as [Hhi1 Hhi2].
  assert (Hn : 0 < Z.of_nat (length rows)) by (simpl; lia).
  assert (Htotal : (dval s == Qsum (dval <$> (cost_basis <$> rows)))%Q)
    by apply (sql_sum_value _ _ Hs).
  rewrite <- list_fmap_compose in Htotal.
  eexists s, (numeric_div s (Z.of_nat (length rows))), _, _.
  split_and!; try reflexivity.
  - exact Htotal.
  - unfold sql_avg. rewrite Hs. simpl. rewrite length_fmap. reflexivity.
  - rewrite <- Htotal. by apply numeric_div_close.
  - cbn [numeric_div dexp]. pose proof (select_div_scale_range s (Z.of_nat (length rows))).
    lia.
  - rewrite <- Htotal. intros Hlt. cbn [numeric_div dexp].
    pose proof (select_div_scale_digits s (Z.of_nat (length rows)) Hn Hlt). lia.
  - exact Hlo1.
  - exact Hhi1.
  - intros x Hx. split; [by apply Hlo2 | by apply Hhi2].
Qed.

Lemma insights_of_table_witness :
  ∃ total avg lo hi,
    returned_field "total_assets"
      (get_insights srv_cascade false (world_of (mkDb [aapl; msft] [])))
      = Some (PyInt (Z.of_nat (length [aapl; msft]))) ∧
    returned_field "total_cost_basis"
      (get_insights srv_cascade false (world_of (mkDb [aapl; msft] [])))
      = Some (PyFloat (float_of_decimal total)) ∧
    (dval total == total_cost (mkDb [aapl; msft] []))%Q ∧
    returned_field "avg_cost_basis"
      (get_insights srv_cascade false (world_of (mkDb [aapl; msft] [])))
      = Some (PyFloat (float_of_decimal avg)) ∧
    (Qabs (dval avg
           - total_cost (mkDb [aapl; msft] []) / inject_Z (Z.of_nat (length [aapl; msft])))
     <= (1 # 2) * (10 # 1) ^ dexp avg)%Q ∧
    dexp avg <= 0 ∧
    ((Qabs (total_cost (mkDb [aapl; msft] []))
      < 10000 * inject_Z (Z.of_nat (length [aapl; msft])))%Q ->
     dexp avg <= -16) ∧
    returned_field "min_shares"
      (get_insights srv_cascade false (world_of (mkDb [aapl; msft] [])))
      = Some (PyFloat (float_of_decimal lo)) ∧
    returned_field "max_shares"
      (get_insights srv_cascade false (world_of (mkDb [aapl; msft] [])))
      = Some (PyFloat (float_of_decimal hi)) ∧
    lo ∈ shares <$> [aapl; msft] ∧
    hi ∈ shares <$> [aapl; msft] ∧
    (∀ x, x ∈ shares <$> [aapl; msft] -> (dval lo <= dval x <= dval hi)%Q).
Proof.
  apply (insights_of_table srv_cascade (world_of (mkDb [aapl; msft] []))).
  discriminate.
Defined.

(** Two holdings bought for 1500.00 and 800.00: AVG is
    1150.0000000000000000, the sum 2300.00 divided by 2 and given 16
    decimals, and [avg_cost_basis] is 1150.0. *)
Example insights_scenario :
  sql_avg (cost_basis <$> [aapl; msft]) = Some (mkDec 11500000000000000000 (-16)) ∧
  returned_field "avg_cost_basis"
    (get_insights srv_cascade false (world_of (mkDb [aapl; msft] [])))
  = Some (PyFloat (float_of_int 1150)) ∧
  returned_field "total_cost_basis"
    (get_insights srv_cascade false (world_of (mkDb [aapl; msft] [])))
  = Some (PyFloat (float_of_int 2300)).
Proof. vm_compute. done. Qed.

(** Quotients as PostgreSQL prints them: 1/3, 2/3, 10/3, 100000/3 and
    -2.5/2. *)
Example numeric_div_scales :
  numeric_div (mkDec 1 0) 3 = mkDec 33333333333333333333 (-20) ∧
  numeric_div (mkDec 2 0) 3 = mkDec 66666666666666666667 (-20) ∧
  numeric_div (mkDec 10 0) 3 = mkDec 33333333333333333 (-16) ∧
  numeric_div (mkDec 100000 0) 3 = mkDec 33333333333333333 (-12) ∧
  numeric_div (mkDec (-25) (-1)) 2 = mkDec (-125000000000000000000) (-20).
Proof. vm_compute. done. Qed.

Section summary_fields.

Lemma dec_bind_fst {A B} (c : Dec A) (k : A -> Dec B) : (c ≫= k).1 = (k c.1).1.
Proof. destruct c as [a i]. unfold mbind, dec_bind. simpl. by destruct (k a). Qed.

Lemma series_sum_fst (x : Decimal) (s : list Decimal) :
  (series_sum (x :: s)).1 = PyDec (decimal_sum x s).1.
Proof. unfold series_sum. by rewrite dec_bind_fst. Qed.

(** The dictionary of a non-empty frame, whatever was rounded. *)
Lemma portfolio_totals_fields (r : df_row) (l : list df_row) :
  ∃ tc tmv tgl,
    (portfolio_totals (r :: l)).1 =
    py_dict [("total_assets_count"%string, PyInt (Z.of_nat (length (r :: l))));
             ("total_cost_basis"%string, PyDec tc);
             ("total_market_value"%string, tmv);
             ("total_gain_loss"%string, tgl);
             ("avg_cost_basis"%string,
               PyFloat (f64_div (float_of_decimal tc)
                                (float_of_int (Z.of_nat (length (r :: l))))))].
Proof.
  unfold portfolio_totals. rewrite !dec_bind_fst.
  unfold series_mean. rewrite !dec_bind_fst.
  rewrite fmap_cons, series_sum_fst. rewrite <- fmap_cons, length_fmap.
  eexists _, _, _. reflexivity.
Qed.

End summary_fields.

(** X16.  Unless its statement fails, [get_portfolio_summary] returns a
    dictionary with the same five keys, whether the table is empty or not
    and whatever was rounded; [total_assets_count] is the number of rows,
    and on a table with rows [avg_cost_basis] is the float of
    [total_cost_basis] divided, in binary64, by the float of the count. *)
Theorem summary_shape (w : world) :
  ∃ m,
    (get_portfolio_summary false w).1 = Returned m ∧
    dom m = {[ "total_assets_count"%string; "total_cost_basis"%string;
               "total_market_value"%string; "total_gain_loss"%string;
               "avg_cost_basis"%string ]} ∧
    m !! "total_assets_count"%string
      = Some (PyInt (Z.of_nat (length (assets (pending w))))) ∧
    (assets (pending w) = [] ∨
     ∃ tc, m !! "total_cost_basis"%string = Some (PyDec tc) ∧
           m !! "avg_cost_basis"%string
             = Some (PyFloat (f64_div (float_of_decimal tc)
                        (float_of_int (Z.of_nat (length (assets (pending w)))))))).
Proof.
  unfold get_portfolio_summary, try_except, mbind, py_bind, cursor_query,
    select_asset_columns.
  destruct (assets (pending w)) as [|a l] eqn:Ha.
  - eexists. split_and!; [reflexivity| |reflexivity|by left].
    unfold zero_summary, py_dict. simpl. rewrite !dom_insert_L, dom_empty_L. set_solver.
  - rewrite fmap_cons. unfold decimal_op.
    destruct (portfolio_totals_fields
                (mkDfRow (ticker a) (shares a) (cost_basis a) (asset_class a))
                ((λ a, mkDfRow (ticker a) (shares a) (cost_basis a) (asset_class a)) <$> l))
      as (tc & tmv & tgl & Hm).
    eexists. split; [reflexivity|]. simpl. rewrite Hm.
    simpl. rewrite length_fmap. split_and!.
    + unfold py_dict. simpl. rewrite !dom_insert_L, dom_empty_L. set_solver.
    + reflexivity.
    + right. exists tc. split; reflexivity.
Qed.

Section allocation_dict.

(** The dictionary that [get_asset_allocation] builds from the groups. *)
Lemma allocation_dict_keys (db : database) (c : string) :
  is_Some (py_dict ((λ row, (row.1, PyFloat (float_of_decimal row.2)))
                    <$> select_allocation db) !! c)
  ↔ c ∈ asset_class <$> assets db.
Proof.
  pose proof (allocation_scan (assets db) []) as (Hnd & _ & _).
  specialize (Hnd (NoDup_nil_2)).
  assert (Hnd' : NoDup ((λ row : string * Decimal,
                           (row.1, PyFloat (float_of_decimal row.2)))
                        <$> select_allocation db).*1)
    by (by rewrite <- list_fmap_compose).
  transitivity (c ∈ (select_allocation db).*1).
  - split.
    + intros [v Hv]. apply py_dict_lookup in Hv; [|done].
      apply list_elem_of_fmap in Hv as ([c' s] & [= -> ->] & Hin).
      apply list_elem_of_fmap. by exists (c', s).
    + intros ([c' s] & -> & Hin)%list_elem_of_fmap.
      exists (PyFloat (float_of_decimal s)). apply py_dict_lookup; [done|].
      apply list_elem_of_fmap. by exists (c', s).
  - unfold select_allocation. rewrite allocation_scan_keys, elem_of_nil. tauto.
Qed.

Lemma allocation_dict_empty (db : database) :
  py_dict ((λ row, (row.1, PyFloat (float_of_decimal row.2))) <$> select_allocation db) = ∅
  ↔ assets db = [].
Proof.
  split.
  - intros Hm. destruct (assets db) as [|a l] eqn:Ha; [done|].
    exfalso. pose proof (allocation_dict_keys db (asset_class a)) as Hkeys.
    rewrite Hm, lookup_empty, Ha in Hkeys.
    destruct Hkeys as [_ Hk]. destruct Hk as [? ?]; [|done]. apply list_elem_of_here.
  - intros Ha. unfold select_allocation. by rewrite Ha.
Qed.

End allocation_dict.

(** X17.  The keys of the dictionary that [get_asset_allocation] returns
    are exactly the asset classes that occur in the table; for an empty
    table, and only then, it is the empty dictionary. *)
Theorem allocation_keys (w : world) :
  ∃ m,
    get_asset_allocation false w = (Returned m, w) ∧
    (∀ c, is_Some (m !! c) ↔ c ∈ asset_class <$> assets (pending w)) ∧
    (m = ∅ ↔ assets (pending w) = []).
Proof.
  eexists. split; [reflexivity|]. split.
  - intros c. apply allocation_dict_keys.
  - apply allocation_dict_empty.
Qed.


(** ** The pages *)

Section pages.





End pages.



Section forms.
Context (rt : runtime) (srv : server).

(** A form that was not submitted only draws its widgets. *)
Lemma add_asset_form_idle (fault : bool) (inp : manage_inputs) (w : world) :
  add_submitted inp = false ->
  ∃ els, add_asset_form rt srv fault inp w = (Returned els, w) ∧
         Forall (λ e, is_widget e = true) els.
Proof.
  intros Hs. unfold add_asset_form, mbind, py_bind, now_date. rewrite Hs.
  eexists. split; [reflexivity|]. repeat constructor.
Qed.


(** The row that the update form works on. *)
Lemma no_row_selected (l : list asset) (t : string) :
  (t ∉ ticker <$> l) -> filter (λ a, ticker a = t) l = [].
Proof.
  induction l as [|a l IH]; intros Hin; [done|].
  rewrite fmap_cons in Hin. apply not_elem_of_cons in Hin as [Hne Hin].
  rewrite filter_cons. destruct (decide (ticker a = t)); [congruence|]. by apply IH.
Qed.

Lemma selected_row_unique (l : list asset) (r : asset) :
  NoDup (ticker <$> l) -> r ∈ l -> filter (λ a, ticker a = ticker r) l = [r].
Proof.
  induction l as [|a l IH]; intros Hnd Hin; [by apply elem_of_nil in Hin|].
  rewrite fmap_cons in Hnd. apply NoDup_cons in Hnd as [Ha Hnd].
  rewrite filter_cons. apply elem_of_cons in Hin as [->|Hin].
  - destruct (decide (ticker a = ticker a)); [|done]. f_equal. by apply no_row_selected.
  - destruct (decide (ticker a = ticker r)) as [Heq|Hne]; [|by apply IH].
    exfalso. apply Ha. rewrite Heq. by apply list_elem_of_fmap_2.
Qed.

Lemma selected_row_sorted (db : database) (r : asset) :
  NoDup (tickers db) -> r ∈ assets db ->
  filter (λ a, ticker a = ticker r) (select_assets srv db) = [r].
Proof.
  intros Hnd Hin. apply selected_row_unique.
  - unfold select_assets. by rewrite merge_sort_Permutation.
  - unfold select_assets. by rewrite merge_sort_Permutation.
Qed.

End forms.

(** X20.  The form for a new asset, submitted with every field filled for
    a ticker that an asset already has: unless the statement fails for
    another reason, the page reports that the asset was added, shows no
    warning or error, and the tables are as they were. *)
Theorem add_form_existing_ticker (rt : runtime) (srv : server)
    (inp : manage_inputs) (w : world) :
  add_submitted inp = true ->
  str_truthy (str_upper rt (add_ticker inp)) = true ->
  float_truthy (add_shares inp) = true ->
  float_truthy (add_cost inp) = true ->
  has_ticker (str_upper rt (add_ticker inp)) (pending w) = true ->
  pending w = committed w ->
  ∃ els w',
    add_asset_form rt srv false inp w = (Returned els, w') ∧
    last els = Some (Success ("Asset '" +:+ str_upper rt (add_ticker inp)
                              +:+ "' added successfully!")) ∧
    Forall (λ e, is_alert e = false) els ∧
    committed w' = committed w ∧ pending w' = pending w.
Proof.
  intros Hsub Ht Hs Hc Hex Hq.
  unfold add_asset_form, mbind, py_bind, now_date. rewrite Hsub, Ht, Hs, Hc.
  cbn [andb]. rewrite create_asset_run. unfold statement_outcome, run_statement.
  cbn [ticker]. rewrite Hex.
  eexists _, _. split; [reflexivity|]. split_and!.
  - reflexivity.
  - repeat constructor.
  - simpl. congruence.
  - reflexivity.
Qed.

Lemma add_form_existing_ticker_witness :
  ∃ els w',
    add_asset_form rt_sample srv_cascade false
      (mkManageInputs "aapl" (F64 3 0) (mkDate 2024 3 1) "Crypto" (F64 99 0) true
         "AAPL" "AAPL" (F64 10 0) (mkDate 2024 1 1) "Equities" (F64 1500 0) false false)
      (world_of (mkDb [aapl] [aapl_buy])) = (Returned els, w') ∧
    last els = Some (Success ("Asset '" +:+ "AAPL" +:+ "' added successfully!")) ∧
    Forall (λ e, is_alert e = false) els ∧
    committed w' = mkDb [aapl] [aapl_buy] ∧ pending w' = mkDb [aapl] [aapl_buy].
Proof.
  apply (add_form_existing_ticker rt_sample srv_cascade
           (mkManageInputs "aapl" (F64 3 0) (mkDate 2024 3 1) "Crypto" (F64 99 0) true
              "AAPL" "AAPL" (F64 10 0) (mkDate 2024 1 1) "Equities" (F64 1500 0)
              false false)
           (world_of (mkDb [aapl] [aapl_buy]))); reflexivity.
Defined.

(** X21.  The same form submitted with an empty ticker, or with zero
    shares or zero cost: the page shows the warning after the widgets, and
    the tracker is not called: the tables, the clock and the log are
    untouched. *)
Theorem add_form_missing_field (rt : runtime) (srv : server) (fault : bool)
    (inp : manage_inputs) (w : world) :
  add_submitted inp = true ->
  str_truthy (str_upper rt (add_ticker inp)) && float_truthy (add_shares inp)
    && float_truthy (add_cost inp) = false ->
  ∃ els,
    add_asset_form rt srv fault inp w = (Returned els, w) ∧
    last els = Some (Warning "Please fill in all fields.") ∧
    Forall (λ e, is_widget e = true) (removelast els).
Proof.
  intros Hsub Hf.
  unfold add_asset_form, mbind, py_bind, now_date. rewrite Hsub, Hf.
  eexists. split; [reflexivity|]. split; [reflexivity|]. repeat constructor.
Qed.

Lemma add_form_missing_field_witness :
  ∃ els,
    add_asset_form rt_sample srv_cascade false
      (mkManageInputs "" (F64 3 0) (mkDate 2024 3 1) "Crypto" (F64 99 0) true
         "AAPL" "AAPL" (F64 10 0) (mkDate 2024 1 1) "Equities" (F64 1500 0) false false)
      (world_of (mkDb [aapl] [aapl_buy]))
    = (Returned els, world_of (mkDb [aapl] [aapl_buy])) ∧
    last els = Some (Warning "Please fill in all fields.") ∧
    Forall (λ e, is_widget e = true) (removelast els).
Proof.
  apply (add_form_missing_field rt_sample srv_cascade false
           (mkManageInputs "" (F64 3 0) (mkDate 2024 3 1) "Crypto" (F64 99 0) true
              "AAPL" "AAPL" (F64 10 0) (mkDate 2024 1 1) "Equities" (F64 1500 0)
              false false)
           (world_of (mkDb [aapl] [aapl_buy]))); reflexivity.
Defined.

Section manage_page.
Context (rt : runtime) (srv : server).

Lemma select_assets_nonempty (db : database) (r : asset) :
  r ∈ assets db -> select_assets srv db ≠ [].
Proof.
  intros Hin Hnil.
  assert (Hr : r ∈ select_assets srv db)
    by (unfold select_assets; by rewrite merge_sort_Permutation).
  rewrite Hnil in Hr. by apply elem_of_nil in Hr.
Qed.

(** The page when the first form was not submitted, the table was read
    and the row [r] is the selected one. *)
Lemma display_manage_assets_selected (fc fu fd : bool) (inp : manage_inputs)
    (w : world) (r : asset) :
  add_submitted inp = false ->
  NoDup (tickers (pending w)) ->
  r ∈ assets (pending w) ->
  ticker r = select_asset inp ->
  ∃ top,
    Forall (λ e, is_alert e = false) top ∧
    display_manage_assets rt srv fc false fu fd inp w =
    match update_delete_form rt srv fu fd inp (select_assets srv (pending w)) w with
    | (Returned form, w') => (Returned (top ++ form.1, form.2), w')
    | (Raised e, w') => (Raised e, w')
    end ∧
    filter (λ a, ticker a = select_asset inp) (select_assets srv (pending w)) = [r].
Proof.
  intros Hsub Hnd Hin Ht.
  destruct (add_asset_form_idle rt srv fc inp w Hsub) as (add & Hadd & Hw).
  assert (Hsel := selected_row_sorted srv (pending w) r Hnd Hin).
  rewrite Ht in Hsel.
  pose proof (select_assets_nonempty (pending w) r Hin) as Hne.
  unfold display_manage_assets, mbind, py_bind.
  rewrite Hadd. cbv beta iota. rewrite read_all_assets_run.
  unfold failure_of_bool at 1. cbv beta iota.
  set (rows := select_assets srv (pending w)) in *. clearbody rows.
  destruct rows as [|a l]; [done|]. cbv beta iota.
  eexists. split; [|split; [|exact Hsel]].
  2:{ destruct (update_delete_form rt srv fu fd inp (a :: l) w) as [[[els e]|e] w'];
        [|reflexivity].
      unfold mret, py_ret. cbn [fst snd].
      rewrite !app_assoc. reflexivity. }
  repeat (apply Forall_app; split); try (repeat constructor).
  eapply Forall_impl; [exact Hw|]. intros x Hx. by destruct x.
Qed.

End manage_page.

(** X22.  On the page of the assets, with the first form left alone and
    the table read: pressing "Delete Asset" for the selected asset, whose
    class is one of the five offered, deletes the asset and its
    transactions, reports it, and asks for a new run of the script. *)
Theorem manage_delete_button (rt : runtime) (srv : server) (fc fu : bool)
    (inp : manage_inputs) (w : world) (r : asset) (index : nat) :
  add_submitted inp = false ->
  update_btn inp = false ->
  delete_btn inp = true ->
  NoDup (tickers (pending w)) ->
  r ∈ assets (pending w) ->
  ticker r = select_asset inp ->
  list_index (asset_class r) asset_classes = Some index ->
  ∃ els w',
    display_manage_assets rt srv fc false fu false inp w = (Returned (els, Rerun), w') ∧
    last els = Some (Success ("Asset '" +:+ select_asset inp
                              +:+ "' deleted successfully!")) ∧
    Forall (λ e, is_alert e = false) els ∧
    assets (committed w') = filter (λ a, ticker a ≠ select_asset inp) (assets (pending w)) ∧
    transactions (committed w')
      = filter (λ x, t_ticker x ≠ select_asset inp) (transactions (pending w)) ∧
    pending w' = committed w'.
Proof.
  intros Hsub Hup Hdel Hnd Hin Ht Hidx.
  destruct (display_manage_assets_selected rt srv fc fu false inp w r Hsub Hnd Hin Ht)
    as (top & Htop & Hrun & Hsel).
  rewrite Hrun. unfold update_delete_form. rewrite Hsel, Hidx.
  unfold mbind, py_bind. rewrite Hup. unfold mret, py_ret. cbn [fst snd].
  rewrite Hdel. rewrite delete_asset_run. unfold statement_outcome, run_statement.
  cbn [failure_of_bool].
  assert (Hex : has_ticker (select_asset inp) (pending w) = true).
  { apply has_ticker_true. rewrite <- Ht. by apply list_elem_of_fmap_2. }
  rewrite Hex. cbn [fst snd].
  eexists _, _. split; [reflexivity|]. split_and!.
  - rewrite !app_assoc. apply last_snoc.
  - apply Forall_app. split; [exact Htop|]. repeat constructor.
  - reflexivity.
  - reflexivity.
  - reflexivity.
Qed.

Lemma manage_delete_button_witness :
  ∃ els w',
    display_manage_assets rt_sample srv_cascade false false false false
      (mkManageInputs "" (F64 0 0) (mkDate 2024 3 1) "Equities" (F64 0 0) false
         "AAPL" "AAPL" (F64 10 0) (mkDate 2024 1 1) "Equities" (F64 1500 0) false true)
      (world_of (mkDb [aapl; msft] [aapl_buy])) = (Returned (els, Rerun), w') ∧
    last els = Some (Success ("Asset '" +:+ "AAPL" +:+ "' deleted successfully!")) ∧
    Forall (λ e, is_alert e = false) els ∧
    assets (committed w') = filter (λ a, ticker a ≠ "AAPL"%string) [aapl; msft] ∧
    transactions (committed w') = filter (λ x, t_ticker x ≠ "AAPL"%string) [aapl_buy] ∧
    pending w' = committed w'.
Proof.
  apply (manage_delete_button rt_sample srv_cascade false false
           (mkManageInputs "" (F64 0 0) (mkDate 2024 3 1) "Equities" (F64 0 0) false
              "AAPL" "AAPL" (F64 10 0) (mkDate 2024 1 1) "Equities" (F64 1500 0)
              false true)
           (world_of (mkDb [aapl; msft] [aapl_buy])) aapl 0%nat); try reflexivity.
  - apply (db_wfb_spec (mkDb [aapl; msft] [aapl_buy])). reflexivity.
  - apply list_elem_of_here.
Defined.

(** X23.  When the class of the selected asset is not one of the five
    that the select box offers, the page of the assets raises
    [ValueError] while it draws the update form, whatever the buttons; no
    statement is issued and the tables are as they were. *)
Theorem manage_unlisted_class (rt : runtime) (srv : server) (fc fu fd : bool)
    (inp : manage_inputs) (w : world) (r : asset) :
  add_submitted inp = false ->
  NoDup (tickers (pending w)) ->
  r ∈ assets (pending w) ->
  ticker r = select_asset inp ->
  list_index (asset_class r) asset_classes = None ->
  display_manage_assets rt srv fc false fu fd inp w
    = (Raised (PyException "ValueError"), w).
Proof.
  intros Hsub Hnd Hin Ht Hidx.
  destruct (display_manage_assets_selected rt srv fc fu fd inp w r Hsub Hnd Hin Ht)
    as (top & Htop & Hrun & Hsel).
  rewrite Hrun. unfold update_delete_form. by rewrite Hsel, Hidx.
Qed.

Lemma manage_unlisted_class_witness :
  display_manage_assets rt_sample srv_cascade false false false false
    (mkManageInputs "" (F64 0 0) (mkDate 2024 3 1) "Equities" (F64 0 0) false
       "TBILL" "TBILL" (F64 1 0) (mkDate 2024 1 1) "Other" (F64 1 0) false false)
    (world_of (mkDb [mkAsset "TBILL" (mkDate 2024 1 1) (mkDec 1 0) (mkDec 1000 0) "Bonds"] []))
  = (Raised (PyException "ValueError"),
     world_of (mkDb [mkAsset "TBILL" (mkDate 2024 1 1) (mkDec 1 0) (mkDec 1000 0) "Bonds"] [])).
Proof.
  apply (manage_unlisted_class rt_sample srv_cascade false false false
           (mkManageInputs "" (F64 0 0) (mkDate 2024 3 1) "Equities" (F64 0 0) false
              "TBILL" "TBILL" (F64 1 0) (mkDate 2024 1 1) "Other" (F64 1 0) false false)
           (world_of (mkDb [mkAsset "TBILL" (mkDate 2024 1 1) (mkDec 1 0) (mkDec 1000 0)
                              "Bonds"] []))
           (mkAsset "TBILL" (mkDate 2024 1 1) (mkDec 1 0) (mkDec 1000 0) "Bonds"));
    try reflexivity.
  - apply NoDup_singleton.
  - apply list_elem_of_here.
Defined.

(** X24.  Pressing "Update Asset" with a new ticker whose upper-case form
    is the ticker of another asset: the page shows that the update failed,
    does not ask for a new run, and the tables are as they were. *)
Theorem manage_update_taken_ticker (rt : runtime) (srv : server) (fc fd : bool)
    (inp : manage_inputs) (w : world) (r : asset) (index : nat) :
  add_submitted inp = false ->
  update_btn inp = true ->
  delete_btn inp = false ->
  pending w = committed w ->
  NoDup (tickers (pending w)) ->
  r ∈ assets (pending w) ->
  ticker r = select_asset inp ->
  list_index (asset_class r) asset_classes = Some index ->
  str_upper rt (update_ticker inp) ≠ select_asset inp ->
  has_ticker (str_upper rt (update_ticker inp)) (pending w) = true ->
  ∃ els w',
    display_manage_assets rt srv fc false false fd inp w = (Returned (els, Finished), w') ∧
    last els = Some (ErrorBox "Failed to update asset.") ∧
    committed w' = committed w ∧ pending w' = pending w.
Proof.
  intros Hsub Hup Hdel Hq Hnd Hin Ht Hidx Hne Hex'.
  destruct (display_manage_assets_selected rt srv fc false fd inp w r Hsub Hnd Hin Ht)
    as (top & Htop & Hrun & Hsel).
  rewrite Hrun. unfold update_delete_form. rewrite Hsel, Hidx.
  unfold mbind, py_bind. rewrite Hup. rewrite update_asset_run.
  unfold statement_outcome, run_statement. cbn [ticker].
  assert (Hex : has_ticker (select_asset inp) (pending w) = true).
  { apply has_ticker_true. rewrite <- Ht. by apply list_elem_of_fmap_2. }
  rewrite Hex, Hex'. destruct (decide (str_upper rt (update_ticker inp) = select_asset inp));
    [done|].
  unfold mret, py_ret. cbn [fst snd]. rewrite Hdel.
  eexists _, _. split; [reflexivity|]. split_and!.
  - cbn [fst snd]. rewrite !app_assoc. apply last_snoc.
  - reflexivity.
  - simpl. congruence.
Qed.

Lemma manage_update_taken_ticker_witness :
  ∃ els w',
    display_manage_assets rt_sample srv_cascade false false false false
      (mkManageInputs "" (F64 0 0) (mkDate 2024 3 1) "Equities" (F64 0 0) false
         "AAPL" "msft" (F64 10 0) (mkDate 2024 1 1) "Equities" (F64 1500 0) true false)
      (world_of (mkDb [aapl; msft] [aapl_buy])) = (Returned (els, Finished), w') ∧
    last els = Some (ErrorBox "Failed to update asset.") ∧
    committed w' = mkDb [aapl; msft] [aapl_buy] ∧
    pending w' = mkDb [aapl; msft] [aapl_buy].
Proof.
  apply (manage_update_taken_ticker rt_sample srv_cascade false false
           (mkManageInputs "" (F64 0 0) (mkDate 2024 3 1) "Equities" (F64 0 0) false
              "AAPL" "msft" (F64 10 0) (mkDate 2024 1 1) "Equities" (F64 1500 0)
              true false)
           (world_of (mkDb [aapl; msft] [aapl_buy])) aapl 0%nat); try reflexivity.
  - apply (db_wfb_spec (mkDb [aapl; msft] [aapl_buy])). reflexivity.
  - apply list_elem_of_here.
  - discriminate.
Defined.

Section idle_pages.
Context (rt : runtime) (srv : server).


End idle_pages.



(** X26.  On the page of the transactions, submitting the form for the
    ticker of an existing asset with a non-zero amount, no statement
    failing: the page offers the tickers of the table, reports that the
    transaction was logged, and the history drawn in the same run holds
    the new row, dated today, among one row more than before. *)
Theorem transactions_page_logs (rt : runtime) (srv : server)
    (inp : transaction_inputs) (w : world) :
  trans_submitted inp = true ->
  str_truthy (trans_ticker inp) = true ->
  float_truthy (trans_amount inp) = true ->
  has_ticker (trans_ticker inp) (pending w) = true ->
  ∃ els rows w',
    display_transactions rt srv false false false inp w = (Returned els, w') ∧
    Selectbox "Select Asset" (ticker <$> select_assets srv (pending w)) 0 ∈ els ∧
    Success "Transaction logged successfully!" ∈ els ∧
    Forall (λ e, is_alert e = false) els ∧
    TransactionsFrame rows ∈ els ∧
    mkTransaction (trans_ticker inp) (today w) (trans_type inp)
                  (numeric_of_float rt (trans_amount inp)) (Some (trans_notes inp)) ∈ rows ∧
    rows ≡ₚ mkTransaction (trans_ticker inp) (today w) (trans_type inp)
              (numeric_of_float rt (trans_amount inp)) (Some (trans_notes inp))
            :: transactions (pending w) ∧
    assets (committed w') = assets (pending w) ∧
    pending w' = committed w'.
Proof.
  intros Hsub Ht Ha Hex.
  set (new := mkTransaction (trans_ticker inp) (today w) (trans_type inp)
                (numeric_of_float rt (trans_amount inp)) (Some (trans_notes inp))).
  assert (Hne : select_assets srv (pending w) ≠ []).
  { apply has_ticker_true in Hex.
    apply list_elem_of_fmap in Hex as (r & _ & Hr).
    by eapply select_assets_nonempty. }
  assert (Hp : merge_sort date_ge (transactions (pending w) ++ [new])
               ≡ₚ new :: transactions (pending w)).
  { rewrite merge_sort_Permutation. by rewrite Permutation_app_comm. }
  assert (Hrows : merge_sort date_ge (transactions (pending w) ++ [new]) ≠ []).
  { intros Hnil. rewrite Hnil in Hp. by apply Permutation_nil_cons in Hp. }
  unfold display_transactions, mbind, py_bind.
  rewrite read_all_assets_run. unfold failure_of_bool at 1. cbv beta iota.
  destruct (select_assets srv (pending w)) as [|a l] eqn:Hsel; [done|].
  unfold add_transaction_form. rewrite Hsub, Ht, Ha. cbn [andb].
  unfold mbind, py_bind. rewrite add_transaction_run.
  unfold statement_outcome, run_statement. cbn [t_ticker failure_of_bool]. rewrite Hex.
  cbv beta iota. unfold mret, py_ret. rewrite get_all_transactions_run.
  unfold select_transactions. cbn [pending transactions]. fold new.
  destruct (merge_sort date_ge (transactions (pending w) ++ [new])) as [|x rows] eqn:Hm;
    [done|].
  eexists _, (x :: rows), _. split; [reflexivity|]. split_and!.
  - do 2 apply list_elem_of_further. apply list_elem_of_here.
  - do 7 apply list_elem_of_further. apply list_elem_of_here.
  - repeat constructor.
  - do 10 apply list_elem_of_further. apply list_elem_of_here.
  - rewrite Hp. apply list_elem_of_here.
  - exact Hp.
  - reflexivity.
  - reflexivity.
Qed.

Lemma transactions_page_logs_witness :
  ∃ els rows w',
    display_transactions rt_sample srv_cascade false false false
      (mkTransactionInputs "AAPL" (F64 250 0) "Dividend" "Q1" true)
      (world_of (mkDb [aapl] [aapl_buy])) = (Returned els, w') ∧
    Selectbox "Select Asset" (ticker <$> select_assets srv_cascade (mkDb [aapl] [aapl_buy])) 0
      ∈ els ∧
    Success "Transaction logged successfully!" ∈ els ∧
    Forall (λ e, is_alert e = false) els ∧
    TransactionsFrame rows ∈ els ∧
    mkTransaction "AAPL" (mkDate 2024 3 1) "Dividend" (numeric4 (F64 250 0)) (Some "Q1"%string)
      ∈ rows ∧
    rows ≡ₚ mkTransaction "AAPL" (mkDate 2024 3 1) "Dividend" (numeric4 (F64 250 0))
              (Some "Q1"%string) :: [aapl_buy] ∧
    assets (committed w') = [aapl] ∧
    pending w' = committed w'.
Proof.
  apply (transactions_page_logs rt_sample srv_cascade
           (mkTransactionInputs "AAPL" (F64 250 0) "Dividend" "Q1" true)
           (world_of (mkDb [aapl] [aapl_buy]))); reflexivity.
Defined.



(** X28.  The add-asset form submitted with every field filled while the
    connection is lost: the page shows neither the success message nor
    the error message; the [InterfaceError] that [create_asset] lets
    through ends the page, before the table of assets is read. *)
Theorem add_form_lost_connection (rt : runtime) (srv : server) (fr fu fd : failure)
    (inp : manage_inputs) (w : world) :
  add_submitted inp = true ->
  str_truthy (str_upper rt (add_ticker inp)) = true ->
  float_truthy (add_shares inp) = true ->
  float_truthy (add_cost inp) = true ->
  display_manage_assets rt srv ConnectionLost fr fu fd inp w
    = (Raised (Psycopg2Error InterfaceError), disconnected w).
Proof.
  intros Hsub Ht Hs Hc.
  unfold display_manage_assets, mbind at 1, py_bind at 1.
  unfold add_asset_form, mbind, py_bind, now_date. rewrite Hsub, Ht, Hs, Hc.
  cbn [andb]. by rewrite create_asset_run.
Qed.

Lemma add_form_lost_connection_witness :
  display_manage_assets rt_sample srv_cascade ConnectionLost NoFailure NoFailure NoFailure
    (mkManageInputs "goog" (F64 3 0) (mkDate 2024 3 1) "Crypto" (F64 99 0) true
       "AAPL" "AAPL" (F64 10 0) (mkDate 2024 1 1) "Equities" (F64 1500 0) false false)
    (world_of (mkDb [aapl] [aapl_buy]))
  = (Raised (Psycopg2Error InterfaceError),
     disconnected (world_of (mkDb [aapl] [aapl_buy]))).
Proof.
  apply (add_form_lost_connection rt_sample srv_cascade NoFailure NoFailure NoFailure
           (mkManageInputs "goog" (F64 3 0) (mkDate 2024 3 1) "Crypto" (F64 99 0) true
              "AAPL" "AAPL" (F64 10 0) (mkDate 2024 1 1) "Equities" (F64 1500 0)
              false false)
           (world_of (mkDb [aapl] [aapl_buy]))); reflexivity.
Defined.
